(** * MiV-OS: spike cutouts and the abnormality detector

    A shallow embedding of [miv/signal/spike/cutout.py] and
    [miv/signal/events/abnormality_detection.py].

    Python objects are records, in-place mutation is a function from the old
    object to the new one, and the methods of the detector run in a small
    monad that threads the detector and carries Python exceptions.  Floats
    (waveform samples, spike times, probabilities) are the rationals they
    denote: the code only compares them and tests them against zero. *)

From Stdlib Require Import String ZArith QArith List Bool Lia Permutation.
From Stdlib Require Floats Uint63.
Import ListNotations.

Set Implicit Arguments.
Local Open Scope Z_scope.

(** ** Python exceptions and fallible results *)

Inductive exn : Type :=
| TypeError
| IndexError
| AttributeError
| ValueError
| Exception_ (msg : string).

Inductive result (A : Type) : Type :=
| Ok (a : A)
| Raise (e : exn).

Arguments Ok {A} a.
Arguments Raise {A} e.

Definition rbind {A B : Type} (r : result A) (k : A -> result B) : result B :=
  match r with
  | Ok a => k a
  | Raise e => Raise e
  end.

Declare Scope py_scope.
Delimit Scope py_scope with py.
Notation "x <- r ;; k" := (rbind r (fun x => k))
  (at level 100, r at next level, right associativity) : py_scope.
Local Open Scope py_scope.

(** ** The Python and NumPy operations the two modules rely on *)

Module Py.

(** [l[i]] on a list or a one-dimensional array: a negative index counts
    from the end, an index out of range raises [IndexError]. *)
Definition index {A : Type} (l : list A) (i : Z) : result A :=
  let n := Z.of_nat (length l) in
  let j := if i <? 0 then i + n else i in
  if (0 <=? j) && (j <? n) then
    match nth_error l (Z.to_nat j) with
    | Some x => Ok x
    | None => Raise IndexError
    end
  else Raise IndexError.

(** [l[i] = x] seen as a function of the list, for [0 <= i < len(l)]. *)
Fixpoint set_nth {A : Type} (l : list A) (i : nat) (x : A) : list A :=
  match l, i with
  | [], _ => []
  | _ :: t, O => x :: t
  | h :: t, S i' => h :: set_nth t i' x
  end.

(** The array [np.zeros(n)] holds for [n >= 0]. *)
Definition zeros (n : Z) : list Z := repeat 0 (Z.to_nat n).

(** [np.zeros(n)]: [n] zeros, [ValueError] for a negative dimension. *)
Definition np_zeros (n : Z) : result (list Z) :=
  if n <? 0 then Raise ValueError else Ok (zeros n).

(** [bool(a)] for a NumPy array with [size] elements: an empty array is
    false, a one-element array has the truth value of its element, and a
    larger one raises [ValueError] (the truth value is ambiguous). *)
Definition ndarray_bool (size : nat) (first_nonzero : bool) : result bool :=
  match size with
  | O => Ok false
  | S O => Ok first_nonzero
  | S (S _) => Raise ValueError
  end.

Definition nonzeroZ (l : list Z) : bool :=
  match l with x :: _ => negb (x =? 0) | [] => false end.

Definition nonzeroQ (l : list Q) : bool :=
  match l with x :: _ => negb (Qeq_bool x 0) | [] => false end.

(** Truth value of a one-dimensional integer array. *)
Definition bool_array1 (a : list Z) : result bool :=
  ndarray_bool (length a) (nonzeroZ a).

(** Truth value of a two-dimensional array given by its rows. *)
Definition bool_array2 (a : list (list Q)) : result bool :=
  ndarray_bool (length (concat a)) (nonzeroQ (concat a)).

End Py.

(** ** [SpikeCutout] (cutout.py, lines 10-32) *)

Module SpikeCutout.

(** The attributes [__init__] sets; the class body declares no other. *)
Record t : Type := mk {
  cutout : list Q;
  sampling_rate : Q;
  pca_comp_index : Z
}.

(** [SpikeCutout(cutout, sampling_rate, pca_comp_index, *extra)]:
    [__init__] has three parameters besides [self]; the positional
    arguments a call site passes beyond the third are [extra], and Python
    rejects such a call with [TypeError].  The class is decorated with
    [@dataclass] but declares no field and defines [__init__] itself, so
    the decorator leaves this constructor in place. *)
Definition __init__ (cutout : list Q) (sampling_rate : Q) (pca_comp_index : Z)
    (extra : list Q) : result t :=
  match extra with
  | [] => Ok (mk cutout sampling_rate pca_comp_index)
  | _ :: _ => Raise TypeError
  end.

(** [len(c)] *)
Definition __len__ (c : t) : nat := length (cutout c).

(** [c.time]: no attribute of that name is ever set on an instance. *)
Definition time (c : t) : result Q := Raise AttributeError.

(** [iter(c)], as used by [list(c)] and by tuple unpacking of [c]: the
    class defines neither [__iter__] nor [__getitem__]. *)
Definition iter (c : t) : result (list Q) := Raise TypeError.

End SpikeCutout.

(** ** [ChannelSpikeCutout] (cutout.py, lines 35-125) *)

Module ChannelSpikeCutout.

Record t : Type := mk {
  cutouts : list SpikeCutout.t;
  num_components : Z;
  channel_index : Z;
  categorized : bool;
  categorization_list : list Z
}.

(** ["uncategorized", "neuronal", "false", "mixed"] *)
Definition CATEGORY_NAMES : list string :=
  ["uncategorized"; "neuronal"; "false"; "mixed"]%string.

(** [__init__], lines 53-68. *)
Definition __init__ (cutouts : list SpikeCutout.t) (num_components : Z)
    (channel_index : Z) (categorization_list : option (list Z)) : result t :=
  categorized <- match categorization_list with
                 | None => Ok false
                 | Some a => Py.bool_array1 a
                 end ;;
  cl <- (if categorized : bool
         then Ok (match categorization_list with Some a => a | None => [] end)
         else Py.np_zeros num_components) ;;
  Ok (mk cutouts num_components channel_index categorized cl).

Definition __len__ (c : t) : nat := length (cutouts c).

(** [range(n)] for the rows of [get_cutouts_by_component]. *)
Definition empty_rows (n : Z) : list (list SpikeCutout.t) :=
  repeat [] (Z.to_nat n).

(** [components[k.pca_comp_index].append(k)] *)
Definition append_to_row (components : list (list SpikeCutout.t))
    (k : SpikeCutout.t) : result (list (list SpikeCutout.t)) :=
  let n := Z.of_nat (length components) in
  let i := SpikeCutout.pca_comp_index k in
  let j := if i <? 0 then i + n else i in
  row <- Py.index components i ;;
  Ok (Py.set_nth components (Z.to_nat j) (row ++ [k])).

Fixpoint fill_rows (components : list (list SpikeCutout.t))
    (cs : list SpikeCutout.t) : result (list (list SpikeCutout.t)) :=
  match cs with
  | [] => Ok components
  | k :: rest =>
      components' <- append_to_row components k ;;
      fill_rows components' rest
  end.

(** [get_cutouts_by_component], lines 73-84. *)
Definition get_cutouts_by_component (c : t)
    : result (list (list SpikeCutout.t)) :=
  fill_rows (empty_rows (num_components c)) (cutouts c).

(** [categorize], lines 86-102.  In the first branch
    [num_components > len(category_index) >= 0], so [np.zeros] cannot
    raise there. *)
Definition categorize (category_index : list Z) (c : t) : t :=
  if Z.of_nat (length category_index) <? num_components c then
    mk (cutouts c) (num_components c) (channel_index c)
       false (Py.zeros (num_components c))
  else
    mk (cutouts c) (num_components c) (channel_index c)
       true category_index.

(** The dictionary [get_labeled_cutouts] returns. *)
Record labeled : Type := mk_labeled {
  labels : list Z;
  labeled_cutouts : list SpikeCutout.t;
  size : nat
}.

Definition no_labeled : labeled := mk_labeled [] [] 0.

(** The loop of lines 121-124, from the accumulators [acc]. *)
Fixpoint label_loop (categorization_list : list Z) (cs : list SpikeCutout.t)
    (acc : labeled) : result labeled :=
  match cs with
  | [] => Ok acc
  | k :: rest =>
      l <- Py.index categorization_list (SpikeCutout.pca_comp_index k) ;;
      label_loop categorization_list rest
        (mk_labeled (labels acc ++ [l]) (labeled_cutouts acc ++ [k])
                    (S (size acc)))
  end.

(** [get_labeled_cutouts], lines 104-125. *)
Definition get_labeled_cutouts (c : t) : result labeled :=
  if categorized c
  then label_loop (categorization_list c) (cutouts c) no_labeled
  else Ok no_labeled.

End ChannelSpikeCutout.

(** ** [Spikestamps] (spikestamps.py)

    The channels of a [Spikestamps] are Python list objects, which
    [append], [insert] and [__setitem__] store by reference and [extend]
    grows in place.  A list object is named by its address on a heap that
    holds the contents of the list objects allocated so far; [self.data]
    is the sequence of the addresses of the channels. *)

Module Spikestamps.

Definition ref : Type := nat.
Definition heap : Type := list (list Q).

(** The spike times a list object holds. *)
Definition contents (h : heap) (r : ref) : list Q := nth r h [].

(** Evaluating [[]]: a new, empty list object. *)
Definition alloc (h : heap) : heap * ref := (h ++ [[]], length h).

(** [r.extend(a)] on two list objects. *)
Definition list_extend (r a : ref) (h : heap) : heap :=
  Py.set_nth h r (contents h r ++ contents h a).

Record t : Type := mk { data : list ref }.

(** [len(s)] *)
Definition __len__ (s : t) : nat := length (data s).

(** [n] evaluations of [[]], in order. *)
Fixpoint fresh_channels (n : nat) (h : heap) : heap * list ref :=
  match n with
  | O => (h, [])
  | S n' =>
      let (h1, r) := alloc h in
      let (h2, rs) := fresh_channels n' h1 in
      (h2, r :: rs)
  end.

(** [__init__], lines 16-19; [range] of a negative count is empty. *)
Definition __init__ (num_channels : option Z) (h : heap) : heap * t :=
  match num_channels with
  | None => (h, mk [])
  | Some n =>
      let (h', rs) := fresh_channels (Z.to_nat n) h in
      (h', mk rs)
  end.

(** [__setitem__], lines 21-22: [self.data[index] = item]. *)
Definition __setitem__ (index : Z) (item : ref) (s : t) : result t :=
  let n := Z.of_nat (length (data s)) in
  let j := if index <? 0 then index + n else index in
  if (0 <=? j) && (j <? n)
  then Ok (mk (Py.set_nth (data s) (Z.to_nat j) item))
  else Raise IndexError.

(** [insert], lines 24-25: [list.insert] counts a negative index from the
    end and clamps the position into the list. *)
Definition insert (index : Z) (item : ref) (s : t) : t :=
  let n := Z.of_nat (length (data s)) in
  let j := if index <? 0 then Z.max 0 (index + n) else Z.min index n in
  mk (firstn (Z.to_nat j) (data s) ++ item :: skipn (Z.to_nat j) (data s)).

(** [append], lines 27-28. *)
Definition append (item : ref) (s : t) : t := mk (data s ++ [item]).

(** The argument of [extend]: another [Spikestamps], or any other
    iterable of list objects. *)
Inductive iterable : Type :=
| Stamps (other : t)
| Sequence (items : list ref).

(** Lines 36-37: [for idx, array in enumerate(other):
    self.data[idx].extend(array)]. *)
Fixpoint extend_loop (self_data : list ref) (idx : nat) (arrays : list ref)
    (h : heap) : result heap :=
  match arrays with
  | [] => Ok h
  | array :: rest =>
      r <- Py.index self_data (Z.of_nat idx) ;;
      extend_loop self_data (S idx) rest (list_extend r array h)
  end.

(** [extend], lines 30-39. *)
Definition extend (other : iterable) (s : t) (h : heap)
    : result (heap * t) :=
  match other with
  | Stamps o =>
      let length_diff := Z.of_nat (length (data o))
                         - Z.of_nat (length (data s)) in
      let (h1, pad) :=
        if 0 <? length_diff
        then fresh_channels (Z.to_nat length_diff) h
        else (h, []) in
      let data1 := data s ++ pad in
      h2 <- extend_loop data1 0 (data o) h1 ;;
      Ok (h2, mk data1)
  | Sequence items => Ok (h, mk (data s ++ items))
  end.

(** The spike times of channel [i], none when there is no such channel. *)
Definition channel (h : heap) (s : t) (i : nat) : list Q :=
  match nth_error (data s) i with
  | Some r => contents h r
  | None => []
  end.

(** Every channel is an allocated list object. *)
Definition allocated (h : heap) (s : t) : Prop :=
  Forall (fun r => (r < length h)%nat) (data s).

(** No list object is the channel of both. *)
Definition separate (s o : t) : Prop :=
  forall r, In r (data s) -> ~ In r (data o).

End Spikestamps.

(** ** [AbnormalityDetector] (abnormality_detection.py) *)

(** The spike-time sequence of one channel, [SpikeTrain(times, t_stop, pq.s)]. *)
Record SpikeTrain : Type := mkSpikeTrain {
  times : list Q;
  t_stop : Q
}.

(** The dictionary [evaluate_model] returns. *)
Record evaluation : Type := mkEvaluation {
  test_loss : Q;
  test_accuracy : Q
}.

Module AbnormalityDetector.

Section Collaborators.

(** The collaborators the detector is built from: the loaded signal, the
    classifier, and the library calls made on them. *)
Variables Signal Timebase Model : Type.

(** [sig.shape[1]], the number of channels. *)
Variable shape1 : Signal -> nat.

(** [miv.visualization.extract_waveforms(sig, spikes, chan_index, samp)]. *)
Variable extract_waveforms :
  Signal -> list (list Q) -> nat -> Q -> list (list Q).

(** [sklearn.utils.shuffle(X, y)]. *)
Variable shuffle : list (list Q) -> list Z -> list (list Q) * list Z.

(** [model.fit(X, y, epochs=epochs)], the fitted model, of a [fit] that
    returns; [fit_r] below is a [fit] that may raise. *)
Variable fit : Model -> list (list Q) -> list Z -> Z -> Model.

(** [model.evaluate(X, y)], the pair [(loss, acc)]. *)
Variable evaluate : Model -> list (list Q) -> list Z -> Q * Q.

(** [tf.keras.Sequential([model, Softmax()]).predict(batch)]: one
    probability vector per row of the batch. *)
Variable predict_proba : Model -> list (list Q) -> list (list Q).

(** Lines 355-358 of [get_only_neuronal_components]: [np.mean] of the
    loaded waveforms, the prediction on it, and the truth value of
    [prediction[0] >= accuracy_threshold]. *)
Variable mean_clears : Model -> list (list Q) -> Q -> result bool.

(** [_create_default_model(input_size, hidden_size, output_size)]. *)
Variable create_default_model : nat -> nat -> nat -> Model.

(** [data.load()] yields [(sig, times, samp)]. *)
Definition Data : Type := (Signal * Timebase * Q)%type.
Definition FilterProtocol : Type := Signal -> Q -> Signal.
Definition SpikeDetectionProtocol : Type :=
  Signal -> Timebase -> Q -> list (list Q).
(** [project(rank, raw_cutouts)], of which only the labels are used. *)
Definition SpikeFeatureExtractionProtocol : Type :=
  Z -> list (list Q) -> list Z.

Record t : Type := mk {
  spontaneous_data : Data;
  spont_signal_filter : FilterProtocol;
  spont_spike_detector : SpikeDetectionProtocol;
  extractor : SpikeFeatureExtractionProtocol;
  extractor_decomposition_parameter : Z;
  trained : bool;
  categorized : bool;
  model : option Model;
  skipped_channels : list nat;
  test_cutouts : list (list Q);
  test_labels : list Z;
  model_size : nat;
  num_channels : nat;
  spontaneous_cutouts : list ChannelSpikeCutout.t
}.

(** Attribute assignments. *)
Definition set_trained (b : bool) (s : t) : t :=
  mk (spontaneous_data s) (spont_signal_filter s) (spont_spike_detector s)
     (extractor s) (extractor_decomposition_parameter s) b (categorized s)
     (model s) (skipped_channels s) (test_cutouts s) (test_labels s)
     (model_size s) (num_channels s) (spontaneous_cutouts s).

Definition set_categorized (b : bool) (s : t) : t :=
  mk (spontaneous_data s) (spont_signal_filter s) (spont_spike_detector s)
     (extractor s) (extractor_decomposition_parameter s) (trained s) b
     (model s) (skipped_channels s) (test_cutouts s) (test_labels s)
     (model_size s) (num_channels s) (spontaneous_cutouts s).

Definition set_model (m : Model) (s : t) : t :=
  mk (spontaneous_data s) (spont_signal_filter s) (spont_spike_detector s)
     (extractor s) (extractor_decomposition_parameter s) (trained s)
     (categorized s) (Some m) (skipped_channels s) (test_cutouts s)
     (test_labels s) (model_size s) (num_channels s) (spontaneous_cutouts s).

Definition set_skipped_channels (l : list nat) (s : t) : t :=
  mk (spontaneous_data s) (spont_signal_filter s) (spont_spike_detector s)
     (extractor s) (extractor_decomposition_parameter s) (trained s)
     (categorized s) (model s) l (test_cutouts s) (test_labels s)
     (model_size s) (num_channels s) (spontaneous_cutouts s).

Definition set_test (X : list (list Q)) (y : list Z) (s : t) : t :=
  mk (spontaneous_data s) (spont_signal_filter s) (spont_spike_detector s)
     (extractor s) (extractor_decomposition_parameter s) (trained s)
     (categorized s) (model s) (skipped_channels s) X y
     (model_size s) (num_channels s) (spontaneous_cutouts s).

Definition set_model_size (n : nat) (s : t) : t :=
  mk (spontaneous_data s) (spont_signal_filter s) (spont_spike_detector s)
     (extractor s) (extractor_decomposition_parameter s) (trained s)
     (categorized s) (model s) (skipped_channels s) (test_cutouts s)
     (test_labels s) n (num_channels s) (spontaneous_cutouts s).

Definition set_num_channels (n : nat) (s : t) : t :=
  mk (spontaneous_data s) (spont_signal_filter s) (spont_spike_detector s)
     (extractor s) (extractor_decomposition_parameter s) (trained s)
     (categorized s) (model s) (skipped_channels s) (test_cutouts s)
     (test_labels s) (model_size s) n (spontaneous_cutouts s).

Definition set_spontaneous_cutouts (l : list ChannelSpikeCutout.t) (s : t)
    : t :=
  mk (spontaneous_data s) (spont_signal_filter s) (spont_spike_detector s)
     (extractor s) (extractor_decomposition_parameter s) (trained s)
     (categorized s) (model s) (skipped_channels s) (test_cutouts s)
     (test_labels s) (model_size s) (num_channels s) l.

(** A method body: it runs on the detector, returns a value or raises, and
    leaves the detector as the assignments made so far have it. *)
Definition M (A : Type) : Type := t -> result A * t.

Definition ret {A : Type} (a : A) : M A := fun s => (Ok a, s).

Definition bind {A B : Type} (m : M A) (k : A -> M B) : M B :=
  fun s =>
    match m s with
    | (Ok a, s') => k a s'
    | (Raise e, s') => (Raise e, s')
    end.

Definition lift {A : Type} (r : result A) : M A := fun s => (r, s).
Definition raise {A : Type} (e : exn) : M A := fun s => (Raise e, s).
Definition get {A : Type} (f : t -> A) : M A := fun s => (Ok (f s), s).
Definition assign (f : t -> t) : M unit := fun s => (Ok tt, f s).

Notation "x <~ m ;; k" := (bind m (fun x => k))
  (at level 100, m at next level, right associativity).

(** *** [_get_cutouts], lines 75-127 *)

(** The loop of lines 102-110 over [enumerate(raw_cutouts)]; the call
    passes four positional arguments to [SpikeCutout]. *)
Fixpoint cutouts_loop (samp : Q) (labels : list Z) (chan_spikes : list Q)
    (raw_cutouts : list (list Q)) (cutout_index : nat)
    (channel_cutouts_list : list SpikeCutout.t)
    : result (list SpikeCutout.t) :=
  match raw_cutouts with
  | [] => Ok channel_cutouts_list
  | raw_cutout :: rest =>
      label <- Py.index labels (Z.of_nat cutout_index) ;;
      time <- Py.index chan_spikes (Z.of_nat cutout_index) ;;
      k <- SpikeCutout.__init__ raw_cutout samp label [time] ;;
      cutouts_loop samp labels chan_spikes rest (S cutout_index)
                   (channel_cutouts_list ++ [k])
  end.

(** The body of the channel loop, lines 90-126. *)
Definition channel_cutouts (sig : Signal) (spikes : list (list Q))
    (samp : Q) (spike_feature_extractor : SpikeFeatureExtractionProtocol)
    (chan_index : nat) : M ChannelSpikeCutout.t :=
  rank <~ get extractor_decomposition_parameter ;;
  chan_spikes <~ lift (Py.index spikes (Z.of_nat chan_index)) ;;
  if rank <=? Z.of_nat (length chan_spikes) then
    let raw_cutouts := extract_waveforms sig spikes chan_index samp in
    let labels := spike_feature_extractor rank raw_cutouts in
    lift (l <- cutouts_loop samp labels chan_spikes raw_cutouts 0 [] ;;
          ChannelSpikeCutout.__init__ l rank (Z.of_nat chan_index) None)
  else
    skipped <~ get skipped_channels ;;
    _ <~ assign (set_skipped_channels (skipped ++ [chan_index])) ;;
    lift (ChannelSpikeCutout.__init__ [] rank (Z.of_nat chan_index) None).

Fixpoint channels_loop (sig : Signal) (spikes : list (list Q)) (samp : Q)
    (spike_feature_extractor : SpikeFeatureExtractionProtocol)
    (chans : list nat) (exp_cutouts : list ChannelSpikeCutout.t)
    : M (list ChannelSpikeCutout.t) :=
  match chans with
  | [] => ret exp_cutouts
  | chan_index :: rest =>
      ch <~ channel_cutouts sig spikes samp spike_feature_extractor
              chan_index ;;
      channels_loop sig spikes samp spike_feature_extractor rest
                    (exp_cutouts ++ [ch])
  end.

Definition _get_cutouts (data : Data) (signal_filter : FilterProtocol)
    (spike_detector : SpikeDetectionProtocol)
    (spike_feature_extractor : SpikeFeatureExtractionProtocol)
    : M (list ChannelSpikeCutout.t) :=
  let '(sig, times, samp) := data in
  let spontaneous_sig := signal_filter sig samp in
  let spontaneous_spikes := spike_detector spontaneous_sig times samp in
  _ <~ assign (set_num_channels (shape1 spontaneous_sig)) ;;
  _ <~ assign (set_skipped_channels []) ;;
  n <~ get num_channels ;;
  channels_loop spontaneous_sig spontaneous_spikes samp
                spike_feature_extractor (seq 0 n) [].

(** [__init__], lines 44-73. *)
Definition __init__ (spontaneous_data : Data)
    (spont_signal_filter : FilterProtocol)
    (spont_spike_detector : SpikeDetectionProtocol)
    (spike_feature_extractor : SpikeFeatureExtractionProtocol)
    (extractor_decomposition_parameter : Z) : result t * t :=
  let self := mk spontaneous_data spont_signal_filter spont_spike_detector
                 spike_feature_extractor extractor_decomposition_parameter
                 false false None [] [] [] 0 0 [] in
  (l <~ _get_cutouts spontaneous_data spont_signal_filter
          spont_spike_detector spike_feature_extractor ;;
   _ <~ assign (set_spontaneous_cutouts l) ;;
   get (fun s => s)) self.

(** *** [categorize_spontaneous], lines 129-145 *)

(** The loop over [enumerate(categorization_list)]: the channel object at
    [chan_index] is categorized in place. *)
Fixpoint categorize_rows (rows : list (list Z)) (chan_index : nat) : M unit :=
  match rows with
  | [] => ret tt
  | chan_row :: rest =>
      chans <~ get spontaneous_cutouts ;;
      ch <~ lift (Py.index chans (Z.of_nat chan_index)) ;;
      _ <~ assign (set_spontaneous_cutouts
                     (Py.set_nth chans chan_index
                        (ChannelSpikeCutout.categorize chan_row ch))) ;;
      categorize_rows rest (S chan_index)
  end.

Definition categorize_spontaneous (categorization_list : list (list Z))
    : M unit :=
  _ <~ categorize_rows categorization_list 0 ;;
  assign (set_categorized true).

(** *** [train_model], lines 147-198 *)

(** [int(model_size * 0.8)].  The double nearest to 0.8 exceeds it by less
    than 2^-54 in relative terms, so for every count below 2^50 the rounded
    product truncates to the integer part of four fifths of the count. *)
Definition split_point (model_size : nat) : nat := (4 * model_size) / 5.

(** The inner loop of lines 168-174 over [enumerate(labels)]:
    [list(...)] iterates the [SpikeCutout] object itself. *)
Fixpoint pool_spikes (lab : ChannelSpikeCutout.labeled)
    (spike_labels : list Z) (spike_index : nat)
    (labeled_cutouts : list (list Q)) (labels : list Z)
    : result (list (list Q) * list Z) :=
  match spike_labels with
  | [] => Ok (labeled_cutouts, labels)
  | spike_label :: rest =>
      k <- Py.index (ChannelSpikeCutout.labeled_cutouts lab)
                    (Z.of_nat spike_index) ;;
      w <- SpikeCutout.iter k ;;
      pool_spikes lab rest (S spike_index)
                  (labeled_cutouts ++ [w]) (labels ++ [spike_label])
  end.

(** The outer loop of lines 166-175. *)
Fixpoint pool_channels (chans : list ChannelSpikeCutout.t)
    (labeled_cutouts : list (list Q)) (labels : list Z)
    : M (list (list Q) * list Z) :=
  match chans with
  | [] => ret (labeled_cutouts, labels)
  | channelCutout :: rest =>
      lab <~ lift (ChannelSpikeCutout.get_labeled_cutouts channelCutout) ;;
      p <~ lift (pool_spikes lab (ChannelSpikeCutout.labels lab) 0
                   labeled_cutouts labels) ;;
      n <~ get model_size ;;
      _ <~ assign (set_model_size (n + ChannelSpikeCutout.size lab)) ;;
      pool_channels rest (fst p) (snd p)
  end.

(** What [train_model] hands to [fit] and keeps for evaluation. *)
Record partition : Type := mk_partition {
  train_cutouts : list (list Q);
  train_labels : list Z;
  held_cutouts : list (list Q);
  held_labels : list Z
}.

(** Lines 177-183: shuffle, then cut both lists at [split]. *)
Definition split_pool (model_size : nat) (labeled_cutouts : list (list Q))
    (labels : list Z) : list (list Q) * partition :=
  let (X, y) := shuffle labeled_cutouts labels in
  let split := split_point model_size in
  (X, mk_partition (firstn split X) (firstn split y)
                   (skipn split X) (skipn split y)).

(** Lines 186-194: the model to fit. *)
Definition choose_model (model : option Model)
    (shuffled_cutouts : list (list Q)) : M unit :=
  match model with
  | None =>
      chans <~ get spontaneous_cutouts ;;
      ch0 <~ lift (Py.index chans 0) ;;
      k0 <~ lift (Py.index (ChannelSpikeCutout.cutouts ch0) 0) ;;
      let hidden_layer_size := length (SpikeCutout.cutout k0) in
      w1 <~ lift (Py.index shuffled_cutouts 1) ;;
      assign (set_model
                (create_default_model (length w1) hidden_layer_size
                   (length ChannelSpikeCutout.CATEGORY_NAMES - 1)))
  | Some m => assign (set_model m)
  end.

(** [self.model]: the attribute exists once a model has been assigned. *)
Definition get_model : M Model :=
  m <~ get model ;;
  match m with
  | Some m => ret m
  | None => raise AttributeError
  end.

(** [train_model] returns [None]; the model returns the partition it
    computed, which the source keeps in locals and attributes. *)
Definition train_model (model : option Model) (epochs : Z) : M partition :=
  _ <~ assign (set_model_size 0) ;;
  chans <~ get spontaneous_cutouts ;;
  pool <~ pool_channels chans [] [] ;;
  n <~ get model_size ;;
  let (X, p) := split_pool n (fst pool) (snd pool) in
  _ <~ assign (set_test (held_cutouts p) (held_labels p)) ;;
  _ <~ choose_model model X ;;
  m <~ get_model ;;
  _ <~ assign (set_model (fit m (train_cutouts p) (train_labels p) epochs)) ;;
  _ <~ assign (set_trained true) ;;
  ret p.

(** *** [train_model] when the library calls may raise

    [shuffle], the Keras constructors, [compile] and [fit] are calls into
    libraries.  Above they are taken to return.  Here each of them may
    raise; [compile] and [fit] work on the model object in place, so they
    also say how they leave it, whether they return or raise. *)
Variable shuffle_r :
  list (list Q) -> list Z -> result (list (list Q) * list Z).
Variable sequential_r : nat -> nat -> nat -> result Model.
Variable compile_r : Model -> result unit * Model.
Variable fit_r :
  Model -> list (list Q) -> list Z -> Z -> result unit * Model.

(** [self.model.method(...)]: the object [self.model] names is changed in
    place, and the call returns or raises. *)
Definition on_model (method : Model -> result unit * Model) : M unit :=
  m <~ get_model ;;
  _ <~ assign (set_model (snd (method m))) ;;
  lift (fst (method m)).

(** [_create_default_model], lines 231-242: [self.model] is assigned
    before [compile] is called on it. *)
Definition _create_default_model (input_size hidden_size output_size : nat)
    : M unit :=
  m <~ lift (sequential_r input_size hidden_size output_size) ;;
  _ <~ assign (set_model m) ;;
  on_model compile_r.

(** Lines 186-194. *)
Definition choose_model_r (model : option Model)
    (shuffled_cutouts : list (list Q)) : M unit :=
  match model with
  | None =>
      chans <~ get spontaneous_cutouts ;;
      ch0 <~ lift (Py.index chans 0) ;;
      k0 <~ lift (Py.index (ChannelSpikeCutout.cutouts ch0) 0) ;;
      let hidden_layer_size := length (SpikeCutout.cutout k0) in
      w1 <~ lift (Py.index shuffled_cutouts 1) ;;
      _create_default_model (length w1) hidden_layer_size
        (length ChannelSpikeCutout.CATEGORY_NAMES - 1)
  | Some m => assign (set_model m)
  end.

(** Lines 147-198: [self.model] is assigned before [fit] is called on it,
    and [self.trained] after [fit] has returned. *)
Definition train_model_r (model : option Model) (epochs : Z) : M partition :=
  _ <~ assign (set_model_size 0) ;;
  chans <~ get spontaneous_cutouts ;;
  pool <~ pool_channels chans [] [] ;;
  shuffled <~ lift (shuffle_r (fst pool) (snd pool)) ;;
  n <~ get model_size ;;
  let split := split_point n in
  let p := mk_partition (firstn split (fst shuffled))
                        (firstn split (snd shuffled))
                        (skipn split (fst shuffled))
                        (skipn split (snd shuffled)) in
  _ <~ assign (set_test (held_cutouts p) (held_labels p)) ;;
  _ <~ choose_model_r model (fst shuffled) ;;
  _ <~ on_model (fun m => fit_r m (train_cutouts p) (train_labels p)
                            epochs) ;;
  _ <~ assign (set_trained true) ;;
  ret p.


(** *** [evaluate_model], lines 200-229 *)

(** [a if a else b] on an optional NumPy array. *)
Definition array2_or (a : option (list (list Q))) (b : list (list Q))
    : result (list (list Q)) :=
  match a with
  | None => Ok b
  | Some x => c <- Py.bool_array2 x ;; Ok (if c : bool then x else b)
  end.

Definition array1_or (a : option (list Z)) (b : list Z) : result (list Z) :=
  match a with
  | None => Ok b
  | Some x => c <- Py.bool_array1 x ;; Ok (if c : bool then x else b)
  end.

Definition evaluate_model (test_cutouts_arg : option (list (list Q)))
    (test_labels_arg : option (list Z)) : M evaluation :=
  is_trained <~ get trained ;;
  if negb is_trained then ret (mkEvaluation 1%Q 0%Q)
  else
    held_X <~ get test_cutouts ;;
    data <~ lift (array2_or test_cutouts_arg held_X) ;;
    held_y <~ get test_labels ;;
    labels <~ lift (array1_or test_labels_arg held_y) ;;
    m <~ get_model ;;
    let (loss, acc) := evaluate m data labels in
    ret (mkEvaluation loss acc).

(** *** Inference, lines 244-365 *)

Definition untrained : exn :=
  Exception_ "Abnormality detector is not trained yet.".

(** [a if a else b] on an optional collaborator object. *)
Definition or_else {A : Type} (a : option A) (b : A) : A :=
  match a with Some x => x | None => b end.

(** Lines 290-296: the loop over the cutouts of one channel. *)
Fixpoint spikes_loop (m : Model) (accuracy_threshold : Q)
    (cs : list SpikeCutout.t) (times : list Q) (t_stop : Q)
    : result SpikeTrain :=
  match cs with
  | [] => Ok (mkSpikeTrain times t_stop)
  | spike_cutout :: rest =>
      let prediction := predict_proba m [SpikeCutout.cutout spike_cutout] in
      row <- Py.index prediction 0 ;;
      p <- Py.index row 0 ;;
      if Qle_bool accuracy_threshold p then
        t <- SpikeCutout.time spike_cutout ;;
        t' <- SpikeCutout.time spike_cutout ;;
        spikes_loop m accuracy_threshold rest (times ++ [t]) t'
      else spikes_loop m accuracy_threshold rest times t_stop
  end.

(** Lines 288-297 for one channel. *)
Definition neuronal_spikes_of_channel (m : Model) (accuracy_threshold : Q)
    (cutout_channel : ChannelSpikeCutout.t) : result SpikeTrain :=
  spikes_loop m accuracy_threshold
              (ChannelSpikeCutout.cutouts cutout_channel) [] 0%Q.

Fixpoint map_result {A B : Type} (f : A -> result B) (l : list A)
    : result (list B) :=
  match l with
  | [] => Ok []
  | x :: rest =>
      y <- f x ;;
      ys <- map_result f rest ;;
      Ok (y :: ys)
  end.

Definition get_only_neuronal_spikes (exp_data : Data)
    (accuracy_threshold : Q) (signal_filter : option FilterProtocol)
    (spike_detector : option SpikeDetectionProtocol)
    : M (list SpikeTrain) :=
  is_trained <~ get trained ;;
  if negb is_trained then raise untrained
  else
    own_filter <~ get spont_signal_filter ;;
    own_detector <~ get spont_spike_detector ;;
    own_extractor <~ get extractor ;;
    list_of_cutout_channels <~
      _get_cutouts exp_data (or_else signal_filter own_filter)
                   (or_else spike_detector own_detector) own_extractor ;;
    m <~ get_model ;;
    lift (map_result (neuronal_spikes_of_channel m accuracy_threshold)
                     list_of_cutout_channels).

(** [for cutout_index, spike_cutout in comp_cutouts]: each element of the
    row is unpacked into two names, which iterates it. *)
Definition unpack_pair (k : SpikeCutout.t) : result (Q * Q) :=
  items <- SpikeCutout.iter k ;;
  match items with
  | [a; b] => Ok (a, b)
  | _ => Raise ValueError
  end.

(** Lines 352-353: the first element of a non-empty row is unpacked;
    were that to succeed, [spike_cutout] would name a sample, which has no
    attribute [cutout]. *)
Definition load_loop (comp_cutouts : list SpikeCutout.t)
    (loaded_comp_cutouts : list (list Q)) : result (list (list Q)) :=
  match comp_cutouts with
  | [] => Ok loaded_comp_cutouts
  | k :: _ => _ <- unpack_pair k ;; Raise AttributeError
  end.

(** Lines 359-360, with the same loop header. *)
Definition times_loop (comp_cutouts : list SpikeCutout.t)
    (channel_times : list Q) : result (list Q) :=
  match comp_cutouts with
  | [] => Ok channel_times
  | k :: _ => _ <- unpack_pair k ;; Raise AttributeError
  end.

(** Lines 349-360: the loop over the rows of one channel. *)
Fixpoint components_loop (m : Model) (accuracy_threshold : Q)
    (rows : list (list SpikeCutout.t)) (channel_times : list Q)
    : result (list Q) :=
  match rows with
  | [] => Ok channel_times
  | comp_cutouts :: rest =>
      loaded <- load_loop comp_cutouts [] ;;
      clears <- mean_clears m loaded accuracy_threshold ;;
      channel_times' <- (if clears : bool
                         then times_loop comp_cutouts channel_times
                         else Ok channel_times) ;;
      components_loop m accuracy_threshold rest channel_times'
  end.

(** Lines 346-363 for one channel. *)
Definition neuronal_components_of_channel (m : Model)
    (accuracy_threshold : Q) (cutout_channel : ChannelSpikeCutout.t)
    : result SpikeTrain :=
  chan_cutouts_by_comp <-
    ChannelSpikeCutout.get_cutouts_by_component cutout_channel ;;
  channel_times <-
    components_loop m accuracy_threshold chan_cutouts_by_comp [] ;;
  Ok (mkSpikeTrain channel_times (last channel_times 0%Q)).

Definition get_only_neuronal_components (exp_data : Data)
    (accuracy_threshold : Q) (signal_filter : option FilterProtocol)
    (spike_detector : option SpikeDetectionProtocol)
    : M (list SpikeTrain) :=
  is_trained <~ get trained ;;
  if negb is_trained then raise untrained
  else
    own_filter <~ get spont_signal_filter ;;
    own_detector <~ get spont_spike_detector ;;
    own_extractor <~ get extractor ;;
    list_of_cutout_channels <~
      _get_cutouts exp_data (or_else signal_filter own_filter)
                   (or_else spike_detector own_detector) own_extractor ;;
    m <~ get_model ;;
    lift (map_result (neuronal_components_of_channel m accuracy_threshold)
                     list_of_cutout_channels).

End Collaborators.

End AbnormalityDetector.

(** ** A small recording and its collaborators

    A recording is given by the spike times of its channels; every spike
    yields a one-sample waveform holding its time, and the classifier reports
    a waveform's sample as its first probability. *)

Module Recording.

Definition Signal : Type := list (list Q).
Definition shape1 (sig : Signal) : nat := length sig.

Definition extract_waveforms (sig : Signal) (spikes : list (list Q))
    (chan_index : nat) (samp : Q) : list (list Q) :=
  map (fun x => [x]) (nth chan_index spikes []).

Definition shuffle (X : list (list Q)) (y : list Z)
    : list (list Q) * list Z := (rev X, rev y).

Definition fit (m : nat) (X : list (list Q)) (y : list Z) (epochs : Z)
    : nat := (m + length X)%nat.

Definition evaluate (m : nat) (X : list (list Q)) (y : list Z) : Q * Q :=
  (inject_Z (Z.of_nat (length X)), inject_Z (Z.of_nat (length y))).

Definition predict_proba (m : nat) (batch : list (list Q))
    : list (list Q) := batch.

Definition mean_clears (m : nat) (loaded : list (list Q)) (thr : Q)
    : result bool := Ok true.

Definition create_default_model (i h o : nat) : nat := 0%nat.

Definition signal_filter : AbnormalityDetector.FilterProtocol Signal :=
  fun sig _ => sig.

Definition spike_detector
    : AbnormalityDetector.SpikeDetectionProtocol Signal unit :=
  fun sig _ _ => sig.

Definition feature_extractor
    : AbnormalityDetector.SpikeFeatureExtractionProtocol :=
  fun rank raw_cutouts => map (fun _ => 0) raw_cutouts.

Definition data (sig : Signal) : AbnormalityDetector.Data Signal unit :=
  (sig, tt, 30000%Q).

Definition detector := AbnormalityDetector.t Signal unit nat.

(** [AbnormalityDetector(data, filter, detector, extractor, rank)]. *)
Definition build (sig : Signal) (rank : Z) : result detector * detector :=
  @AbnormalityDetector.__init__ Signal unit nat shape1 extract_waveforms
    (data sig) signal_filter spike_detector feature_extractor rank.

(** One channel with too few spikes for rank 3. *)
Definition quiet : Signal := [[0.5%Q]].

(** One channel with three spikes, enough for rank 3. *)
Definition spiking : Signal := [[0.1%Q; 0.2%Q; 0.95%Q]].

(** The detector built on the quiet recording. *)
Definition quiet_detector : detector := snd (build quiet 3).

(** The same detector after a training run has completed. *)
Definition trained_detector : detector :=
  AbnormalityDetector.set_trained true
    (AbnormalityDetector.set_model 7%nat quiet_detector).

(** Two channels: the first too quiet for rank 3, the second not. *)
Definition mixed : Signal := [[0.5%Q]; [0.1%Q; 0.2%Q; 0.95%Q]].

(** A channel object holding one cutout, which the classifier scores 0.95. *)
Definition one_spike_channel : ChannelSpikeCutout.t :=
  ChannelSpikeCutout.mk [SpikeCutout.mk [0.95%Q] 30000%Q 0] 3 0
                        false [0; 0; 0].

(** A detector with an uncategorized channel of one cutout and a
    categorized channel without cutouts, and the same after training. *)
Definition two_channel_detector : detector :=
  AbnormalityDetector.set_spontaneous_cutouts
    [one_spike_channel; ChannelSpikeCutout.mk [] 3 1 true [1; 2; 2]]
    quiet_detector.

(** Two channels, both too quiet for rank 3. *)
Definition quiet2 : Signal := [[0.5%Q]; []].

(** The trained detector holding two test cutouts and their labels. *)
Definition held_detector : detector :=
  AbnormalityDetector.set_test [[0.5%Q]; [0.25%Q]] [1; 1] trained_detector.

(** A pool of five cutouts and their labels. *)
Definition pool5 : list (list Q) :=
  [[0.1%Q]; [0.2%Q]; [0.3%Q]; [0.4%Q]; [0.5%Q]].
Definition labels5 : list Z := [1; 1; 2; 2; 1].

(** A detector whose one channel is categorized and holds one cutout,
    labelled 1 (neuronal). *)
Definition labeled_detector : detector :=
  AbnormalityDetector.set_spontaneous_cutouts
    [ChannelSpikeCutout.mk [SpikeCutout.mk [0.95%Q] 30000%Q 0] 3 0
                           true [1; 2; 2]]
    quiet_detector.

(** Library calls that may raise: this [fit] refuses an empty training
    set and leaves the model as it found it. *)
Definition shuffle_r (X : list (list Q)) (y : list Z)
    : result (list (list Q) * list Z) := Ok (shuffle X y).

Definition sequential_r (i h o : nat) : result nat :=
  Ok (create_default_model i h o).

Definition compile_r (m : nat) : result unit * nat := (Ok tt, m).

Definition fit_r (m : nat) (X : list (list Q)) (y : list Z) (epochs : Z)
    : result unit * nat :=
  match X with
  | [] => (Raise ValueError, m)
  | _ :: _ => (Ok tt, fit m X y epochs)
  end.


End Recording.

(** ** The split point in double precision *)

Module DoubleSplit.
Import Floats Uint63.

(** [int(x)] on a double: truncation toward zero. *)
Definition int_of_double (x : float) : Z :=
  match Prim2SF x with
  | S754_finite false m e =>
      if 0 <=? e then Zpos m * 2 ^ e else Zpos m / 2 ^ (- e)
  | S754_finite true m e =>
      if 0 <=? e then - (Zpos m * 2 ^ e) else - (Zpos m / 2 ^ (- e))
  | _ => 0
  end.

(** [int(model_size * 0.8)] as Python evaluates it: the count converted to a
    double, multiplied by the double nearest to 0.8, truncated. *)
Definition split_point_double (model_size : nat) : Z :=
  int_of_double
    (PrimFloat.mul (PrimFloat.of_uint63 (Uint63.of_Z (Z.of_nat model_size)))
                   0x1.999999999999ap-1%float).

End DoubleSplit.

(** ** Quantities and sample objects the properties speak of *)

Module Sample.

(** The number of cutouts a channel contributes to training: all of them
    when the channel is categorized, none otherwise. *)
Definition labeled_count (c : ChannelSpikeCutout.t) : nat :=
  if ChannelSpikeCutout.categorized c
  then length (ChannelSpikeCutout.cutouts c) else 0%nat.

Fixpoint labeled_total (chans : list ChannelSpikeCutout.t) : nat :=
  match chans with
  | [] => 0%nat
  | c :: rest => (labeled_count c + labeled_total rest)%nat
  end.

(** Whether channel [i] has fewer spikes than the rank. *)
Definition too_few (spikes : list (list Q)) (rank : Z) (i : nat) : bool :=
  Z.of_nat (length (nth i spikes [])) <? rank.

(** Two detectors that differ at most in [skipped_channels]. *)
Definition only_skipped_changed {Signal Timebase Model : Type}
    (s s' : AbnormalityDetector.t Signal Timebase Model) : Prop :=
  s' = AbnormalityDetector.set_skipped_channels
         (AbnormalityDetector.skipped_channels s') s.

(** A channel of three components holding no cutout yet. *)
Definition fresh3 : ChannelSpikeCutout.t :=
  ChannelSpikeCutout.mk [] 3 0 false [0; 0; 0].

(** Five spikes of components 0,0,1,1,1. *)
Definition five_spikes : list SpikeCutout.t :=
  map (fun i => SpikeCutout.mk [0.5%Q; 1%Q] 30000%Q i) [0; 0; 1; 1; 1].

(** An index Python accepts for a sequence of [n] elements, and the
    position it denotes. *)
Definition in_range (n : nat) (i : Z) : Prop :=
  - Z.of_nat n <= i < Z.of_nat n.

Definition position (n : nat) (i : Z) : nat :=
  Z.to_nat (if i <? 0 then i + Z.of_nat n else i).

(** Three spikes of components 0, -1 and 1. *)
Definition wrapped_spikes : list SpikeCutout.t :=
  map (fun i => SpikeCutout.mk [0.5%Q] 30000%Q i) [0; -1; 1].

(** Six list objects: two channels of one recording, four of another. *)
Definition heap6 : Spikestamps.heap :=
  [[0.1%Q]; [0.2%Q; 0.3%Q]; [1%Q]; [2%Q]; [3%Q]; [4%Q]].

Definition stamps2 : Spikestamps.t := Spikestamps.mk [0%nat; 1%nat].

Definition stamps4 : Spikestamps.t :=
  Spikestamps.mk [2%nat; 3%nat; 4%nat; 5%nat].

End Sample.

(** * Properties *)

Unset Implicit Arguments.

(** ** Indexing *)

Lemma rbind_ok {A B : Type} (r : result A) (k : A -> result B) (b : B) :
  rbind r k = Ok b -> exists a, r = Ok a /\ k a = Ok b.
Proof.
  destruct r as [a|e]; simpl; intros H; [eauto | discriminate].
Qed.

Lemma index_in_range {A : Type} (l : list A) (i : Z) :
  0 <= i < Z.of_nat (length l) ->
  exists x, nth_error l (Z.to_nat i) = Some x /\ Py.index l i = Ok x.
Proof.
  intros Hi. unfold Py.index.
  replace (i <? 0) with false by (symmetry; apply Z.ltb_ge; lia).
  replace (0 <=? i) with true by (symmetry; apply Z.leb_le; lia).
  replace (i <? Z.of_nat (length l)) with true
    by (symmetry; apply Z.ltb_lt; lia).
  simpl.
  destruct (nth_error l (Z.to_nat i)) as [x|] eqn:E.
  - exists x. split; reflexivity.
  - apply nth_error_None in E. lia.
Qed.

Lemma index_of_nat {A : Type} (l : list A) (n : nat) :
  Py.index l (Z.of_nat n) =
  match nth_error l n with Some x => Ok x | None => Raise IndexError end.
Proof.
  unfold Py.index.
  replace (Z.of_nat n <? 0) with false by (symmetry; apply Z.ltb_ge; lia).
  replace (0 <=? Z.of_nat n) with true by (symmetry; apply Z.leb_le; lia).
  rewrite Nat2Z.id. simpl.
  destruct (Z.of_nat n <? Z.of_nat (length l)) eqn:E.
  - reflexivity.
  - apply Z.ltb_ge in E.
    assert (H : nth_error l n = None) by (apply nth_error_None; lia).
    rewrite H. reflexivity.
Qed.

Lemma set_nth_length {A : Type} (l : list A) (i : nat) (x : A) :
  length (Py.set_nth l i x) = length l.
Proof.
  revert i. induction l as [|h t IH]; intros [|i]; simpl; auto.
Qed.

Lemma set_nth_same {A : Type} (l : list A) (i : nat) (x : A) :
  (i < length l)%nat -> nth_error (Py.set_nth l i x) i = Some x.
Proof.
  revert i. induction l as [|h t IH]; intros [|i]; simpl; intros H;
    try lia; auto.
  apply IH. lia.
Qed.

Lemma set_nth_other {A : Type} (l : list A) (i j : nat) (x : A) :
  i <> j -> nth_error (Py.set_nth l i x) j = nth_error l j.
Proof.
  revert i j. induction l as [|h t IH]; intros [|i] [|j]; simpl; intros H;
    try reflexivity; try congruence.
  apply IH. congruence.
Qed.

(** ** The split point *)

(** For every count below 5000 the double-precision evaluation of
    [int(model_size * 0.8)] is the split point of the model. *)
Lemma split_point_matches_double :
  forallb (fun n => Z.of_nat (AbnormalityDetector.split_point n)
                      =? DoubleSplit.split_point_double n)
          (seq 0 5000) = true.
Proof. vm_compute. reflexivity. Qed.

(** X26. For every count below 5000, [int(model_size * 0.8)] evaluated in
    double precision, as Python does, is the integer part of four fifths
    of the count, the split point of the model. *)
Theorem split_point_is_exact_below_5000 (n : nat) :
  (n < 5000)%nat ->
  DoubleSplit.split_point_double n
    = Z.of_nat (AbnormalityDetector.split_point n) /\
  DoubleSplit.split_point_double n = 4 * Z.of_nat n / 5.
Proof.
  intros Hn.
  pose proof split_point_matches_double as H.
  rewrite forallb_forall in H.
  specialize (H n ltac:(apply in_seq; lia)).
  apply Z.eqb_eq in H. split; [symmetry; exact H | ].
  rewrite <- H. unfold AbnormalityDetector.split_point.
  rewrite Nat2Z.inj_div, Nat2Z.inj_mul. reflexivity.
Qed.

Lemma split_point_is_exact_below_5000_witness :
  DoubleSplit.split_point_double 7 = 5.
Proof.
  destruct (split_point_is_exact_below_5000 7) as (_ & H); [lia | ].
  rewrite H. reflexivity.
Defined.

(** ** Channel categorization *)

Module ChannelFacts.
Import ChannelSpikeCutout Sample.

(** C1. [categorize] with a list at least [num_components] long stores the
    list and sets [categorized]; with a shorter list it stores
    [num_components] zeros and clears [categorized], whatever the list
    holds; the cutouts, the component count and the channel index are
    kept, and the state left by an earlier call has no influence. *)
Theorem categorize_replaces (c : t) (L : list Z) :
  (num_components c <= Z.of_nat (length L) ->
     categorization_list (categorize L c) = L /\
     categorized (categorize L c) = true) /\
  (Z.of_nat (length L) < num_components c ->
     categorization_list (categorize L c)
       = repeat 0 (Z.to_nat (num_components c)) /\
     length (categorization_list (categorize L c))
       = Z.to_nat (num_components c) /\
     categorized (categorize L c) = false /\
     forall L', Z.of_nat (length L') < num_components c ->
                categorize L' c = categorize L c) /\
  (forall L0, categorize L (categorize L0 c) = categorize L c) /\
  cutouts (categorize L c) = cutouts c /\
  num_components (categorize L c) = num_components c /\
  channel_index (categorize L c) = channel_index c.
Proof.
  unfold categorize.
  repeat split.
  - destruct (Z.ltb_spec (Z.of_nat (length L)) (num_components c)); simpl;
      [lia | reflexivity].
  - destruct (Z.ltb_spec (Z.of_nat (length L)) (num_components c)); simpl;
      [lia | reflexivity].
  - destruct (Z.ltb_spec (Z.of_nat (length L)) (num_components c)); simpl;
      [reflexivity | lia].
  - destruct (Z.ltb_spec (Z.of_nat (length L)) (num_components c)); simpl;
      [apply repeat_length | lia].
  - destruct (Z.ltb_spec (Z.of_nat (length L)) (num_components c)); simpl;
      [reflexivity | lia].
  - intros L' HL'.
    destruct (Z.ltb_spec (Z.of_nat (length L)) (num_components c));
      destruct (Z.ltb_spec (Z.of_nat (length L')) (num_components c));
      try lia; reflexivity.
  - intros L0.
    destruct (Z.of_nat (length L0) <? num_components c); simpl;
      destruct (Z.of_nat (length L) <? num_components c); reflexivity.
  - destruct (Z.of_nat (length L) <? num_components c); reflexivity.
  - destruct (Z.of_nat (length L) <? num_components c); reflexivity.
  - destruct (Z.of_nat (length L) <? num_components c); reflexivity.
Qed.

Lemma categorize_replaces_witness :
  (categorization_list (categorize [1; 3; 2] fresh3) = [1; 3; 2] /\
   categorized (categorize [1; 3; 2] fresh3) = true) /\
  (categorization_list (categorize [1; 2] (categorize [1; 3; 2] fresh3))
     = [0; 0; 0] /\
   categorized (categorize [1; 2] (categorize [1; 3; 2] fresh3)) = false).
Proof.
  split.
  - apply (categorize_replaces fresh3 [1; 3; 2]). simpl. lia.
  - destruct (categorize_replaces (categorize [1; 3; 2] fresh3) [1; 2])
      as (_ & Hshort & _).
    destruct Hshort as (Hl & _ & Hc & _); [simpl; lia | ].
    split; [exact Hl | exact Hc].
Defined.

Lemma label_loop_valid (cl : list Z) (cs : list SpikeCutout.t) :
  Forall (fun k => 0 <= SpikeCutout.pca_comp_index k
                     < Z.of_nat (length cl)) cs ->
  forall acc,
    label_loop cl cs acc =
    Ok (mk_labeled
          (labels acc ++
           map (fun k => nth (Z.to_nat (SpikeCutout.pca_comp_index k)) cl 0)
               cs)
          (labeled_cutouts acc ++ cs)
          (size acc + length cs)).
Proof.
  induction 1 as [|k cs Hk _ IH]; intros acc; simpl.
  - rewrite !app_nil_r, Nat.add_0_r. destruct acc; reflexivity.
  - destruct (index_in_range cl _ Hk) as (x & Hx & ->). simpl.
    rewrite IH. simpl.
    rewrite <- !app_assoc. simpl.
    rewrite (nth_error_nth _ _ 0 Hx).
    f_equal. f_equal. lia.
Qed.

(** What [get_labeled_cutouts] returns, if it returns. *)
Lemma label_loop_counts (cl : list Z) (cs : list SpikeCutout.t) :
  forall acc lab,
    label_loop cl cs acc = Ok lab ->
    size lab = (size acc + length cs)%nat /\
    length (labels lab) = (length (labels acc) + length cs)%nat /\
    labeled_cutouts lab = labeled_cutouts acc ++ cs.
Proof.
  induction cs as [|k cs IH]; intros acc lab; simpl.
  - intros H. injection H as <-. rewrite app_nil_r.
    repeat split; lia.
  - intros H. apply rbind_ok in H. destruct H as (l & _ & H).
    apply IH in H. simpl in H. destruct H as (H1 & H2 & H3).
    rewrite length_app in H2. simpl in H2.
    rewrite <- app_assoc in H3. simpl in H3.
    repeat split; [lia | lia | exact H3].
Qed.

Lemma get_labeled_cutouts_counts (c : t) (lab : labeled) :
  get_labeled_cutouts c = Ok lab ->
  size lab = (if categorized c then length (cutouts c) else 0%nat) /\
  length (labels lab) = size lab /\
  length (labeled_cutouts lab) = size lab.
Proof.
  unfold get_labeled_cutouts. destruct (categorized c).
  - intros H. apply label_loop_counts in H. simpl in H.
    destruct H as (H1 & H2 & H3). rewrite H1, H2, H3. auto.
  - intros H. injection H as <-. simpl. auto.
Qed.

(** C2, as the code has it.  On a categorized channel whose cutouts all
    carry a component index of the categorization list, [get_labeled_cutouts] returns the cutouts
    themselves, one label per cutout in cutout order, the label at each
    position being the category of that cutout's component, and their
    number as size; on an uncategorized channel it returns empty labels,
    empty cutouts and size 0.  Five spikes of components 0,0,1,1,1
    categorized as [1,2] get the labels 1,1,2,2,2. *)
Theorem get_labeled_cutouts_per_cutout (c : t) :
  (categorized c = true ->
   Forall (fun k => 0 <= SpikeCutout.pca_comp_index k
                      < Z.of_nat (length (categorization_list c)))
          (cutouts c) ->
   exists ls,
     get_labeled_cutouts c
       = Ok (mk_labeled ls (cutouts c) (length (cutouts c))) /\
     length ls = length (cutouts c) /\
     forall i k, nth_error (cutouts c) i = Some k ->
       nth_error ls i
         = nth_error (categorization_list c)
                     (Z.to_nat (SpikeCutout.pca_comp_index k))) /\
  (categorized c = false ->
   get_labeled_cutouts c = Ok (mk_labeled [] [] 0)) /\
  (map SpikeCutout.pca_comp_index (cutouts c) = [0; 0; 1; 1; 1] ->
   get_labeled_cutouts (categorize [1; 2]
                          (mk (cutouts c) 2 (channel_index c) false [0; 0]))
     = Ok (mk_labeled [1; 1; 2; 2; 2] (cutouts c) 5)).
Proof.
  split; [ | split].
  - intros Hc Hv. unfold get_labeled_cutouts. rewrite Hc.
    rewrite (label_loop_valid _ _ Hv). simpl.
    eexists. split; [reflexivity | ]. split.
    + apply length_map.
    + intros i k Hik.
      rewrite nth_error_map, Hik. simpl.
      rewrite Forall_forall in Hv.
      specialize (Hv k (nth_error_In _ _ Hik)).
      destruct (index_in_range (categorization_list c) _ Hv)
        as (x & Hx & _).
      rewrite Hx. f_equal. apply nth_error_nth. exact Hx.
  - intros Hc. unfold get_labeled_cutouts. rewrite Hc. reflexivity.
  - intros Hm. unfold get_labeled_cutouts, categorize. simpl.
    destruct (cutouts c) as [|k1 [|k2 [|k3 [|k4 [|k5 [|k6 r]]]]]];
      try discriminate Hm.
    simpl in Hm. injection Hm as H1 H2 H3 H4 H5.
    simpl. rewrite H1, H2, H3, H4, H5. reflexivity.
Qed.

Lemma get_labeled_cutouts_per_cutout_witness :
  (exists ls,
     get_labeled_cutouts (mk five_spikes 2 0 true [1; 2])
       = Ok (mk_labeled ls five_spikes 5) /\ length ls = 5%nat) /\
  get_labeled_cutouts (mk five_spikes 2 0 false [0; 0])
    = Ok (mk_labeled [] [] 0) /\
  get_labeled_cutouts (categorize [1; 2] (mk five_spikes 2 0 false [0; 0]))
    = Ok (mk_labeled [1; 1; 2; 2; 2] five_spikes 5).
Proof.
  split; [ | split].
  - destruct (get_labeled_cutouts_per_cutout (mk five_spikes 2 0 true [1; 2]))
      as (H & _ & _).
    destruct H as (ls & H1 & H2 & _).
    + reflexivity.
    + simpl. unfold five_spikes. simpl. repeat constructor; simpl; lia.
    + exists ls. split; [exact H1 | exact H2].
  - apply (get_labeled_cutouts_per_cutout (mk five_spikes 2 0 false [0; 0])).
    reflexivity.
  - apply (get_labeled_cutouts_per_cutout (mk five_spikes 2 0 false [0; 0])).
    reflexivity.
Defined.

(** C2, as stated for every channel, fails: the constructor takes a
    categorization list of any length, so a channel of two components can
    be categorized by a list of one entry.  [get_labeled_cutouts] then
    raises [IndexError] at the first cutout of component 1 and returns
    nothing. *)
Lemma get_labeled_cutouts_short_list_raises :
  __init__ five_spikes 2 0 (Some [1]) = Ok (mk five_spikes 2 0 true [1]) /\
  categorized (mk five_spikes 2 0 true [1]) = true /\
  get_labeled_cutouts (mk five_spikes 2 0 true [1]) = Raise IndexError /\
  ~ (forall c : t,
       categorized c = true ->
       exists ls,
         get_labeled_cutouts c
           = Ok (mk_labeled ls (cutouts c) (length (cutouts c)))).
Proof.
  split; [reflexivity | ]. split; [reflexivity | ].
  split; [reflexivity | ].
  intros H. destruct (H (mk five_spikes 2 0 true [1]) eq_refl) as (ls & E).
  discriminate E.
Qed.

(** *** Grouping by component *)

Lemma append_to_row_valid (comps : list (list SpikeCutout.t))
    (k : SpikeCutout.t) (row : list SpikeCutout.t) :
  0 <= SpikeCutout.pca_comp_index k ->
  nth_error comps (Z.to_nat (SpikeCutout.pca_comp_index k)) = Some row ->
  append_to_row comps k
    = Ok (Py.set_nth comps (Z.to_nat (SpikeCutout.pca_comp_index k))
                     (row ++ [k])).
Proof.
  intros H0 Hrow. unfold append_to_row.
  assert (Hlt : (Z.to_nat (SpikeCutout.pca_comp_index k) < length comps)%nat)
    by (apply nth_error_Some; congruence).
  destruct (index_in_range comps (SpikeCutout.pca_comp_index k))
    as (x & Hx & ->); [lia | ].
  rewrite Hrow in Hx. injection Hx as <-. simpl.
  replace (SpikeCutout.pca_comp_index k <? 0) with false
    by (symmetry; apply Z.ltb_ge; lia).
  reflexivity.
Qed.

Lemma fill_rows_valid (cs : list SpikeCutout.t) :
  forall comps,
    Forall (fun k => 0 <= SpikeCutout.pca_comp_index k
                       < Z.of_nat (length comps)) cs ->
    exists rows,
      fill_rows comps cs = Ok rows /\
      length rows = length comps /\
      forall j row, nth_error comps j = Some row ->
        nth_error rows j
          = Some (row ++ filter (fun k => SpikeCutout.pca_comp_index k
                                           =? Z.of_nat j) cs).
Proof.
  induction cs as [|k cs IH]; intros comps Hv; cbn [fill_rows].
  - exists comps. repeat split; auto.
    intros j row Hj. simpl. rewrite app_nil_r. exact Hj.
  - pose proof (Forall_inv Hv) as Hk. cbv beta in Hk.
    apply Forall_inv_tail in Hv.
    set (i := Z.to_nat (SpikeCutout.pca_comp_index k)).
    destruct (nth_error comps i) as [row_i|] eqn:Hi.
    2:{ apply nth_error_None in Hi. subst i. lia. }
    rewrite (append_to_row_valid comps k row_i) by (auto; lia).
    fold i. simpl.
    destruct (IH (Py.set_nth comps i (row_i ++ [k])))
      as (rows & Hrun & Hlen & Hrows).
    { rewrite set_nth_length. exact Hv. }
    exists rows. rewrite set_nth_length in Hlen.
    split; [exact Hrun | ]. split; [exact Hlen | ].
    intros j row Hj. cbn [filter].
    destruct (Nat.eq_dec i j) as [<- | Hne].
    + rewrite Hi in Hj. injection Hj as <-.
      replace (SpikeCutout.pca_comp_index k =? Z.of_nat i) with true
        by (symmetry; apply Z.eqb_eq; subst i; lia).
      rewrite (Hrows i (row_i ++ [k])).
      * rewrite <- app_assoc. reflexivity.
      * apply set_nth_same. apply nth_error_Some. congruence.
    + replace (SpikeCutout.pca_comp_index k =? Z.of_nat j) with false
        by (symmetry; apply Z.eqb_neq; subst i; lia).
      apply Hrows. rewrite set_nth_other by exact Hne. exact Hj.
Qed.

(** X7. When every cutout carries a component index from 0 to below
    [num_components], [get_cutouts_by_component] returns one row per
    component, and row [j] holds the cutouts of component [j] in cutout
    order. *)
Lemma get_cutouts_by_component_groups (c : t) :
  Forall (fun k => 0 <= SpikeCutout.pca_comp_index k < num_components c)
         (cutouts c) ->
  exists rows,
    get_cutouts_by_component c = Ok rows /\
    length rows = Z.to_nat (num_components c) /\
    forall j, (j < length rows)%nat ->
      nth_error rows j
        = Some (filter (fun k => SpikeCutout.pca_comp_index k =? Z.of_nat j)
                       (cutouts c)).
Proof.
  intros Hv. unfold get_cutouts_by_component, empty_rows.
  destruct (fill_rows_valid (cutouts c)
              (repeat [] (Z.to_nat (num_components c))))
    as (rows & Hrun & Hlen & Hrows).
  { rewrite repeat_length. eapply Forall_impl; [ | exact Hv].
    simpl. intros k Hk. lia. }
  rewrite repeat_length in Hlen.
  exists rows. split; [exact Hrun | ]. split; [exact Hlen | ].
  intros j Hj. apply (Hrows j []).
  apply nth_error_repeat. lia.
Qed.


(** *** Indexing by component *)

Lemma index_cases {A : Type} (l : list A) (i : Z) :
  (in_range (length l) i /\
   exists x, nth_error l (position (length l) i) = Some x /\
             Py.index l i = Ok x) \/
  (~ in_range (length l) i /\ Py.index l i = Raise IndexError).
Proof.
  unfold in_range, position, Py.index.
  destruct (Z.ltb_spec i 0) as [Hneg | Hpos]; cbv iota.
  - destruct (Z.leb_spec 0 (i + Z.of_nat (length l))) as [H0 | H0];
      destruct (Z.ltb_spec (i + Z.of_nat (length l)) (Z.of_nat (length l)))
        as [H1 | H1];
      cbn [andb]; try (right; split; [lia | reflexivity]).
    left. split; [lia | ].
    destruct (nth_error l (Z.to_nat (i + Z.of_nat (length l)))) as [x|] eqn:E.
    + exists x. auto.
    + apply nth_error_None in E. lia.
  - destruct (Z.leb_spec 0 i) as [H0 | H0];
      destruct (Z.ltb_spec i (Z.of_nat (length l))) as [H1 | H1];
      cbn [andb]; try (right; split; [lia | reflexivity]).
    left. split; [lia | ].
    destruct (nth_error l (Z.to_nat i)) as [x|] eqn:E.
    + exists x. auto.
    + apply nth_error_None in E. lia.
Qed.

Lemma append_to_row_cases (comps : list (list SpikeCutout.t))
    (k : SpikeCutout.t) :
  (in_range (length comps) (SpikeCutout.pca_comp_index k) /\
   exists row,
     nth_error comps (position (length comps) (SpikeCutout.pca_comp_index k))
       = Some row /\
     append_to_row comps k
       = Ok (Py.set_nth comps
               (position (length comps) (SpikeCutout.pca_comp_index k))
               (row ++ [k]))) \/
  (~ in_range (length comps) (SpikeCutout.pca_comp_index k) /\
   append_to_row comps k = Raise IndexError).
Proof.
  unfold append_to_row.
  destruct (index_cases comps (SpikeCutout.pca_comp_index k))
    as [(Hin & row & Hrow & ->) | (Hout & ->)].
  - left. split; [exact Hin | ]. exists row. split; [exact Hrow | ].
    reflexivity.
  - right. split; [exact Hout | reflexivity].
Qed.

Lemma concat_set_nth (comps : list (list SpikeCutout.t)) (k : SpikeCutout.t) :
  forall i row,
    nth_error comps i = Some row ->
    Permutation (concat (Py.set_nth comps i (row ++ [k])))
                (k :: concat comps).
Proof.
  induction comps as [|h t IH]; intros [|i] row Hi; try discriminate Hi.
  - injection Hi as <-. cbn [Py.set_nth concat].
    rewrite <- app_assoc. simpl.
    symmetry. apply Permutation_middle.
  - cbn [Py.set_nth concat].
    etransitivity; [apply Permutation_app_head, (IH i row Hi) | ].
    symmetry. apply Permutation_middle.
Qed.

Lemma fill_rows_cases (cs : list SpikeCutout.t) :
  forall comps,
    (Forall (fun k => in_range (length comps) (SpikeCutout.pca_comp_index k))
            cs /\
     exists rows,
       fill_rows comps cs = Ok rows /\
       length rows = length comps /\
       Permutation (concat rows) (concat comps ++ cs)) \/
    (Exists (fun k => ~ in_range (length comps)
                          (SpikeCutout.pca_comp_index k)) cs /\
     fill_rows comps cs = Raise IndexError).
Proof.
  induction cs as [|k cs IH]; intros comps; cbn [fill_rows].
  - left. split; [constructor | ]. exists comps.
    rewrite app_nil_r. auto.
  - destruct (append_to_row_cases comps k)
      as [(Hin & row & Hrow & ->) | (Hout & ->)]; cbn [rbind].
    + set (comps1 := Py.set_nth comps _ _).
      assert (Hlen : length comps1 = length comps)
        by apply set_nth_length.
      destruct (IH comps1) as [(Hall & rows & Hrun & Hl & Hp) | (Hex & Hrun)];
        rewrite Hlen in *.
      * left. split; [constructor; assumption | ].
        exists rows. split; [exact Hrun | ]. split; [exact Hl | ].
        etransitivity; [exact Hp | ].
        etransitivity;
          [apply Permutation_app_tail, (concat_set_nth comps k _ row Hrow) | ].
        simpl. apply Permutation_middle.
      * right. split; [apply Exists_cons_tl; exact Hex | exact Hrun].
    + right. split; [apply Exists_cons_hd; exact Hout | reflexivity].
Qed.

Lemma get_cutouts_by_component_ok (c : t)
    (rows : list (list SpikeCutout.t)) :
  get_cutouts_by_component c = Ok rows ->
  length rows = Z.to_nat (num_components c) /\
  Permutation (concat rows) (cutouts c).
Proof.
  unfold get_cutouts_by_component, empty_rows. intros H.
  destruct (fill_rows_cases (cutouts c)
              (repeat [] (Z.to_nat (num_components c))))
    as [(_ & rows' & Hrun & Hl & Hp) | (_ & Hrun)];
    rewrite Hrun in H; [ | discriminate H].
  injection H as <-. rewrite repeat_length in Hl.
  split; [exact Hl | ].
  etransitivity; [exact Hp | ].
  assert (Hnil : forall m, concat (repeat (@nil SpikeCutout.t) m) = [])
    by (induction m; simpl; auto).
  rewrite Hnil. reflexivity.
Qed.

(** X5. Whenever [get_cutouts_by_component] returns, it returns one row
    per component (none for a negative component count) and the rows
    together hold exactly the channel's cutouts: no cutout is dropped or
    put into two rows. *)
Theorem get_cutouts_by_component_partition (c : t)
    (rows : list (list SpikeCutout.t)) :
  get_cutouts_by_component c = Ok rows ->
  length rows = Z.to_nat (num_components c) /\
  Permutation (concat rows) (cutouts c).
Proof. exact (get_cutouts_by_component_ok c rows). Qed.

Lemma get_cutouts_by_component_partition_witness :
  length [[SpikeCutout.mk [0.5%Q] 30000%Q 0];
          [SpikeCutout.mk [0.5%Q] 30000%Q (-1);
           SpikeCutout.mk [0.5%Q] 30000%Q 1]] = 2%nat /\
  Permutation
    (concat [[SpikeCutout.mk [0.5%Q] 30000%Q 0];
             [SpikeCutout.mk [0.5%Q] 30000%Q (-1);
              SpikeCutout.mk [0.5%Q] 30000%Q 1]])
    wrapped_spikes.
Proof.
  apply (get_cutouts_by_component_partition
           (mk wrapped_spikes 2 0 false [0; 0])).
  reflexivity.
Defined.

(** X6. [get_cutouts_by_component] returns exactly when every cutout's
    component index lies between minus the component count and the count
    itself, the count excluded; otherwise it raises [IndexError], and it
    raises nothing else. *)
Theorem get_cutouts_by_component_index_error (c : t) :
  let n := Z.to_nat (num_components c) in
  ((exists rows, get_cutouts_by_component c = Ok rows) <->
   Forall (fun k => in_range n (SpikeCutout.pca_comp_index k)) (cutouts c)) /\
  (get_cutouts_by_component c = Raise IndexError <->
   Exists (fun k => ~ in_range n (SpikeCutout.pca_comp_index k))
          (cutouts c)) /\
  (forall e, get_cutouts_by_component c = Raise e -> e = IndexError).
Proof.
  unfold get_cutouts_by_component, empty_rows. cbv zeta.
  destruct (fill_rows_cases (cutouts c)
              (repeat [] (Z.to_nat (num_components c))))
    as [(Hall & rows & Hrun & _ & _) | (Hex & Hrun)];
    rewrite repeat_length in *; rewrite Hrun.
  - split; [split; [intros _; exact Hall | intros _; eauto] | ].
    split; [split; [discriminate | ] | discriminate].
    intros Hex. exfalso. apply Exists_exists in Hex.
    destruct Hex as (k & Hk & Hout). rewrite Forall_forall in Hall.
    exact (Hout (Hall k Hk)).
  - split; [split | ].
    + intros (rows & H). discriminate H.
    + intros Hall. exfalso. apply Exists_exists in Hex.
      destruct Hex as (k & Hk & Hout). rewrite Forall_forall in Hall.
      exact (Hout (Hall k Hk)).
    + split; [split; [intros _; exact Hex | reflexivity] | ].
      intros e He. injection He as <-. reflexivity.
Qed.


Lemma get_cutouts_by_component_index_error_witness :
  get_cutouts_by_component
    (mk [SpikeCutout.mk [0.5%Q] 30000%Q 2] 2 0 false [0; 0])
    = Raise IndexError /\
  exists rows,
    get_cutouts_by_component (mk wrapped_spikes 2 0 false [0; 0]) = Ok rows.
Proof.
  split.
  - apply (get_cutouts_by_component_index_error
             (mk [SpikeCutout.mk [0.5%Q] 30000%Q 2] 2 0 false [0; 0])).
    apply Exists_cons_hd. unfold in_range. simpl. lia.
  - apply (get_cutouts_by_component_index_error
             (mk wrapped_spikes 2 0 false [0; 0])).
    repeat constructor; unfold in_range; simpl; lia.
Defined.

Lemma get_cutouts_by_component_groups_witness :
  exists rows,
    get_cutouts_by_component (mk five_spikes 2 0 false [0; 0]) = Ok rows /\
    length rows = 2%nat /\
    nth_error rows 1
      = Some (map (fun i => SpikeCutout.mk [0.5%Q; 1%Q] 30000%Q i)
                  [1; 1; 1]).
Proof.
  destruct (get_cutouts_by_component_groups (mk five_spikes 2 0 false [0; 0]))
    as (rows & Hrun & Hlen & Hrows).
  - repeat constructor; simpl; lia.
  - exists rows. split; [exact Hrun | ]. split; [exact Hlen | ].
    rewrite Hrows by (rewrite Hlen; simpl; lia). reflexivity.
Defined.

(** *** Labels *)

Lemma label_loop_cases (cl : list Z) (cs : list SpikeCutout.t) :
  forall acc,
    (Forall (fun k => in_range (length cl) (SpikeCutout.pca_comp_index k)) cs /\
     label_loop cl cs acc =
     Ok (mk_labeled
           (labels acc ++
            map (fun k => nth (position (length cl)
                                 (SpikeCutout.pca_comp_index k)) cl 0) cs)
           (labeled_cutouts acc ++ cs)
           (size acc + length cs))) \/
    (Exists (fun k => ~ in_range (length cl) (SpikeCutout.pca_comp_index k))
            cs /\
     label_loop cl cs acc = Raise IndexError).
Proof.
  induction cs as [|k cs IH]; intros acc; cbn [label_loop].
  - left. split; [constructor | ].
    simpl. rewrite !app_nil_r, Nat.add_0_r. destruct acc; reflexivity.
  - destruct (index_cases cl (SpikeCutout.pca_comp_index k))
      as [(Hin & x & Hx & ->) | (Hout & ->)]; cbn [rbind].
    + destruct (IH (mk_labeled (labels acc ++ [x])
                               (labeled_cutouts acc ++ [k]) (S (size acc))))
        as [(Hall & ->) | (Hex & ->)].
      * left. split; [constructor; assumption | ].
        cbn [labels labeled_cutouts size map length].
        rewrite <- !app_assoc. simpl.
        rewrite (nth_error_nth _ _ 0 Hx). f_equal. f_equal. lia.
      * right. split; [apply Exists_cons_tl; exact Hex | reflexivity].
    + right. split; [apply Exists_cons_hd; exact Hout | reflexivity].
Qed.

(** X8. On a categorized channel [get_labeled_cutouts] returns exactly when
    every cutout's component index is an index Python accepts for the
    categorization list, a negative one counting from the end of the
    list; the labels are then the entries at those positions, in cutout
    order.  Otherwise it raises [IndexError].  On an uncategorized
    channel it never raises. *)
Theorem get_labeled_cutouts_wraps_or_raises (c : t) :
  let n := length (categorization_list c) in
  (categorized c = true ->
   Forall (fun k => in_range n (SpikeCutout.pca_comp_index k)) (cutouts c) ->
   get_labeled_cutouts c =
   Ok (mk_labeled
         (map (fun k => nth (position n (SpikeCutout.pca_comp_index k))
                            (categorization_list c) 0) (cutouts c))
         (cutouts c) (length (cutouts c)))) /\
  (get_labeled_cutouts c = Raise IndexError <->
   categorized c = true /\
   Exists (fun k => ~ in_range n (SpikeCutout.pca_comp_index k))
          (cutouts c)) /\
  (forall e, get_labeled_cutouts c = Raise e -> e = IndexError).
Proof.
  cbv zeta. unfold get_labeled_cutouts.
  destruct (categorized c).
  - destruct (label_loop_cases (categorization_list c) (cutouts c) no_labeled)
      as [(Hall & ->) | (Hex & ->)]; simpl.
    + split; [reflexivity | ].
      split; [split; [discriminate | ] | discriminate].
      intros (_ & Hex). exfalso. apply Exists_exists in Hex.
      destruct Hex as (k & Hk & Hout). rewrite Forall_forall in Hall.
      exact (Hout (Hall k Hk)).
    + split.
      * intros _ Hall. exfalso. apply Exists_exists in Hex.
        destruct Hex as (k & Hk & Hout). rewrite Forall_forall in Hall.
        exact (Hout (Hall k Hk)).
      * split; [split; auto | ].
        intros e He. injection He as <-. reflexivity.
  - split; [discriminate | ].
    split; [split; [discriminate | intros (H & _); discriminate H] | ].
    discriminate.
Qed.

Lemma get_labeled_cutouts_wraps_or_raises_witness :
  get_labeled_cutouts (mk wrapped_spikes 2 0 true [1; 2])
    = Ok (mk_labeled [1; 2; 2] wrapped_spikes 3) /\
  get_labeled_cutouts (mk wrapped_spikes 3 0 true [1])
    = Raise IndexError.
Proof.
  split.
  - apply (get_labeled_cutouts_wraps_or_raises
             (mk wrapped_spikes 2 0 true [1; 2])).
    + reflexivity.
    + repeat constructor; unfold in_range; simpl; lia.
  - apply (get_labeled_cutouts_wraps_or_raises
             (mk wrapped_spikes 3 0 true [1])).
    split; [reflexivity | ].
    apply Exists_cons_tl, Exists_cons_tl, Exists_cons_hd.
    unfold in_range. simpl. lia.
Defined.

(** X9. On a channel whose cutouts all carry a component index from 0 to
    below [num_components], [get_labeled_cutouts] after [categorize] never
    raises, whatever list was given: a list that is too short yields no
    labeled cutout at all, any other list labels every cutout with the
    list's entry for its component. *)
Theorem categorize_then_label (c : t) (L : list Z) :
  Forall (fun k => 0 <= SpikeCutout.pca_comp_index k < num_components c)
         (cutouts c) ->
  (Z.of_nat (length L) < num_components c ->
   get_labeled_cutouts (categorize L c) = Ok (mk_labeled [] [] 0)) /\
  (num_components c <= Z.of_nat (length L) ->
   get_labeled_cutouts (categorize L c) =
   Ok (mk_labeled
         (map (fun k => nth (Z.to_nat (SpikeCutout.pca_comp_index k)) L 0)
              (cutouts c))
         (cutouts c) (length (cutouts c)))).
Proof.
  intros Hv. unfold categorize, get_labeled_cutouts.
  destruct (Z.ltb_spec (Z.of_nat (length L)) (num_components c)) as [Hs | Hl];
    cbn [categorized categorization_list cutouts].
  - split; [reflexivity | lia].
  - split; [lia | intros _].
    rewrite label_loop_valid; [reflexivity | ].
    eapply Forall_impl; [ | exact Hv]. simpl. intros k Hk. lia.
Qed.

Lemma categorize_then_label_witness :
  get_labeled_cutouts (categorize [1] (mk five_spikes 2 0 true [2; 2]))
    = Ok (mk_labeled [] [] 0) /\
  get_labeled_cutouts (categorize [3; 1; 2] (mk five_spikes 2 0 false [0; 0]))
    = Ok (mk_labeled [3; 3; 1; 1; 1] five_spikes 5).
Proof.
  split.
  - apply (categorize_then_label (mk five_spikes 2 0 true [2; 2]) [1]).
    + repeat constructor; simpl; lia.
    + simpl. lia.
  - apply (categorize_then_label (mk five_spikes 2 0 false [0; 0]) [3; 1; 2]).
    + repeat constructor; simpl; lia.
    + simpl. lia.
Defined.

(** *** Construction *)

(** X10. [ChannelSpikeCutout(...)] checks the truth value of the array it
    is given, not its length: an array of two or more categories raises
    [ValueError]; the channel comes out categorized only for a
    one-element array holding a non-zero category, which then is the whole
    categorization list whatever the component count; in every other case
    that returns, the channel is uncategorized with [num_components]
    zeros, and with a negative component count nothing but the
    categorized case returns. *)
Theorem channel_init_outcomes (cs : list SpikeCutout.t) (n idx : Z)
    (cl : option (list Z)) :
  (forall a, cl = Some a -> (2 <= length a)%nat ->
     __init__ cs n idx cl = Raise ValueError) /\
  (forall c, __init__ cs n idx cl = Ok c ->
     cutouts c = cs /\ num_components c = n /\ channel_index c = idx /\
     ((categorized c = true /\
       exists x, x <> 0 /\ cl = Some [x] /\ categorization_list c = [x]) \/
      (categorized c = false /\ 0 <= n /\
       categorization_list c = repeat 0 (Z.to_nat n) /\
       (cl = None \/ cl = Some [] \/ cl = Some [0])))) /\
  (n < 0 -> forall c, __init__ cs n idx cl = Ok c -> categorized c = true).
Proof.
  unfold __init__, Py.bool_array1, Py.ndarray_bool, Py.np_zeros, Py.zeros.
  split; [ | split].
  - intros a -> Ha. destruct a as [|x [|y a]]; simpl in Ha; try lia.
    reflexivity.
  - intros c H.
    destruct cl as [[|x [|y a]]|]; simpl in H; try discriminate H.
    + destruct (Z.ltb_spec n 0); simpl in H; [discriminate H | ].
      injection H as <-. simpl. repeat split; auto.
      right. repeat split; auto.
    + destruct (Z.eqb_spec x 0) as [-> | Hx]; simpl in H.
      * destruct (Z.ltb_spec n 0); simpl in H; [discriminate H | ].
        injection H as <-. simpl. repeat split; auto.
        right. repeat split; auto.
      * injection H as <-. simpl. repeat split; auto.
        left. split; [reflexivity | ]. exists x. auto.
    + destruct (Z.ltb_spec n 0); simpl in H; [discriminate H | ].
      injection H as <-. simpl. repeat split; auto.
      right. repeat split; auto.
  - intros Hn c H.
    destruct cl as [[|x [|y a]]|]; simpl in H; try discriminate H.
    + destruct (Z.ltb_spec n 0); simpl in H; [discriminate H | lia].
    + destruct (Z.eqb_spec x 0) as [-> | Hx]; simpl in H.
      * destruct (Z.ltb_spec n 0); simpl in H; [discriminate H | lia].
      * injection H as <-. reflexivity.
    + destruct (Z.ltb_spec n 0); simpl in H; [discriminate H | lia].
Qed.

Lemma channel_init_outcomes_witness :
  __init__ five_spikes 2 0 (Some [1; 2]) = Raise ValueError /\
  categorization_list (mk five_spikes 2 0 true [2]) = [2].
Proof.
  split.
  - apply (channel_init_outcomes five_spikes 2 0 (Some [1; 2])) with [1; 2].
    + reflexivity.
    + simpl. lia.
  - destruct (channel_init_outcomes five_spikes 2 0 (Some [2]))
      as (_ & H & _).
    destruct (H (mk five_spikes 2 0 true [2]) eq_refl)
      as (_ & _ & _ & [(_ & x & _ & Hx & _) | (Hf & _)]).
    + reflexivity.
    + discriminate Hf.
Defined.


End ChannelFacts.

(** ** The detector *)

Module DetectorFacts.
Import AbnormalityDetector Sample.

Section Facts.

Context {Signal Timebase Model : Type}.
Variable shape1 : Signal -> nat.
Variable extract_waveforms :
  Signal -> list (list Q) -> nat -> Q -> list (list Q).
Variable shuffle : list (list Q) -> list Z -> list (list Q) * list Z.
Variable fit : Model -> list (list Q) -> list Z -> Z -> Model.
Variable evaluate : Model -> list (list Q) -> list Z -> Q * Q.
Variable predict_proba : Model -> list (list Q) -> list (list Q).
Variable mean_clears : Model -> list (list Q) -> Q -> result bool.
Variable create_default_model : nat -> nat -> nat -> Model.

Local Abbreviation detector := (AbnormalityDetector.t Signal Timebase Model).
Local Abbreviation get_cutouts :=
  (@_get_cutouts Signal Timebase Model shape1 extract_waveforms).
Local Abbreviation spikes :=
  (@get_only_neuronal_spikes Signal Timebase Model shape1
     extract_waveforms predict_proba).
Local Abbreviation components :=
  (@get_only_neuronal_components Signal Timebase Model shape1
     extract_waveforms mean_clears).
Local Abbreviation categorize_all :=
  (@categorize_spontaneous Signal Timebase Model).
Local Abbreviation rows_loop := (@categorize_rows Signal Timebase Model).

Lemma bind_ok {A B : Type} (m : M Signal Timebase Model A)
    (k : A -> M Signal Timebase Model B) (s s' : detector) (b : B) :
  bind m k s = (Ok b, s') ->
  exists a s1, m s = (Ok a, s1) /\ k a s1 = (Ok b, s').
Proof.
  unfold bind. destruct (m s) as [[a|e] s1]; intros H.
  - exists a, s1. split; [reflexivity | exact H].
  - discriminate H.
Qed.

(** *** Inference on an untrained detector *)

(** C5. On a detector whose [trained] flag is false both inference methods
    raise the untrained-model exception for every recording, threshold,
    filter and spike detector, return no spike trains and leave the
    detector as it was; a run that gets past that exception was started
    on a trained detector. *)
Theorem untrained_inference_raises (exp_data : Data Signal Timebase)
    (accuracy_threshold : Q) (signal_filter : option (FilterProtocol Signal))
    (spike_detector : option (SpikeDetectionProtocol Signal Timebase))
    (self : detector) :
  (trained self = false ->
   spikes exp_data accuracy_threshold signal_filter spike_detector self
     = (Raise untrained, self) /\
   components exp_data accuracy_threshold signal_filter spike_detector self
     = (Raise untrained, self)) /\
  (fst (spikes exp_data accuracy_threshold signal_filter spike_detector self)
     <> Raise untrained -> trained self = true) /\
  (fst (components exp_data accuracy_threshold signal_filter spike_detector
          self)
     <> Raise untrained -> trained self = true).
Proof.
  assert (Hs : trained self = false ->
             spikes exp_data accuracy_threshold signal_filter spike_detector
               self = (Raise untrained, self)).
{ intros Ht. unfold get_only_neuronal_spikes.
  unfold bind at 1. unfold get at 1. cbv beta iota. rewrite Ht.
  reflexivity. }
assert (Hc : trained self = false ->
             components exp_data accuracy_threshold signal_filter
               spike_detector self = (Raise untrained, self)).
{ intros Ht. unfold get_only_neuronal_components.
  unfold bind at 1. unfold get at 1. cbv beta iota. rewrite Ht.
  reflexivity. }
split; [auto | ].
split; intros H; destruct (trained self) eqn:Ht; try reflexivity;
  exfalso; apply H.
- rewrite Hs by reflexivity. reflexivity.
- rewrite Hc by reflexivity. reflexivity.
Qed.

(** *** Categorizing the spontaneous recording *)

(** The loop of [categorize_spontaneous] over rows that all have a
    channel: it returns, touches nothing but the channel list, and
    categorizes the channel at each row's position with that row. *)
Lemma categorize_rows_in_range (rows : list (list Z)) :
  forall (n : nat) (self : detector),
    (n + length rows <= length (spontaneous_cutouts self))%nat ->
    exists self',
      rows_loop rows n self = (Ok tt, self') /\
      categorized self' = categorized self /\
      trained self' = trained self /\
      length (spontaneous_cutouts self')
        = length (spontaneous_cutouts self) /\
      (forall i, (i < n)%nat ->
         nth_error (spontaneous_cutouts self') i
           = nth_error (spontaneous_cutouts self) i) /\
      (forall i row ch,
         nth_error rows i = Some row ->
         nth_error (spontaneous_cutouts self) (n + i) = Some ch ->
         nth_error (spontaneous_cutouts self') (n + i)
           = Some (ChannelSpikeCutout.categorize row ch)).
Proof.
  induction rows as [|row rows IH]; intros n self Hlen.
  - exists self. simpl. unfold ret.
    repeat split; auto.
    intros i r ch Hr. destruct i; discriminate Hr.
  - simpl in Hlen. simpl.
    unfold bind at 1. unfold get at 1.
    unfold bind at 1. unfold lift at 1.
    rewrite index_of_nat.
    destruct (nth_error (spontaneous_cutouts self) n) as [ch|] eqn:Hch.
    2:{ apply nth_error_None in Hch. lia. }
    unfold bind at 1. unfold assign at 1.
    set (self1 := set_spontaneous_cutouts _ self).
    assert (Hsc : spontaneous_cutouts self1
               = Py.set_nth (spontaneous_cutouts self) n
                   (ChannelSpikeCutout.categorize row ch)) by reflexivity.
  destruct (IH (S n) self1) as (self' & Hrun & Hc & Ht & Hl & Hlow & Hrow).
  { rewrite Hsc, set_nth_length. lia. }
  exists self'. split; [exact Hrun | ].
  rewrite Hsc in Hl, Hlow, Hrow. rewrite set_nth_length in Hl.
  split; [exact Hc | ]. split; [exact Ht | ]. split; [exact Hl | ].
  split.
  + intros i Hi. rewrite Hlow by lia. apply set_nth_other. lia.
  + intros i r c Hr Hnc. destruct i as [|i].
    * simpl in Hr. injection Hr as <-.
      rewrite Nat.add_0_r in *. rewrite Hlow by lia.
      rewrite Hch in Hnc. injection Hnc as <-.
      apply set_nth_same. apply nth_error_Some. congruence.
    * simpl in Hr. replace (n + S i)%nat with (S n + i)%nat in * by lia.
      apply Hrow; [exact Hr | ].
      rewrite set_nth_other by lia. exact Hnc.
Qed.

(** C10, as the code has it.  For every two-level list with no more rows
    than the detector has channels, [categorize_spontaneous] returns and
    the detector's [categorized] flag is true afterwards, also for the
    empty list and also when rows are shorter than their channel's
    component count: each row is handed to the channel at its position,
    which keeps or rejects it on its own. *)
Theorem categorize_spontaneous_sets_flag
    (categorization_list : list (list Z)) (self : detector) :
  (length categorization_list <= length (spontaneous_cutouts self))%nat ->
  exists self',
    categorize_all categorization_list self = (Ok tt, self') /\
    categorized self' = true /\
    length (spontaneous_cutouts self')
      = length (spontaneous_cutouts self) /\
    forall i row ch,
      nth_error categorization_list i = Some row ->
      nth_error (spontaneous_cutouts self) i = Some ch ->
      nth_error (spontaneous_cutouts self') i
        = Some (ChannelSpikeCutout.categorize row ch).
Proof.
  intros Hlen.
  destruct (categorize_rows_in_range categorization_list 0 self Hlen)
    as (self1 & Hrun & _ & _ & Hl & _ & Hrow).
  exists (set_categorized true self1).
  unfold categorize_spontaneous, bind. rewrite Hrun.
  unfold assign. simpl.
  repeat split; auto.
Qed.

(** *** Training *)

Local Abbreviation train :=
  (@train_model Signal Timebase Model shuffle fit create_default_model).
Local Abbreviation pool := (@pool_channels Signal Timebase Model).
Local Abbreviation choose :=
  (@choose_model Signal Timebase Model create_default_model).

Lemma pool_spikes_lengths (lab : ChannelSpikeCutout.labeled)
    (ls : list Z) :
  forall i X y X' y',
    pool_spikes lab ls i X y = Ok (X', y') ->
    length X' = (length X + length ls)%nat /\
    length y' = (length y + length ls)%nat.
Proof.
  induction ls as [|l ls IH]; intros i X y X' y' H; cbn [pool_spikes] in H.
  - injection H as <- <-. simpl. lia.
  - apply rbind_ok in H. destruct H as (k & _ & H).
    apply rbind_ok in H. destruct H as (w & _ & H).
    apply IH in H. rewrite !length_app in H. simpl in *. lia.
Qed.

(** The pooling loop counts what it pools in [model_size] and changes no
    other attribute. *)
Lemma pool_channels_counts (chans : list ChannelSpikeCutout.t) :
  forall X y (self self' : detector) p,
    pool chans X y self = (Ok p, self') ->
    self' = set_model_size (model_size self + labeled_total chans)
                           self /\
    length (fst p) = (length X + labeled_total chans)%nat /\
    length (snd p) = (length y + labeled_total chans)%nat.
Proof.
  induction chans as [|c chans IH]; intros X y self self' p H;
    cbn [pool_channels] in H.
  - unfold ret in H. injection H as <- <-.
    simpl. rewrite Nat.add_0_r.
    split; [destruct self; reflexivity | lia].
  - apply bind_ok in H. destruct H as (lab & s1 & Hlab & H).
    unfold lift in Hlab. injection Hlab as Hlab <-.
    apply bind_ok in H. destruct H as (q & s2 & Hq & H).
    unfold lift in Hq. injection Hq as Hq <-.
    apply bind_ok in H. destruct H as (n & s3 & Hn & H).
    unfold get in Hn. injection Hn as <- <-.
    apply bind_ok in H. destruct H as (u & s4 & Hu & H).
    unfold assign in Hu. injection Hu as _ <-.
    apply IH in H. destruct H as (-> & HX & Hy).
    apply ChannelFacts.get_labeled_cutouts_counts in Hlab.
    destruct Hlab as (Hsize & Hlabels & _).
    destruct q as [X1 y1].
    apply pool_spikes_lengths in Hq. destruct Hq as (HX1 & Hy1).
    simpl in HX, Hy.
    cbn [labeled_total].
    fold (labeled_count c) in Hsize.
    split; [ | lia].
    destruct self; unfold set_model_size; simpl. f_equal. lia.
Qed.

Lemma choose_model_ok (m0 : option Model) (X : list (list Q))
    (s s' : detector) :
  choose m0 X s = (Ok tt, s') -> exists m, s' = set_model m s.
Proof.
  unfold choose_model. destruct m0 as [m|].
  - unfold assign. intros H. injection H as <-. eauto.
  - intros H.
    apply bind_ok in H. destruct H as (chans & s1 & H1 & H).
    unfold get in H1. injection H1 as <- <-.
    apply bind_ok in H. destruct H as (ch0 & s1 & H1 & H).
    unfold lift in H1. injection H1 as _ <-.
    apply bind_ok in H. destruct H as (k0 & s1 & H1 & H).
    unfold lift in H1. injection H1 as _ <-.
    apply bind_ok in H. destruct H as (w1 & s1 & H1 & H).
    unfold lift in H1. injection H1 as _ <-.
    unfold assign in H. injection H as <-. eauto.
Qed.

Lemma get_model_ok (s s' : detector) (m : Model) :
  get_model s = (Ok m, s') -> s' = s /\ model s = Some m.
Proof.
  unfold get_model, bind, get. destruct (model s) as [m'|].
  - unfold ret. intros H. injection H as <- <-. auto.
  - unfold raise. discriminate.
Qed.

(** [train_model] pools a cutout by iterating the [SpikeCutout] object, so
    a run that returns has pooled nothing. *)
Lemma pool_spikes_ok_empty (lab : ChannelSpikeCutout.labeled) (ls : list Z)
    (i : nat) (X : list (list Q)) (y : list Z) (q : list (list Q) * list Z) :
  pool_spikes lab ls i X y = Ok q -> ls = [].
Proof.
  destruct ls as [|l ls]; [reflexivity | ].
  cbn [pool_spikes]. intros H.
  apply rbind_ok in H. destruct H as (k & _ & H).
  apply rbind_ok in H. destruct H as (w & Hw & _).
  discriminate Hw.
Qed.

Lemma pool_channels_ok_empty (chans : list ChannelSpikeCutout.t) :
  forall X y (self self' : detector) p,
    pool chans X y self = (Ok p, self') -> labeled_total chans = 0%nat.
Proof.
  induction chans as [|c chans IH]; intros X y self self' p H;
    cbn [pool_channels] in H; [reflexivity | ].
  apply bind_ok in H. destruct H as (lab & s1 & Hlab & H).
  unfold lift in Hlab. injection Hlab as Hlab <-.
  apply bind_ok in H. destruct H as (q & s2 & Hq & H).
  unfold lift in Hq. injection Hq as Hq <-.
  apply bind_ok in H. destruct H as (n & s3 & Hn & H).
  apply bind_ok in H. destruct H as (u & s4 & Hu & H).
  apply IH in H.
  apply ChannelFacts.get_labeled_cutouts_counts in Hlab.
  destruct Hlab as (Hsize & Hlabels & _).
  apply pool_spikes_ok_empty in Hq.
  rewrite Hq in Hlabels. simpl in Hlabels.
  fold (labeled_count c) in Hsize.
  cbn [labeled_total]. lia.
Qed.

Lemma train_model_pools_nothing (model0 : option Model) (epochs : Z)
    (self self' : detector) (p : partition) :
  train model0 epochs self = (Ok p, self') ->
  labeled_total (spontaneous_cutouts self) = 0%nat.
Proof.
  unfold train_model. intros H.
  apply bind_ok in H. destruct H as (u & s1 & H1 & H).
  unfold assign in H1. injection H1 as _ <-.
  apply bind_ok in H. destruct H as (chans & s1 & H1 & H).
  unfold get in H1. injection H1 as <- <-.
  apply bind_ok in H. destruct H as (q & s2 & Hpool & _).
  apply pool_channels_ok_empty in Hpool. exact Hpool.
Qed.

(** *** Cutout extraction *)

Local Abbreviation channel :=
  (@channel_cutouts Signal Timebase Model extract_waveforms).
Local Abbreviation channels :=
  (@channels_loop Signal Timebase Model extract_waveforms).

(** The constructor call of line 104 passes the spike time as a fourth
    argument, so the loop returns only when there is no waveform. *)
Lemma cutouts_loop_ok (samp : Q) (labels : list Z) (chan_spikes : list Q)
    (raw_cutouts : list (list Q)) (i : nat) (acc l : list SpikeCutout.t) :
  cutouts_loop samp labels chan_spikes raw_cutouts i acc = Ok l ->
  raw_cutouts = [] /\ l = acc.
Proof.
  destruct raw_cutouts as [|w ws]; cbn [cutouts_loop]; intros H.
  - injection H as <-. auto.
  - apply rbind_ok in H. destruct H as (label & _ & H).
    apply rbind_ok in H. destruct H as (time & _ & H).
    apply rbind_ok in H. destruct H as (k & Hk & _).
    discriminate Hk.
Qed.

Lemma channel_init_none (l : list SpikeCutout.t) (rank idx : Z)
    (ch : ChannelSpikeCutout.t) :
  ChannelSpikeCutout.__init__ l rank idx None = Ok ch ->
  ChannelSpikeCutout.cutouts ch = l /\
  ChannelSpikeCutout.num_components ch = rank /\
  ChannelSpikeCutout.channel_index ch = idx /\
  ChannelSpikeCutout.categorized ch = false.
Proof.
  unfold ChannelSpikeCutout.__init__. simpl. unfold Py.np_zeros.
  destruct (rank <? 0); simpl; intros H; [discriminate | ].
  injection H as <-. simpl. auto.
Qed.

Lemma channel_cutouts_ok (sig : Signal) (spikes : list (list Q)) (samp : Q)
    (ext : SpikeFeatureExtractionProtocol) (i : nat)
    (self self' : detector) (ch : ChannelSpikeCutout.t) :
  channel sig spikes samp ext i self = (Ok ch, self') ->
  (i < length spikes)%nat /\
  ChannelSpikeCutout.cutouts ch = [] /\
  ChannelSpikeCutout.channel_index ch = Z.of_nat i /\
  ChannelSpikeCutout.num_components ch
    = extractor_decomposition_parameter self /\
  only_skipped_changed self self' /\
  skipped_channels self' =
    skipped_channels self ++
    (if too_few spikes (extractor_decomposition_parameter self) i
     then [i] else []) /\
  (too_few spikes (extractor_decomposition_parameter self) i = false ->
   extract_waveforms sig spikes i samp = []).
Proof.
  unfold channel_cutouts, too_few, only_skipped_changed. intros H.
  apply bind_ok in H. destruct H as (rank & s1 & H1 & H).
  unfold get in H1. injection H1 as <- <-.
  apply bind_ok in H. destruct H as (chan_spikes & s1 & H1 & H).
  unfold lift in H1. injection H1 as H1 <-.
  rewrite index_of_nat in H1.
  destruct (nth_error spikes i) as [cs|] eqn:Hcs; [ | discriminate H1].
  injection H1 as <-.
  assert (Hi : (i < length spikes)%nat)
    by (apply nth_error_Some; congruence).
  rewrite (nth_error_nth _ _ [] Hcs).
  rewrite Z.ltb_antisym.
  destruct (extractor_decomposition_parameter self <=? Z.of_nat (length cs));
    cbn [negb].
  - unfold lift in H. injection H as H <-.
    apply rbind_ok in H. destruct H as (l & Hl & H).
    apply cutouts_loop_ok in Hl. destruct Hl as (Hraw & ->).
    apply channel_init_none in H. destruct H as (? & ? & ? & _).
    rewrite app_nil_r. repeat split; auto.
    destruct self; reflexivity.
  - apply bind_ok in H. destruct H as (sk & s1 & H1 & H).
    unfold get in H1. injection H1 as <- <-.
    apply bind_ok in H. destruct H as (u & s1 & H1 & H).
    unfold assign in H1. injection H1 as _ <-.
    unfold lift in H. injection H as H <-.
    apply channel_init_none in H. destruct H as (? & ? & ? & _).
    repeat split; auto. discriminate.
Qed.

Lemma channels_loop_ok (sig : Signal) (spikes : list (list Q)) (samp : Q)
    (ext : SpikeFeatureExtractionProtocol) (chans : list nat) :
  forall (acc out : list ChannelSpikeCutout.t) (self self' : detector),
    channels sig spikes samp ext chans acc self = (Ok out, self') ->
    exists new,
      out = acc ++ new /\
      Forall2 (fun i ch =>
                 (i < length spikes)%nat /\
                 ChannelSpikeCutout.cutouts ch = [] /\
                 ChannelSpikeCutout.channel_index ch = Z.of_nat i /\
                 ChannelSpikeCutout.num_components ch
                   = extractor_decomposition_parameter self /\
                 (too_few spikes (extractor_decomposition_parameter self) i
                    = false ->
                  extract_waveforms sig spikes i samp = []))
              chans new /\
      only_skipped_changed self self' /\
      skipped_channels self' =
        skipped_channels self ++
        filter (too_few spikes (extractor_decomposition_parameter self))
               chans.
Proof.
  induction chans as [|i chans IH]; intros acc out self self' H;
    cbn [channels_loop] in H.
  - unfold ret in H. injection H as <- <-.
    exists []. rewrite !app_nil_r. repeat split; [constructor | ].
    unfold only_skipped_changed. destruct self; reflexivity.
  - apply bind_ok in H. destruct H as (ch & s1 & Hch & H).
    apply channel_cutouts_ok in Hch.
    destruct Hch as (Hi & Hc & Hidx & Hn & Hframe & Hsk & Hraw).
    apply IH in H. destruct H as (new & -> & Hall & Hframe' & Hsk').
    assert (Hrank : extractor_decomposition_parameter s1
                    = extractor_decomposition_parameter self)
      by (rewrite Hframe; reflexivity).
    rewrite Hrank in Hall, Hsk'.
    exists (ch :: new). rewrite <- app_assoc. simpl.
    split; [reflexivity | ]. split; [constructor; auto | ]. split.
    + unfold only_skipped_changed in *. rewrite Hframe', Hframe.
      reflexivity.
    + rewrite Hsk', Hsk, <- app_assoc.
      destruct (too_few spikes (extractor_decomposition_parameter self) i);
        reflexivity.
Qed.

Lemma Forall2_nth_error {A B : Type} (P : A -> B -> Prop)
    (l1 : list A) (l2 : list B) :
  Forall2 P l1 l2 ->
  forall i a b, nth_error l1 i = Some a -> nth_error l2 i = Some b -> P a b.
Proof.
  induction 1 as [|x y l1 l2 Hxy _ IH]; intros [|i] a b Ha Hb;
    try discriminate.
  - injection Ha as <-. injection Hb as <-. exact Hxy.
  - exact (IH i a b Ha Hb).
Qed.

(** What [_get_cutouts] returns, when it returns: one channel object per
    channel of the filtered signal, in channel order and carrying its own
    position as channel index, every one of them without cutouts; the
    skipped channels are those with fewer spikes than the rank. *)
Lemma get_cutouts_ok (sig : Signal) (times : Timebase) (samp : Q)
    (signal_filter : FilterProtocol Signal)
    (spike_detector : SpikeDetectionProtocol Signal Timebase)
    (ext : SpikeFeatureExtractionProtocol)
    (self self' : detector) (out : list ChannelSpikeCutout.t) :
  get_cutouts (sig, times, samp) signal_filter spike_detector ext self
    = (Ok out, self') ->
  let n := shape1 (signal_filter sig samp) in
  let spikes := spike_detector (signal_filter sig samp) times samp in
  let rank := extractor_decomposition_parameter self in
  length out = n /\
  num_channels self' = n /\
  (forall i ch, nth_error out i = Some ch ->
     ChannelSpikeCutout.channel_index ch = Z.of_nat i /\
     ChannelSpikeCutout.cutouts ch = [] /\
     ChannelSpikeCutout.num_components ch = rank) /\
  skipped_channels self' = filter (too_few spikes rank) (seq 0 n) /\
  (forall i, (i < n)%nat -> too_few spikes rank i = false ->
     extract_waveforms (signal_filter sig samp) spikes i samp = []).
Proof.
  unfold _get_cutouts. intros H.
  apply bind_ok in H. destruct H as (u & s1 & H1 & H).
  unfold assign in H1. injection H1 as _ <-.
  apply bind_ok in H. destruct H as (u1 & s1 & H1 & H).
  unfold assign in H1. injection H1 as _ <-.
  apply bind_ok in H. destruct H as (n0 & s1 & H1 & H).
  unfold get in H1. injection H1 as <- <-.
  cbn [num_channels set_skipped_channels set_num_channels] in H.
  apply channels_loop_ok in H.
  destruct H as (new & -> & Hall & Hframe & Hsk).
  cbn [app extractor_decomposition_parameter set_skipped_channels
       set_num_channels skipped_channels] in Hall, Hsk.
  cbv zeta.
  pose proof (Forall2_length Hall) as Hlen. rewrite length_seq in Hlen.
  split; [simpl; lia | ]. split; [rewrite Hframe; reflexivity | ].
  split; [ | split; [exact Hsk | ]].
  - simpl. intros i ch Hich.
    assert (Hi : (i < shape1 (signal_filter sig samp))%nat).
    { rewrite Hlen. apply nth_error_Some. congruence. }
    assert (Hseq : nth_error (seq 0 (shape1 (signal_filter sig samp))) i
                   = Some i).
    { rewrite nth_error_seq.
      destruct (Nat.ltb_spec i (shape1 (signal_filter sig samp)));
        [reflexivity | lia]. }
    destruct (Forall2_nth_error _ _ _ Hall i i ch Hseq Hich)
      as (_ & Hc & Hidx & Hn & _).
    auto.
  - intros i Hi Hfew.
    assert (Hseq : nth_error (seq 0 (shape1 (signal_filter sig samp))) i
                   = Some i).
    { rewrite nth_error_seq.
      destruct (Nat.ltb_spec i (shape1 (signal_filter sig samp)));
        [reflexivity | lia]. }
    destruct (nth_error new i) as [ch|] eqn:Hich.
    2:{ apply nth_error_None in Hich. lia. }
    destruct (Forall2_nth_error _ _ _ Hall i i ch Hseq Hich)
      as (_ & _ & _ & _ & Hraw).
    exact (Hraw Hfew).
Qed.

(** *** Evaluation *)

Local Abbreviation evaluate_with :=
  (@evaluate_model Signal Timebase Model evaluate).

(** Before training, [evaluate_model] returns loss 1 and accuracy 0 without
    raising, whatever the arguments; after training and without arguments
    it evaluates the classifier on the test data the detector holds. *)
Lemma evaluate_model_defaults (a : option (list (list Q)))
    (l : option (list Z)) (self : detector) :
  (trained self = false ->
   evaluate_with a l self = (Ok (mkEvaluation 1 0), self)) /\
  (forall m, trained self = true -> model self = Some m ->
   evaluate_with None None self
     = (Ok (mkEvaluation
              (fst (evaluate m (test_cutouts self) (test_labels self)))
              (snd (evaluate m (test_cutouts self) (test_labels self)))),
        self)).
Proof.
  split.
  - intros Ht. unfold evaluate_model. unfold bind at 1. unfold get at 1.
    cbv beta iota. rewrite Ht. reflexivity.
  - intros m Ht Hm. unfold evaluate_model, get_model, bind, get, lift, ret.
    simpl. rewrite Ht. simpl. rewrite Hm.
    destruct (evaluate m (test_cutouts self) (test_labels self)).
    reflexivity.
Qed.

(** A supplied array of two or more elements has no truth value: the
    conditional expression of line 225 raises on it. *)
Lemma evaluate_model_supplied_raises (a : list (list Q))
    (l : option (list Z)) (self : detector) :
  trained self = true ->
  (2 <= length (concat a))%nat ->
  evaluate_with (Some a) l self = (Raise ValueError, self).
Proof.
  intros Ht Ha. unfold evaluate_model, bind, get, lift.
  simpl. rewrite Ht. simpl. unfold Py.bool_array2, Py.ndarray_bool.
  destruct (length (concat a)) as [|[|n]]; try lia. reflexivity.
Qed.

(** *** Inference on single spikes *)

Local Abbreviation spike_loop := (@spikes_loop Model predict_proba).
Local Abbreviation channel_spikes :=
  (@neuronal_spikes_of_channel Model predict_proba).

(** A spike whose first probability reaches the threshold, the threshold
    itself included, makes the loop read the missing attribute [time]. *)
Lemma spikes_loop_kept_spike_raises (m : Model) (thr p : Q)
    (k : SpikeCutout.t) (rest : list SpikeCutout.t) (row : list Q)
    (others : list (list Q)) (ps : list Q) (times : list Q) (t_stop : Q) :
  predict_proba m [SpikeCutout.cutout k] = (p :: ps) :: others ->
  (thr <= p)%Q ->
  spike_loop m thr (k :: rest) times t_stop = Raise AttributeError.
Proof.
  intros Hp Hle. cbn [spikes_loop]. rewrite Hp.
  unfold Py.index. simpl.
  apply Qle_bool_iff in Hle. rewrite Hle. reflexivity.
Qed.

(** The loop returns only the accumulators it was started with. *)
Lemma spikes_loop_ok (m : Model) (thr : Q) (cs : list SpikeCutout.t) :
  forall times t_stop st,
    spike_loop m thr cs times t_stop = Ok st ->
    st = mkSpikeTrain times t_stop.
Proof.
  induction cs as [|k cs IH]; intros times t_stop st H;
    cbn [spikes_loop] in H.
  - injection H as <-. reflexivity.
  - apply rbind_ok in H. destruct H as (row & _ & H).
    apply rbind_ok in H. destruct H as (p & _ & H).
    destruct (Qle_bool thr p).
    + apply rbind_ok in H. destruct H as (t & Ht & _). discriminate Ht.
    + apply IH in H. exact H.
Qed.

(** *** Inference on components *)

Local Abbreviation comp_loop := (@components_loop Model mean_clears).
Local Abbreviation channel_components :=
  (@neuronal_components_of_channel Model mean_clears).

(** A row holding a cutout stops the loop at its header. *)
Lemma components_loop_row_raises (m : Model) (thr : Q) (k : SpikeCutout.t)
    (row : list SpikeCutout.t) (rest : list (list SpikeCutout.t))
    (channel_times : list Q) :
  comp_loop m thr ((k :: row) :: rest) channel_times = Raise TypeError.
Proof. reflexivity. Qed.

Lemma components_loop_ok (m : Model) (thr : Q)
    (rows : list (list SpikeCutout.t)) :
  forall channel_times out,
    comp_loop m thr rows channel_times = Ok out ->
    out = channel_times /\ Forall (fun row => row = []) rows.
Proof.
  induction rows as [|row rows IH]; intros channel_times out H;
    cbn [components_loop] in H.
  - injection H as <-. auto.
  - apply rbind_ok in H. destruct H as (loaded & Hl & H).
    destruct row as [|k row]; [ | discriminate Hl].
    apply rbind_ok in H. destruct H as (clears & _ & H).
    apply rbind_ok in H. destruct H as (ct & Hct & H).
    assert (ct = channel_times).
    { destruct clears; simpl in Hct; injection Hct as <-; reflexivity. }
    subst ct. apply IH in H. destruct H as (-> & Hall). auto.
Qed.

Lemma map_result_ok {A B : Type} (f : A -> result B) (l : list A) :
  forall out, map_result f l = Ok out -> Forall2 (fun x y => f x = Ok y) l out.
Proof.
  induction l as [|x l IH]; intros out H; cbn [map_result] in H.
  - injection H as <-. constructor.
  - apply rbind_ok in H. destruct H as (y & Hy & H).
    apply rbind_ok in H. destruct H as (ys & Hys & H).
    injection H as <-. constructor; auto.
Qed.

(** Whatever either inference method returns is one spike train per
    channel, each of them without a spike and with end time 0: a recording
    in which a channel yields a waveform never gets that far. *)
Lemma inference_ok_keeps_nothing (sig : Signal) (times : Timebase) (samp : Q)
    (thr : Q) (signal_filter : option (FilterProtocol Signal))
    (spike_detector : option (SpikeDetectionProtocol Signal Timebase))
    (self self' : detector) (trains : list SpikeTrain) :
  spikes (sig, times, samp) thr signal_filter spike_detector self
    = (Ok trains, self') \/
  components (sig, times, samp) thr signal_filter spike_detector self
    = (Ok trains, self') ->
  length trains
    = shape1 (or_else signal_filter (spont_signal_filter self) sig samp) /\
  Forall (fun st => st = mkSpikeTrain [] 0) trains.
Proof.
  intros [H | H].
  - unfold get_only_neuronal_spikes in H.
    apply bind_ok in H. destruct H as (b & s1 & H1 & H).
    unfold get in H1. injection H1 as <- <-.
    destruct (trained self); cbn [negb] in H; [ | discriminate H].
    apply bind_ok in H. destruct H as (f & s1 & H1 & H).
    unfold get in H1. injection H1 as <- <-.
    apply bind_ok in H. destruct H as (d & s1 & H1 & H).
    unfold get in H1. injection H1 as <- <-.
    apply bind_ok in H. destruct H as (e & s1 & H1 & H).
    unfold get in H1. injection H1 as <- <-.
    apply bind_ok in H. destruct H as (chans & s1 & Hgc & H).
    apply get_cutouts_ok in Hgc. cbv zeta in Hgc.
    destruct Hgc as (Hlen & _ & Hch & _).
    apply bind_ok in H. destruct H as (m & s2 & _ & H).
    unfold lift in H. injection H as H _.
    apply map_result_ok in H.
    split; [rewrite <- (Forall2_length H); exact Hlen | ].
    assert (Hall : Forall (fun ch => ChannelSpikeCutout.cutouts ch = [])
                          chans).
    { apply Forall_forall. intros ch Hin.
      apply In_nth_error in Hin. destruct Hin as (i & Hi).
      apply (Hch i ch Hi). }
    clear Hlen Hch.
    induction H as [|ch st chans trains Hst _ IH]; constructor.
    + apply Forall_inv in Hall.
      unfold neuronal_spikes_of_channel in Hst. rewrite Hall in Hst.
      injection Hst as <-. reflexivity.
    + apply IH. apply (Forall_inv_tail Hall).
  - unfold get_only_neuronal_components in H.
    apply bind_ok in H. destruct H as (b & s1 & H1 & H).
    unfold get in H1. injection H1 as <- <-.
    destruct (trained self); cbn [negb] in H; [ | discriminate H].
    apply bind_ok in H. destruct H as (f & s1 & H1 & H).
    unfold get in H1. injection H1 as <- <-.
    apply bind_ok in H. destruct H as (d & s1 & H1 & H).
    unfold get in H1. injection H1 as <- <-.
    apply bind_ok in H. destruct H as (e & s1 & H1 & H).
    unfold get in H1. injection H1 as <- <-.
    apply bind_ok in H. destruct H as (chans & s1 & Hgc & H).
    apply get_cutouts_ok in Hgc. cbv zeta in Hgc.
    destruct Hgc as (Hlen & _ & Hch & _).
    apply bind_ok in H. destruct H as (m & s2 & _ & H).
    unfold lift in H. injection H as H _.
    apply map_result_ok in H.
    split; [rewrite <- (Forall2_length H); exact Hlen | ].
    clear Hlen Hch.
    induction H as [|ch st chans trains Hst _ IH]; constructor.
    + unfold neuronal_components_of_channel in Hst.
      apply rbind_ok in Hst. destruct Hst as (rows & _ & Hst).
      apply rbind_ok in Hst. destruct Hst as (ct & Hct & Hst).
      apply components_loop_ok in Hct. destruct Hct as (-> & _).
      injection Hst as <-. reflexivity.
    + exact IH.
Qed.

(** *** More on cutout extraction *)

(** X11. Whenever [_get_cutouts] returns, it returns one channel object per
    channel of the filtered signal, in channel order, each carrying its
    position as channel index and the rank as component count, and none
    holding a cutout; [num_channels] is the channel count,
    [skipped_channels] lists, in order, exactly the channels with fewer
    spikes than the rank, whatever it listed before, and a channel that is
    not skipped has yielded no waveform. *)
Theorem get_cutouts_returns_placeholders (sig : Signal) (times : Timebase)
    (samp : Q) (signal_filter : FilterProtocol Signal)
    (spike_detector : SpikeDetectionProtocol Signal Timebase)
    (ext : SpikeFeatureExtractionProtocol)
    (self self' : detector) (out : list ChannelSpikeCutout.t) :
  get_cutouts (sig, times, samp) signal_filter spike_detector ext self
    = (Ok out, self') ->
  let n := shape1 (signal_filter sig samp) in
  let spikes := spike_detector (signal_filter sig samp) times samp in
  let rank := extractor_decomposition_parameter self in
  length out = n /\
  num_channels self' = n /\
  (forall i ch, nth_error out i = Some ch ->
     ChannelSpikeCutout.channel_index ch = Z.of_nat i /\
     ChannelSpikeCutout.cutouts ch = [] /\
     ChannelSpikeCutout.num_components ch = rank) /\
  skipped_channels self' = filter (too_few spikes rank) (seq 0 n) /\
  (forall i, (i < n)%nat -> too_few spikes rank i = false ->
     extract_waveforms (signal_filter sig samp) spikes i samp = []).
Proof. exact (get_cutouts_ok sig times samp signal_filter spike_detector
                ext self self' out). Qed.

Lemma channel_cutouts_quiet (sig : Signal) (spikes : list (list Q)) (samp : Q)
    (ext : SpikeFeatureExtractionProtocol) (i : nat) (self : detector) :
  (i < length spikes)%nat ->
  too_few spikes (extractor_decomposition_parameter self) i = true ->
  channel sig spikes samp ext i self
    = (Ok (ChannelSpikeCutout.mk [] (extractor_decomposition_parameter self)
             (Z.of_nat i) false
             (repeat 0 (Z.to_nat (extractor_decomposition_parameter self)))),
       set_skipped_channels (skipped_channels self ++ [i]) self).
Proof.
  intros Hi Hfew. unfold too_few in Hfew.
  destruct (nth_error spikes i) as [cs|] eqn:Hcs.
  2:{ apply nth_error_None in Hcs. lia. }
  rewrite (nth_error_nth _ _ [] Hcs) in Hfew. apply Z.ltb_lt in Hfew.
  unfold channel_cutouts, bind, get, lift, assign.
  rewrite index_of_nat, Hcs.
  replace (extractor_decomposition_parameter self
           <=? Z.of_nat (length cs)) with false
    by (symmetry; apply Z.leb_gt; lia).
  unfold ChannelSpikeCutout.__init__, Py.np_zeros. cbn [rbind].
  replace (extractor_decomposition_parameter self <? 0) with false
    by (symmetry; apply Z.ltb_ge; lia).
  reflexivity.
Qed.

Lemma channels_loop_quiet (sig : Signal) (spikes : list (list Q)) (samp : Q)
    (ext : SpikeFeatureExtractionProtocol) (chans : list nat) :
  forall (acc : list ChannelSpikeCutout.t) (self : detector),
    Forall (fun i => (i < length spikes)%nat /\
                     too_few spikes (extractor_decomposition_parameter self) i
                       = true) chans ->
    channels sig spikes samp ext chans acc self
      = (Ok (acc ++
             map (fun i =>
                    ChannelSpikeCutout.mk []
                      (extractor_decomposition_parameter self) (Z.of_nat i)
                      false
                      (repeat 0
                         (Z.to_nat (extractor_decomposition_parameter self))))
                 chans),
         set_skipped_channels (skipped_channels self ++ chans) self).
Proof.
  induction chans as [|i chans IH]; intros acc self Hall;
    cbn [channels_loop map].
  - unfold ret. rewrite !app_nil_r. destruct self; reflexivity.
  - pose proof (Forall_inv Hall) as (Hi & Hfew).
    apply Forall_inv_tail in Hall.
    unfold bind. rewrite channel_cutouts_quiet by assumption.
    rewrite IH by exact Hall.
    cbn [extractor_decomposition_parameter set_skipped_channels
         skipped_channels].
    rewrite <- !app_assoc. reflexivity.
Qed.

(** X12. On a recording every channel of which has fewer spikes than the
    rank, and for which the spike detector reports every channel,
    [_get_cutouts] returns: one uncategorized channel object per channel,
    without cutouts and with as many zeros as the rank for its categories,
    and every channel is listed as skipped. *)
Theorem get_cutouts_quiet_recording (sig : Signal) (times : Timebase)
    (samp : Q) (signal_filter : FilterProtocol Signal)
    (spike_detector : SpikeDetectionProtocol Signal Timebase)
    (ext : SpikeFeatureExtractionProtocol) (self : detector) :
  let n := shape1 (signal_filter sig samp) in
  let spikes := spike_detector (signal_filter sig samp) times samp in
  let rank := extractor_decomposition_parameter self in
  (n <= length spikes)%nat ->
  (forall i, (i < n)%nat -> too_few spikes rank i = true) ->
  get_cutouts (sig, times, samp) signal_filter spike_detector ext self
    = (Ok (map (fun i => ChannelSpikeCutout.mk [] rank (Z.of_nat i) false
                           (repeat 0 (Z.to_nat rank)))
               (seq 0 n)),
       set_skipped_channels (seq 0 n) (set_num_channels n self)).
Proof.
  cbv zeta. intros Hlen Hfew.
  unfold _get_cutouts, bind, assign, get.
  rewrite channels_loop_quiet.
  - reflexivity.
  - apply Forall_forall. intros i Hi. apply in_seq in Hi.
    cbn [extractor_decomposition_parameter set_skipped_channels
         set_num_channels num_channels] in *.
    split; [lia | apply Hfew; lia].
Qed.

(** The attributes the channel loop leaves alone, whatever the outcome. *)
Lemma channel_cutouts_frame (sig : Signal) (spikes : list (list Q)) (samp : Q)
    (ext : SpikeFeatureExtractionProtocol) (i : nat) (self : detector) :
  only_skipped_changed self (snd (channel sig spikes samp ext i self)).
Proof.
  unfold only_skipped_changed, channel_cutouts, bind, get, lift, assign.
  cbn [fst snd].
  destruct (Py.index spikes (Z.of_nat i)) as [cs|e]; cbn [fst snd].
  - destruct (extractor_decomposition_parameter self
              <=? Z.of_nat (length cs)); cbn [snd].
    + destruct self; reflexivity.
    + reflexivity.
  - destruct self; reflexivity.
Qed.

Lemma channels_loop_frame (sig : Signal) (spikes : list (list Q)) (samp : Q)
    (ext : SpikeFeatureExtractionProtocol) (chans : list nat) :
  forall (acc : list ChannelSpikeCutout.t) (self : detector),
    only_skipped_changed self
      (snd (channels sig spikes samp ext chans acc self)).
Proof.
  induction chans as [|i chans IH]; intros acc self; cbn [channels_loop].
  - unfold ret, only_skipped_changed. destruct self; reflexivity.
  - unfold bind.
    pose proof (channel_cutouts_frame sig spikes samp ext i self) as H1.
    destruct (channel sig spikes samp ext i self) as [[ch|e] s1];
      cbn [snd] in *.
    + specialize (IH (acc ++ [ch]) s1).
      unfold only_skipped_changed in *. rewrite IH, H1. reflexivity.
    + exact H1.
Qed.

Lemma get_cutouts_frame (data : Data Signal Timebase)
    (signal_filter : FilterProtocol Signal)
    (spike_detector : SpikeDetectionProtocol Signal Timebase)
    (ext : SpikeFeatureExtractionProtocol) (self : detector) :
  let self' := snd (get_cutouts data signal_filter spike_detector ext self) in
  self' = set_skipped_channels (skipped_channels self')
            (set_num_channels (num_channels self') self).
Proof.
  destruct data as [[sig times] samp].
  cbv zeta. unfold _get_cutouts, bind, assign, get.
  cbn [num_channels set_skipped_channels set_num_channels].
  match goal with
  | |- context [channels ?a ?b ?c ?d ?e ?f ?g] =>
      pose proof (channels_loop_frame a b c d e f g) as H;
      destruct (channels a b c d e f g) as [[out|ex] s1]
  end; cbn [snd] in *; unfold only_skipped_changed in H; rewrite H;
    reflexivity.
Qed.


(** *** More on categorizing *)

Lemma categorize_rows_frame (rows : list (list Z)) :
  forall (n : nat) (self s' : detector) r,
    rows_loop rows n self = (r, s') ->
    s' = set_spontaneous_cutouts (spontaneous_cutouts s') self /\
    length (spontaneous_cutouts s') = length (spontaneous_cutouts self).
Proof.
  induction rows as [|row rows IH]; intros n self s' r H;
    cbn [categorize_rows] in H.
  - unfold ret in H. injection H as _ <-. destruct self; auto.
  - unfold bind at 1 in H. unfold get at 1 in H. cbv beta iota in H.
    unfold bind at 1 in H. unfold lift at 1 in H.
    destruct (Py.index (spontaneous_cutouts self) (Z.of_nat n)) as [ch|e].
    + unfold bind at 1 in H. unfold assign at 1 in H. cbv beta iota in H.
      apply IH in H. destruct H as (H & Hl).
      cbn [spontaneous_cutouts set_spontaneous_cutouts] in Hl.
      rewrite set_nth_length in Hl.
      split; [rewrite H; reflexivity | exact Hl].
    + injection H as _ <-. destruct self; auto.
Qed.

(** X13. [categorize_spontaneous] touches nothing but the channel objects
    and the [categorized] flag, whether it returns or raises: the trained
    flag, the model, the test data, [model_size] and the channel
    bookkeeping are as before, so a detector that was trained still counts
    as trained with its old model. *)
Theorem categorize_spontaneous_keeps_training
    (categorization_list : list (list Z)) (self : detector) :
  let self' := snd (categorize_all categorization_list self) in
  trained self' = trained self /\
  model self' = model self /\
  test_cutouts self' = test_cutouts self /\
  test_labels self' = test_labels self /\
  model_size self' = model_size self /\
  skipped_channels self' = skipped_channels self /\
  num_channels self' = num_channels self /\
  extractor_decomposition_parameter self'
    = extractor_decomposition_parameter self /\
  length (spontaneous_cutouts self') = length (spontaneous_cutouts self).
Proof.
  cbv zeta.
  destruct (categorize_all categorization_list self) as [r s'] eqn:H.
  cbn [snd]. unfold categorize_spontaneous in H.
  unfold bind at 1 in H.
  destruct (rows_loop categorization_list 0 self) as [[u|e] s1] eqn:H1;
    apply categorize_rows_frame in H1; destruct H1 as (H1 & Hl).
  - unfold assign in H. injection H as _ <-.
    rewrite H1. repeat split; try reflexivity. exact Hl.
  - injection H as _ <-.
    rewrite H1. repeat split; try reflexivity. exact Hl.
Qed.

Lemma categorize_rows_app (r1 r2 : list (list Z)) :
  forall (n : nat) (self : detector),
    rows_loop (r1 ++ r2) n self
    = bind (rows_loop r1 n) (fun _ => rows_loop r2 (n + length r1)) self.
Proof.
  induction r1 as [|row r1 IH]; intros n self; cbn [categorize_rows app].
  - unfold bind, ret. rewrite Nat.add_0_r. reflexivity.
  - unfold bind, get, lift, assign.
    destruct (Py.index (spontaneous_cutouts self) (Z.of_nat n)) as [ch|e];
      [ | reflexivity].
    rewrite IH. unfold bind. cbn [length].
    replace (S n + length r1)%nat with (n + S (length r1))%nat by lia.
    reflexivity.
Qed.

(** X14. With more rows than the detector has channels,
    [categorize_spontaneous] raises [IndexError] only after it has
    categorized every channel with the row at its position; the
    detector's [categorized] flag keeps its old value. *)
Theorem categorize_spontaneous_extra_rows
    (categorization_list : list (list Z)) (self : detector) :
  (length (spontaneous_cutouts self) < length categorization_list)%nat ->
  exists self',
    categorize_all categorization_list self = (Raise IndexError, self') /\
    categorized self' = categorized self /\
    length (spontaneous_cutouts self') = length (spontaneous_cutouts self) /\
    forall i row ch,
      nth_error categorization_list i = Some row ->
      nth_error (spontaneous_cutouts self) i = Some ch ->
      nth_error (spontaneous_cutouts self') i
        = Some (ChannelSpikeCutout.categorize row ch).
Proof.
  intros Hlen.
  set (m := length (spontaneous_cutouts self)) in *.
  rewrite <- (firstn_skipn m categorization_list).
  assert (Hm : length (firstn m categorization_list) = m)
    by (rewrite length_firstn; lia).
  destruct (categorize_rows_in_range (firstn m categorization_list) 0 self)
    as (s1 & Hrun & Hc & _ & Hl & _ & Hrow).
  { rewrite Hm. simpl. lia. }
  destruct (skipn m categorization_list) as [|row rest] eqn:Hrest.
  { apply (f_equal (@length _)) in Hrest.
    rewrite length_skipn in Hrest. simpl in Hrest. lia. }
  exists s1. split.
  { unfold categorize_spontaneous.
    unfold bind at 1. rewrite categorize_rows_app.
    unfold bind at 1. rewrite Hrun. cbn [categorize_rows].
    unfold bind at 1. unfold get at 1. cbv beta iota.
    unfold bind at 1. unfold lift at 1.
    rewrite Hm, Nat.add_0_l, index_of_nat.
    rewrite (proj2 (nth_error_None (spontaneous_cutouts s1) m)) by lia.
    reflexivity. }
  split; [exact Hc | ]. split; [exact Hl | ].
  intros i r ch Hr Hch.
  assert (Hi : (i < m)%nat) by (apply nth_error_Some; congruence).
  apply (Hrow i r ch); [ | exact Hch].
  rewrite nth_error_app1 in Hr by lia. exact Hr.
Qed.

(** *** More on training *)

Lemma pool_channels_frame (chans : list ChannelSpikeCutout.t) :
  forall X y (self s' : detector) r,
    pool chans X y self = (r, s') ->
    s' = set_model_size (model_size s') self.
Proof.
  induction chans as [|c chans IH]; intros X y self s' r H;
    cbn [pool_channels] in H.
  - unfold ret in H. injection H as _ <-. destruct self; reflexivity.
  - unfold bind at 1 in H. unfold lift at 1 in H.
    destruct (ChannelSpikeCutout.get_labeled_cutouts c) as [lab|e].
    2:{ injection H as _ <-. destruct self; reflexivity. }
    unfold bind at 1 in H. unfold lift at 1 in H.
    destruct (pool_spikes lab (ChannelSpikeCutout.labels lab) 0 X y)
      as [q|e].
    2:{ injection H as _ <-. destruct self; reflexivity. }
    unfold bind at 1 in H. unfold get at 1 in H. cbv beta iota in H.
    unfold bind at 1 in H. unfold assign at 1 in H. cbv beta iota in H.
    apply IH in H. rewrite H. reflexivity.
Qed.

Lemma pool_channels_nothing_labeled (chans : list ChannelSpikeCutout.t) :
  forall X y (self : detector),
    labeled_total chans = 0%nat ->
    pool chans X y self = (Ok (X, y), self).
Proof.
  induction chans as [|c chans IH]; intros X y self H0;
    cbn [pool_channels labeled_total] in *.
  - reflexivity.
  - assert (Hc : labeled_count c = 0%nat) by lia.
    assert (Hlab : ChannelSpikeCutout.get_labeled_cutouts c
                   = Ok ChannelSpikeCutout.no_labeled).
    { unfold labeled_count in Hc.
      unfold ChannelSpikeCutout.get_labeled_cutouts.
      destruct (ChannelSpikeCutout.categorized c); [ | reflexivity].
      apply length_zero_iff_nil in Hc. rewrite Hc. reflexivity. }
    unfold bind, lift, get, assign. rewrite Hlab.
    cbn [ChannelSpikeCutout.labels ChannelSpikeCutout.no_labeled pool_spikes
         ChannelSpikeCutout.size fst snd].
    rewrite IH by lia. rewrite Nat.add_0_r. destruct self; reflexivity.
Qed.

(** X15. [train_model] with a supplied model returns exactly when no
    categorized channel holds a cutout, whether or not the detector was
    ever categorized; it then marks the detector trained, with the model
    fitted on an empty training set, [model_size] 0 and no test data. *)
Theorem train_model_returns_iff_nothing_labeled
    (shuffle_length : forall X y,
        length (fst (shuffle X y)) = length X /\
        length (snd (shuffle X y)) = length y)
    (m : Model) (epochs : Z) (self : detector) :
  ((exists p self', train (Some m) epochs self = (Ok p, self')) <->
   labeled_total (spontaneous_cutouts self) = 0%nat) /\
  (labeled_total (spontaneous_cutouts self) = 0%nat ->
   train (Some m) epochs self
   = (Ok (mk_partition [] [] [] []),
      set_trained true
        (set_model (fit m [] [] epochs)
           (set_test [] [] (set_model_size 0 self))))).
Proof.
  assert (Hrun : labeled_total (spontaneous_cutouts self) = 0%nat ->
                 train (Some m) epochs self
                 = (Ok (mk_partition [] [] [] []),
                    set_trained true
                      (set_model (fit m [] [] epochs)
                         (set_test [] [] (set_model_size 0 self))))).
  { intros H0. unfold train_model.
    unfold bind at 1. unfold assign at 1.
    unfold bind at 1. unfold get at 1.
    cbn [spontaneous_cutouts set_model_size].
    unfold bind at 1. rewrite pool_channels_nothing_labeled by exact H0.
    unfold bind at 1. unfold get at 1. cbn [model_size set_model_size fst snd].
    unfold split_pool, split_point.
    destruct (shuffle_length [] []) as (HX & Hy).
    destruct (shuffle [] []) as [X y]. cbn [fst snd length] in HX, Hy.
    apply length_zero_iff_nil in HX, Hy. subst X y.
    reflexivity. }
  split; [split | exact Hrun].
  - intros (p & self' & H). exact (train_model_pools_nothing _ _ _ _ _ H).
  - intros H0. rewrite (Hrun H0). eauto.
Qed.

(** X16. [train_model] without a model never returns: building the default
    model reads the second pooled cutout, and a run that gets that far
    has pooled none. *)
Theorem train_model_default_never_returns
    (shuffle_length : forall X y,
        length (fst (shuffle X y)) = length X /\
        length (snd (shuffle X y)) = length y)
    (epochs : Z) (self : detector) (p : partition) :
  fst (train None epochs self) <> Ok p.
Proof.
  intros Hok.
  destruct (train None epochs self) as [r self'] eqn:H.
  cbn [fst] in Hok. subst r.
  unfold train_model in H.
  apply bind_ok in H. destruct H as (u & s1 & H1 & H).
  unfold assign in H1. injection H1 as _ <-.
  apply bind_ok in H. destruct H as (chans & s1 & H1 & H).
  unfold get in H1. injection H1 as <- <-.
  apply bind_ok in H. destruct H as (q & s2 & Hpool & H).
  pose proof (pool_channels_ok_empty _ _ _ _ _ _ Hpool) as H0.
  apply pool_channels_counts in Hpool. destruct Hpool as (-> & HX & _).
  apply bind_ok in H. destruct H as (n & s3 & H1 & H).
  unfold get in H1. injection H1 as <- <-.
  unfold split_pool in H.
  destruct (shuffle_length (fst q) (snd q)) as (HsX & _).
  destruct (shuffle (fst q) (snd q)) as [X y]. cbn [fst] in HsX.
  apply bind_ok in H. destruct H as (u1 & s3 & H1 & H).
  unfold assign in H1. injection H1 as _ <-.
  apply bind_ok in H. destruct H as (u2 & s4 & Hch & _).
  unfold choose_model in Hch.
  apply bind_ok in Hch. destruct Hch as (cs & s5 & H1 & Hch).
  apply bind_ok in Hch. destruct Hch as (ch0 & s6 & _ & Hch).
  apply bind_ok in Hch. destruct Hch as (k0 & s7 & _ & Hch).
  apply bind_ok in Hch. destruct Hch as (w1 & s8 & Hw & _).
  unfold lift in Hw. injection Hw as Hw _.
  cbn [spontaneous_cutouts set_model_size] in H0.
  rewrite H0 in HX. simpl in HX. rewrite HX in HsX.
  apply length_zero_iff_nil in HsX. subst X. discriminate Hw.
Qed.

(** *** Training when the library calls may raise *)

Variable shuffle_r :
  list (list Q) -> list Z -> result (list (list Q) * list Z).
Variable sequential_r : nat -> nat -> nat -> result Model.
Variable compile_r : Model -> result unit * Model.
Variable fit_r :
  Model -> list (list Q) -> list Z -> Z -> result unit * Model.

Local Abbreviation train_r :=
  (@train_model_r Signal Timebase Model shuffle_r sequential_r compile_r
     fit_r).
Local Abbreviation choose_r :=
  (@choose_model_r Signal Timebase Model sequential_r compile_r).
Local Abbreviation call_on_model := (@on_model Signal Timebase Model).

(** With library calls that return, [train_model_r] is [train_model]. *)
Lemma train_model_r_of_returning_calls (model0 : option Model) (epochs : Z)
    (self : detector) :
  @train_model_r Signal Timebase Model
    (fun X y => Ok (shuffle X y))
    (fun i h o => Ok (create_default_model i h o))
    (fun m => (Ok tt, m))
    (fun m X y e => (Ok tt, fit m X y e))
    model0 epochs self
  = train model0 epochs self.
Proof.
  unfold train_model_r, train_model, split_pool, choose_model_r,
    choose_model, _create_default_model, on_model, get_model, bind, get,
    lift, assign, ret, raise.
  cbn [spontaneous_cutouts set_model_size].
  destruct (pool (spontaneous_cutouts self) [] [] (set_model_size 0 self))
    as [[q|ex] s2]; [ | reflexivity].
  destruct (shuffle (fst q) (snd q)) as [X y]. cbn [fst snd].
  destruct model0 as [m|]; [reflexivity | ].
  cbn [spontaneous_cutouts set_test model set_model].
  destruct (Py.index (spontaneous_cutouts s2) 0) as [ch0|e0];
    [ | reflexivity].
  destruct (Py.index (ChannelSpikeCutout.cutouts ch0) 0) as [k0|e0];
    [ | reflexivity].
  destruct (Py.index X 1) as [w1|e0]; reflexivity.
Qed.

Lemma on_model_cases (method : Model -> result unit * Model) (s : detector) :
  call_on_model method s
  = match model s with
    | Some m => (fst (method m), set_model (snd (method m)) s)
    | None => (Raise AttributeError, s)
    end.
Proof.
  unfold on_model, get_model, bind, get, ret, raise, assign, lift.
  destruct (model s); reflexivity.
Qed.

(** Choosing the model assigns [self.model] and nothing else; a supplied
    model is assigned as it is. *)
Lemma choose_model_r_frame (m0 : option Model) (X : list (list Q))
    (s s' : detector) (r : result unit) :
  choose_r m0 X s = (r, s') ->
  (s' = s \/ exists m, s' = set_model m s) /\
  (forall m, m0 = Some m -> r = Ok tt /\ s' = set_model m s).
Proof.
  unfold choose_model_r. destruct m0 as [m|].
  - unfold assign. intros H. injection H as <- <-. split; eauto.
    intros m' E. injection E as <-. auto.
  - intros H. split; [ | discriminate].
    unfold bind at 1 in H. unfold get at 1 in H. cbv beta iota in H.
    unfold bind at 1 in H. unfold lift at 1 in H.
    destruct (Py.index (spontaneous_cutouts s) 0) as [ch0|e0];
      [ | injection H as _ <-; auto].
    unfold bind at 1 in H. unfold lift at 1 in H.
    destruct (Py.index (ChannelSpikeCutout.cutouts ch0) 0) as [k0|e0];
      [ | injection H as _ <-; auto].
    unfold bind at 1 in H. unfold lift at 1 in H.
    destruct (Py.index X 1) as [w1|e0];
      [ | injection H as _ <-; auto].
    unfold _create_default_model in H.
    unfold bind at 1 in H. unfold lift at 1 in H.
    destruct (sequential_r _ _ _) as [m|e0];
      [ | injection H as _ <-; auto].
    unfold bind at 1 in H. unfold assign at 1 in H. cbv beta iota in H.
    rewrite on_model_cases in H. cbn [model set_model] in H.
    injection H as _ <-. right. eexists. reflexivity.
Qed.

(** X17. A run of [train_model] that raises, whichever library call or
    statement raised, leaves the [trained] flag, the channel objects and
    the [categorized] flag as they were.  [self.model] is another matter:
    with a supplied model, either the run raised before the model was
    assigned, or it is [fit] that raised and [self.model] already is the
    supplied model, as [fit] left it.  A detector that was trained before
    then still counts as trained, with a model whose fit has failed. *)
Theorem train_model_failure_keeps_trained (model0 : option Model)
    (epochs : Z) (self self' : detector) (e : exn) :
  train_r model0 epochs self = (Raise e, self') ->
  trained self' = trained self /\
  spontaneous_cutouts self' = spontaneous_cutouts self /\
  categorized self' = categorized self /\
  (forall m, model0 = Some m ->
     model self' = model self \/
     exists X y, fst (fit_r m X y epochs) = Raise e /\
                 model self' = Some (snd (fit_r m X y epochs))).
Proof.
  unfold train_model_r. intros H.
  unfold bind at 1 in H. unfold assign at 1 in H. cbv beta iota in H.
  unfold bind at 1 in H. unfold get at 1 in H. cbv beta iota in H.
  cbn [spontaneous_cutouts set_model_size] in H.
  unfold bind at 1 in H.
  destruct (pool (spontaneous_cutouts self) [] [] (set_model_size 0 self))
    as [[q|ex] s2] eqn:Hpool; apply pool_channels_frame in Hpool.
  2:{ injection H as _ <-. rewrite Hpool. auto. }
  unfold bind at 1 in H. unfold lift at 1 in H.
  destruct (shuffle_r (fst q) (snd q)) as [[X y]|ex].
  2:{ injection H as _ <-. rewrite Hpool. auto. }
  unfold bind at 1 in H. unfold get at 1 in H. cbv beta iota in H.
  cbn [fst snd held_cutouts held_labels train_cutouts train_labels] in H.
  unfold bind at 1 in H. unfold assign at 1 in H. cbv beta iota in H.
  unfold bind at 1 in H.
  match type of H with
  | match choose_r model0 X ?s with _ => _ end = _ =>
      destruct (choose_r model0 X s) as [[u|ex] s3] eqn:Hch
  end; apply choose_model_r_frame in Hch; destruct Hch as (Hfr & Hsome).
  2:{ injection H as _ <-.
      split; [ | split; [ | split]].
      1-3: destruct Hfr as [-> | (m & ->)]; rewrite Hpool; reflexivity.
      intros m E. destruct (Hsome m E) as (D & _). discriminate D. }
  unfold bind at 1 in H. rewrite on_model_cases in H.
  destruct (model s3) as [m1|] eqn:Hm1.
  2:{ injection H as _ <-.
      split; [ | split; [ | split]].
      1-3: destruct Hfr as [-> | (m & ->)]; rewrite Hpool; reflexivity.
      intros m E. destruct (Hsome m E) as (_ & ->).
      cbn [model set_model] in Hm1. discriminate Hm1. }
  match type of H with
  | match fst ?c with _ => _ end = _ =>
      destruct (fst c) as [u1|ex] eqn:Hfit
  end.
  { unfold bind, assign, ret in H. discriminate H. }
  injection H as <- <-.
  split; [ | split; [ | split]].
  1-3: destruct Hfr as [-> | (m & ->)]; rewrite Hpool; reflexivity.
  intros m E. destruct (Hsome m E) as (_ & ->).
  cbn [model set_model] in Hm1. injection Hm1 as <-.
  right. do 2 eexists. split; [exact Hfit | reflexivity].
Qed.


(** *** More on evaluation *)

(** X18. [evaluate_model] only reads the detector: whatever it is given
    and whether it returns or raises, the detector is left as it was.
    Untrained, it returns loss 1 and accuracy 0 for every argument;
    trained and called without arguments, it returns what the classifier
    reports on the test data the detector holds. *)
Theorem evaluate_model_reads_only (a : option (list (list Q)))
    (l : option (list Z)) (self : detector) :
  snd (evaluate_with a l self) = self /\
  (trained self = false ->
   fst (evaluate_with a l self) = Ok (mkEvaluation 1 0)) /\
  (forall m, trained self = true -> model self = Some m ->
   fst (evaluate_with None None self)
     = Ok (mkEvaluation
             (fst (evaluate m (test_cutouts self) (test_labels self)))
             (snd (evaluate m (test_cutouts self) (test_labels self))))).
Proof.
  split; [ | split].
  - unfold evaluate_model, get_model, bind, get, lift, ret, raise.
    destruct (trained self); cbn [negb fst snd]; [ | reflexivity].
    destruct (array2_or a (test_cutouts self)) as [X|e]; [ | reflexivity].
    destruct (array1_or l (test_labels self)) as [y|e]; [ | reflexivity].
    destruct (model self) as [m|]; [ | reflexivity].
    destruct (evaluate m X y). reflexivity.
  - intros Ht.
    rewrite (proj1 (evaluate_model_defaults a l self) Ht). reflexivity.
  - intros m Ht Hm.
    rewrite (proj2 (evaluate_model_defaults None None self) m Ht Hm).
    reflexivity.
Qed.

(** X19. On a trained detector, each argument of [evaluate_model] is
    replaced by the detector's own test data on its own, and by its truth
    value rather than by its presence: a one-element array holding 0
    counts as absent, and a one-element array holding another value is
    used together with whatever the other argument resolves to. *)
Theorem evaluate_model_resolves_by_truth_value (a : list (list Q))
    (l : list Z) (m : Model) (self : detector) :
  trained self = true -> model self = Some m ->
  length (concat a) = 1%nat -> length l = 1%nat ->
  let X := if Py.nonzeroQ (concat a) then a else test_cutouts self in
  let y := if Py.nonzeroZ l then l else test_labels self in
  evaluate_with (Some a) (Some l) self
    = (Ok (mkEvaluation (fst (evaluate m X y)) (snd (evaluate m X y))), self)
  /\
  evaluate_with None (Some l) self
    = (Ok (mkEvaluation (fst (evaluate m (test_cutouts self) y))
                        (snd (evaluate m (test_cutouts self) y))), self).
Proof.
  intros Ht Hm Ha Hl. cbv zeta.
  unfold evaluate_model, get_model, bind, get, lift, ret, array2_or,
    array1_or, Py.bool_array2, Py.bool_array1, Py.ndarray_bool.
  rewrite Ht, Ha, Hl. cbn [negb rbind]. rewrite Hm.
  repeat match goal with
         | |- context [evaluate ?m ?X ?y] => destruct (evaluate m X y)
         end; split; reflexivity.
Qed.

(** *** More on inference *)

Local Abbreviation first_probability :=
  (fun (m : Model) (k : SpikeCutout.t) =>
     hd 0%Q (hd [] (predict_proba m [SpikeCutout.cutout k]))).

Lemma spikes_loop_below (m : Model) (thr : Q) (cs : list SpikeCutout.t) :
  forall times t_stop,
    Forall (fun k =>
              predict_proba m [SpikeCutout.cutout k] <> [] /\
              hd [] (predict_proba m [SpikeCutout.cutout k]) <> [] /\
              (first_probability m k < thr)%Q) cs ->
    spike_loop m thr cs times t_stop = Ok (mkSpikeTrain times t_stop).
Proof.
  induction cs as [|k cs IH]; intros times t_stop Hall; cbn [spikes_loop].
  - reflexivity.
  - pose proof (Forall_inv Hall) as (H1 & H2 & H3).
    apply Forall_inv_tail in Hall. cbv beta in H3.
    destruct (predict_proba m [SpikeCutout.cutout k]) as [|row others];
      [congruence | ].
    cbn [hd] in H2, H3. destruct row as [|p ps]; [congruence | ].
    cbn [hd] in H3. unfold Py.index. simpl.
    replace (Qle_bool thr p) with false.
    + apply IH. exact Hall.
    + symmetry. apply not_true_is_false. intros Hle.
      apply Qle_bool_iff in Hle. apply (Qlt_not_le _ _ H3). exact Hle.
Qed.

(** X20. On a channel object that holds cutouts, the per-spike loop of
    [get_only_neuronal_spikes] returns only when every cutout scores
    below the threshold, and then returns the spike train without spikes
    and with end time 0; as soon as a cutout reaches the threshold, after
    cutouts that did not, it raises [AttributeError] on reading the
    spike's time. *)
Theorem neuronal_spikes_of_channel_outcomes (m : Model) (thr : Q)
    (c : ChannelSpikeCutout.t) :
  Forall (fun k => predict_proba m [SpikeCutout.cutout k] <> [] /\
                   hd [] (predict_proba m [SpikeCutout.cutout k]) <> [])
         (ChannelSpikeCutout.cutouts c) ->
  (Forall (fun k => (first_probability m k < thr)%Q)
          (ChannelSpikeCutout.cutouts c) ->
   channel_spikes m thr c = Ok (mkSpikeTrain [] 0)) /\
  (Exists (fun k => (thr <= first_probability m k)%Q)
          (ChannelSpikeCutout.cutouts c) ->
   channel_spikes m thr c = Raise AttributeError).
Proof.
  unfold neuronal_spikes_of_channel. intros Hshape.
  generalize (@nil Q) as times, 0%Q as t_stop.
  induction (ChannelSpikeCutout.cutouts c) as [|k cs IH]; intros times t_stop.
  - split; [reflexivity | intros H; inversion H].
  - pose proof (Forall_inv Hshape) as (H1 & H2).
    apply Forall_inv_tail in Hshape. specialize (IH Hshape).
    cbn [spikes_loop].
    destruct (predict_proba m [SpikeCutout.cutout k]) as [|row others] eqn:Hp;
      [congruence | ].
    cbn [hd] in H2. destruct row as [|p ps]; [congruence | ].
    unfold Py.index. simpl.
    destruct (Qle_bool thr p) eqn:Hle.
    + split; [ | reflexivity].
      intros Hall. apply Forall_inv in Hall. cbv beta in Hall.
      rewrite Hp in Hall. cbn [hd] in Hall.
      apply Qle_bool_iff in Hle. exfalso.
      exact (Qlt_not_le _ _ Hall Hle).
    + split.
      * intros Hall. apply Forall_inv_tail in Hall.
        apply (proj1 (IH times t_stop)). exact Hall.
      * intros Hex. apply Exists_cons in Hex. destruct Hex as [Hk | Hex].
        -- cbv beta in Hk. rewrite Hp in Hk. cbn [hd] in Hk.
           apply Qle_bool_iff in Hk. congruence.
        -- apply (proj2 (IH times t_stop)). exact Hex.
Qed.

(** X21. [get_only_neuronal_components] on one channel returns exactly
    when the channel holds no cutout and scoring an empty component does
    not raise (or there is no component to score); it then returns the
    spike train without spikes and with end time 0. *)
Theorem neuronal_components_of_channel_outcomes (m : Model) (thr : Q)
    (c : ChannelSpikeCutout.t) :
  ((exists st, channel_components m thr c = Ok st) <->
   ChannelSpikeCutout.cutouts c = [] /\
   (ChannelSpikeCutout.num_components c <= 0 \/
    exists b, mean_clears m [] thr = Ok b)) /\
  (forall st, channel_components m thr c = Ok st ->
              st = mkSpikeTrain [] 0).
Proof.
  assert (Hloop : forall n times,
             (exists b, mean_clears m [] thr = Ok b) ->
             comp_loop m thr (repeat [] n) times = Ok times).
  { intros n times (b & Hb). induction n as [|n IH]; cbn [repeat
      components_loop load_loop rbind]; [reflexivity | ].
    rewrite Hb. cbn [rbind]. destruct b; cbn [times_loop rbind]; exact IH. }
  assert (Hok : forall st, channel_components m thr c = Ok st ->
                  ChannelSpikeCutout.cutouts c = [] /\
                  st = mkSpikeTrain [] 0 /\
                  (ChannelSpikeCutout.num_components c <= 0 \/
                   exists b, mean_clears m [] thr = Ok b)).
  { intros st H. unfold neuronal_components_of_channel in H.
    apply rbind_ok in H. destruct H as (rows & Hrows & H).
    apply rbind_ok in H. destruct H as (ct & Hct & H).
    pose proof Hct as Hct'.
    apply components_loop_ok in Hct. destruct Hct as (-> & Hall).
    injection H as <-.
    apply ChannelFacts.get_cutouts_by_component_ok in Hrows.
    destruct Hrows as (Hlen & Hperm).
    assert (Hnil : concat rows = []).
    { clear - Hall. induction Hall as [|r rs Hr _ IH]; [reflexivity | ].
      subst r. exact IH. }
    rewrite Hnil in Hperm. apply Permutation_nil in Hperm.
    split; [exact Hperm | ]. split; [reflexivity | ].
    destruct rows as [|r rs].
    - left. simpl in Hlen. lia.
    - right. apply Forall_inv in Hall. subst r.
      cbn [components_loop load_loop rbind] in Hct'.
      destruct (mean_clears m [] thr) as [b|e]; [eauto | discriminate]. }
  split; [split | ].
  - intros (st & H). destruct (Hok st H) as (H1 & _ & H3). auto.
  - intros (Hc & Hm).
    unfold neuronal_components_of_channel,
      ChannelSpikeCutout.get_cutouts_by_component,
      ChannelSpikeCutout.empty_rows.
    rewrite Hc. cbn [ChannelSpikeCutout.fill_rows rbind].
    destruct Hm as [Hn | Hb].
    + replace (Z.to_nat (ChannelSpikeCutout.num_components c)) with 0%nat
        by lia.
      simpl. eauto.
    + rewrite (Hloop _ _ Hb). simpl. eauto.
  - intros st H. destruct (Hok st H) as (_ & H2 & _). exact H2.
Qed.

Lemma get_model_state (s s' : detector) (r : result Model) :
  get_model s = (r, s') -> s' = s.
Proof.
  unfold get_model, bind, get, ret, raise.
  destruct (model s); intros H; injection H as _ <-; reflexivity.
Qed.

Lemma spikes_frame (data : Data Signal Timebase) (thr : Q)
    (signal_filter : option (FilterProtocol Signal))
    (spike_detector : option (SpikeDetectionProtocol Signal Timebase))
    (self s' : detector) (r : result (list SpikeTrain)) :
  spikes data thr signal_filter spike_detector self = (r, s') ->
  s' = set_skipped_channels (skipped_channels s')
         (set_num_channels (num_channels s') self) /\
  (forall trains, r = Ok trains -> num_channels s' = length trains).
Proof.
  intros H. unfold get_only_neuronal_spikes in H.
  unfold bind at 1 in H. unfold get at 1 in H. cbv beta iota in H.
  destruct (trained self); cbn [negb] in H.
  2:{ unfold raise in H. injection H as <- <-.
      split; [destruct self; reflexivity | discriminate]. }
  unfold bind at 1 in H. unfold get at 1 in H. cbv beta iota in H.
  unfold bind at 1 in H. unfold get at 1 in H. cbv beta iota in H.
  unfold bind at 1 in H. unfold get at 1 in H. cbv beta iota in H.
  unfold bind at 1 in H.
  pose proof (get_cutouts_frame data
                (or_else signal_filter (spont_signal_filter self))
                (or_else spike_detector (spont_spike_detector self))
                (extractor self) self) as Hf. cbv zeta in Hf.
  destruct (get_cutouts data
              (or_else signal_filter (spont_signal_filter self))
              (or_else spike_detector (spont_spike_detector self))
              (extractor self) self) as [[chans|e] s1] eqn:Hgc;
    cbn [snd] in Hf.
  2:{ injection H as <- <-. split; [exact Hf | discriminate]. }
  unfold bind at 1 in H.
  destruct (get_model s1) as [[m|e] s2] eqn:Hm;
    apply get_model_state in Hm; subst s2.
  2:{ injection H as <- <-. split; [exact Hf | discriminate]. }
  unfold lift in H. injection H as <- <-. split; [exact Hf | ].
  intros trains Hr. apply map_result_ok, Forall2_length in Hr.
  rewrite <- Hr. destruct data as [[sig times] samp].
  apply get_cutouts_ok in Hgc. cbv zeta in Hgc.
  destruct Hgc as (Hlen & Hn & _). congruence.
Qed.

Lemma components_frame (data : Data Signal Timebase) (thr : Q)
    (signal_filter : option (FilterProtocol Signal))
    (spike_detector : option (SpikeDetectionProtocol Signal Timebase))
    (self s' : detector) (r : result (list SpikeTrain)) :
  components data thr signal_filter spike_detector self = (r, s') ->
  s' = set_skipped_channels (skipped_channels s')
         (set_num_channels (num_channels s') self) /\
  (forall trains, r = Ok trains -> num_channels s' = length trains).
Proof.
  intros H. unfold get_only_neuronal_components in H.
  unfold bind at 1 in H. unfold get at 1 in H. cbv beta iota in H.
  destruct (trained self); cbn [negb] in H.
  2:{ unfold raise in H. injection H as <- <-.
      split; [destruct self; reflexivity | discriminate]. }
  unfold bind at 1 in H. unfold get at 1 in H. cbv beta iota in H.
  unfold bind at 1 in H. unfold get at 1 in H. cbv beta iota in H.
  unfold bind at 1 in H. unfold get at 1 in H. cbv beta iota in H.
  unfold bind at 1 in H.
  pose proof (get_cutouts_frame data
                (or_else signal_filter (spont_signal_filter self))
                (or_else spike_detector (spont_spike_detector self))
                (extractor self) self) as Hf. cbv zeta in Hf.
  destruct (get_cutouts data
              (or_else signal_filter (spont_signal_filter self))
              (or_else spike_detector (spont_spike_detector self))
              (extractor self) self) as [[chans|e] s1] eqn:Hgc;
    cbn [snd] in Hf.
  2:{ injection H as <- <-. split; [exact Hf | discriminate]. }
  unfold bind at 1 in H.
  destruct (get_model s1) as [[m|e] s2] eqn:Hm;
    apply get_model_state in Hm; subst s2.
  2:{ injection H as <- <-. split; [exact Hf | discriminate]. }
  unfold lift in H. injection H as <- <-. split; [exact Hf | ].
  intros trains Hr. apply map_result_ok, Forall2_length in Hr.
  rewrite <- Hr. destruct data as [[sig times] samp].
  apply get_cutouts_ok in Hgc. cbv zeta in Hgc.
  destruct Hgc as (Hlen & Hn & _). congruence.
Qed.

(** X22. Neither inference method changes the training state, whether it
    returns or raises: the trained flag, the model, the channel objects of
    the spontaneous recording, the [categorized] flag, the test data and
    [model_size] are as before.  Only [num_channels] and
    [skipped_channels] may be overwritten, and when the method returns,
    [num_channels] is the number of spike trains returned. *)
Theorem inference_keeps_training (data : Data Signal Timebase) (thr : Q)
    (signal_filter : option (FilterProtocol Signal))
    (spike_detector : option (SpikeDetectionProtocol Signal Timebase))
    (self : detector) :
  let after_spikes :=
    snd (spikes data thr signal_filter spike_detector self) in
  let after_components :=
    snd (components data thr signal_filter spike_detector self) in
  after_spikes
    = set_skipped_channels (skipped_channels after_spikes)
        (set_num_channels (num_channels after_spikes) self) /\
  after_components
    = set_skipped_channels (skipped_channels after_components)
        (set_num_channels (num_channels after_components) self) /\
  (forall trains, fst (spikes data thr signal_filter spike_detector self)
                  = Ok trains ->
     num_channels after_spikes = length trains) /\
  (forall trains, fst (components data thr signal_filter spike_detector self)
                  = Ok trains ->
     num_channels after_components = length trains).
Proof.
  cbv zeta.
  destruct (spikes data thr signal_filter spike_detector self)
    as [r1 s1] eqn:H1.
  destruct (components data thr signal_filter spike_detector self)
    as [r2 s2] eqn:H2.
  apply spikes_frame in H1. apply components_frame in H2.
  cbn [fst snd]. destruct H1 as (H1 & H1'). destruct H2 as (H2 & H2').
  auto.
Qed.

(** X23. Whatever either inference method returns is one spike train per
    channel of the filtered experiment signal, each of them without a
    spike and with end time 0. *)
Theorem inference_returns_empty_trains (sig : Signal) (times : Timebase)
    (samp : Q) (thr : Q) (signal_filter : option (FilterProtocol Signal))
    (spike_detector : option (SpikeDetectionProtocol Signal Timebase))
    (self self' : detector) (trains : list SpikeTrain) :
  spikes (sig, times, samp) thr signal_filter spike_detector self
    = (Ok trains, self') \/
  components (sig, times, samp) thr signal_filter spike_detector self
    = (Ok trains, self') ->
  length trains
    = shape1 (or_else signal_filter (spont_signal_filter self) sig samp) /\
  Forall (fun st => st = mkSpikeTrain [] 0) trains.
Proof. exact (inference_ok_keeps_nothing sig times samp thr signal_filter
                spike_detector self self' trains). Qed.

(** *** The split *)

Local Abbreviation split := (split_pool shuffle).

(** X24. For a pool of [n] cutouts and as many labels, and a shuffle that
    keeps the length of both lists, the split hands the first
    [4 * n / 5] shuffled cutouts and labels to training and keeps the
    rest: nothing is lost or used twice, the held-out part is never empty
    unless the pool is, and the training part is empty exactly for pools
    of at most one cutout. *)
Theorem split_pool_sizes
    (shuffle_length : forall X y,
        length (fst (shuffle X y)) = length X /\
        length (snd (shuffle X y)) = length y)
    (X : list (list Q)) (y : list Z) :
  length X = length y ->
  let n := length X in
  let p := snd (split n X y) in
  fst (split n X y) = fst (shuffle X y) /\
  train_cutouts p ++ held_cutouts p = fst (shuffle X y) /\
  train_labels p ++ held_labels p = snd (shuffle X y) /\
  length (train_cutouts p) = (4 * n / 5)%nat /\
  length (train_labels p) = (4 * n / 5)%nat /\
  length (held_cutouts p) = (n - 4 * n / 5)%nat /\
  length (held_labels p) = (n - 4 * n / 5)%nat /\
  ((1 <= n)%nat -> (1 <= length (held_cutouts p))%nat) /\
  (length (train_cutouts p) = 0%nat <-> (n <= 1)%nat).
Proof.
  intros Hxy. cbv zeta. unfold split_pool, split_point.
  destruct (shuffle_length X y) as (HX & Hy).
  destruct (shuffle X y) as [X' y']. cbn [fst snd] in *.
  cbn [train_cutouts train_labels held_cutouts held_labels].
  rewrite !firstn_skipn, !length_firstn, !length_skipn, HX, Hy, <- Hxy.
  assert (Hle : (4 * length X / 5 <= length X)%nat)
    by (apply Nat.Div0.div_le_upper_bound; lia).
  assert (Hlt : (1 <= length X -> 4 * length X / 5 < length X)%nat)
    by (intros H1; apply Nat.Div0.div_lt_upper_bound; lia).
  rewrite Nat.min_l by exact Hle.
  repeat split; try reflexivity; try lia.
  intros H0. destruct (Nat.le_gt_cases (length X) 1) as [H1 | H1];
    [exact H1 | ].
  assert (1 <= 4 * length X / 5)%nat
    by (apply Nat.div_le_lower_bound; lia).
  lia.
Qed.

(** *** Construction *)

Local Abbreviation build_detector :=
  (@__init__ Signal Timebase Model shape1 extract_waveforms).

Lemma no_cutouts_nothing_labeled (chans : list ChannelSpikeCutout.t) :
  Forall (fun ch => ChannelSpikeCutout.cutouts ch = []) chans ->
  labeled_total chans = 0%nat.
Proof.
  induction 1 as [|ch chans Hch _ IH]; cbn [labeled_total];
    [reflexivity | ].
  rewrite IH. unfold labeled_count. rewrite Hch.
  destruct (ChannelSpikeCutout.categorized ch); reflexivity.
Qed.

(** X25. A detector whose construction returns is untrained and
    uncategorized, has no model, no test data and [model_size] 0, keeps
    the rank it was given, and has one channel object per channel of the
    filtered recording, none of them holding a cutout: it has nothing to
    train on. *)
Theorem constructed_detector_is_blank (sig : Signal) (times : Timebase)
    (samp : Q) (signal_filter : FilterProtocol Signal)
    (spike_detector : SpikeDetectionProtocol Signal Timebase)
    (ext : SpikeFeatureExtractionProtocol) (rank : Z)
    (self self' : detector) :
  build_detector (sig, times, samp) signal_filter spike_detector ext rank
    = (Ok self, self') ->
  self' = self /\
  trained self = false /\ categorized self = false /\ model self = None /\
  model_size self = 0%nat /\ test_cutouts self = [] /\ test_labels self = [] /\
  extractor_decomposition_parameter self = rank /\
  num_channels self = shape1 (signal_filter sig samp) /\
  length (spontaneous_cutouts self) = num_channels self /\
  Forall (fun ch => ChannelSpikeCutout.cutouts ch = [])
         (spontaneous_cutouts self) /\
  labeled_total (spontaneous_cutouts self) = 0%nat.
Proof.
  unfold __init__. intros H.
  apply bind_ok in H. destruct H as (l & s1 & Hgc & H).
  pose proof (get_cutouts_frame (sig, times, samp) signal_filter
                spike_detector ext
                (mk (sig, times, samp) signal_filter spike_detector ext rank
                    false false None [] [] [] 0 0 [])) as Hf.
  cbv zeta in Hf. rewrite Hgc in Hf. cbn [snd] in Hf.
  apply get_cutouts_ok in Hgc. cbv zeta in Hgc.
  destruct Hgc as (Hlen & Hn & Hch & _).
  apply bind_ok in H. destruct H as (u & s2 & H1 & H).
  unfold assign in H1. injection H1 as _ <-.
  unfold get in H. injection H as <- <-.
  assert (Hall : Forall (fun ch => ChannelSpikeCutout.cutouts ch = []) l).
  { apply Forall_forall. intros ch Hin.
    apply In_nth_error in Hin. destruct Hin as (i & Hi).
    apply (Hch i ch Hi). }
  cbn [spontaneous_cutouts set_spontaneous_cutouts].
  rewrite Hf.
  cbn [trained categorized model model_size test_cutouts test_labels
       extractor_decomposition_parameter num_channels
       set_spontaneous_cutouts set_skipped_channels set_num_channels].
  repeat split; try reflexivity; try assumption.
  - congruence.
  - apply no_cutouts_nothing_labeled. exact Hall.
Qed.


End Facts.

End DetectorFacts.

(** ** The detector on the small recording *)

Module RecordingFacts.
Import AbnormalityDetector Recording.

Local Abbreviation get_cutouts :=
  (@_get_cutouts Signal unit nat shape1 extract_waveforms).
Local Abbreviation neuronal_spikes :=
  (@get_only_neuronal_spikes Signal unit nat shape1 extract_waveforms
     predict_proba).
Local Abbreviation neuronal_components :=
  (@get_only_neuronal_components Signal unit nat shape1 extract_waveforms
     mean_clears).
Local Abbreviation train :=
  (@train_model Signal unit nat shuffle fit create_default_model).
Local Abbreviation train_r :=
  (@train_model_r Signal unit nat shuffle_r sequential_r compile_r fit_r).

(** C3. [SpikeCutout] has three attributes and a three-parameter
    constructor: there is no [time].  A call that passes the spike time as
    fourth argument raises [TypeError], reading [time] raises
    [AttributeError], and building a detector on a recording whose only
    channel has three spikes, at rank 3, raises at the first spike. *)
Theorem spike_cutout_has_no_time :
  SpikeCutout.__init__ [0.1%Q] 30000%Q 0 [0.1%Q] = Raise TypeError /\
  SpikeCutout.__init__ [0.1%Q] 30000%Q 0 []
    = Ok (SpikeCutout.mk [0.1%Q] 30000%Q 0) /\
  SpikeCutout.time (SpikeCutout.mk [0.1%Q] 30000%Q 0) = Raise AttributeError /\
  fst (build spiking 3) = Raise TypeError.
Proof. repeat split; reflexivity. Qed.

(** C6. On the recording whose first channel has one spike and whose second
    has three, at rank 3, [_get_cutouts] raises [TypeError] and returns no
    channel list; only the first channel has been noted as skipped. *)
Theorem get_cutouts_raises_on_mixed_recording :
  fst (get_cutouts (data mixed) signal_filter spike_detector
         feature_extractor quiet_detector) = Raise TypeError /\
  skipped_channels
    (snd (get_cutouts (data mixed) signal_filter spike_detector
            feature_extractor quiet_detector)) = [0%nat].
Proof. split; reflexivity. Qed.

(** C7. On a trained detector, a recording with three spikes on its channel
    makes [get_only_neuronal_spikes] raise [TypeError]; and the loop over a
    channel holding one cutout that scores exactly the threshold 0.95
    raises [AttributeError] instead of keeping the spike. *)
Theorem neuronal_spikes_raise_on_spiking_recording :
  fst (neuronal_spikes (data spiking) 0.95%Q None None trained_detector)
    = Raise TypeError /\
  neuronal_spikes_of_channel predict_proba 7%nat 0.95%Q one_spike_channel
    = Raise AttributeError.
Proof. split; reflexivity. Qed.

(** C8. On a trained detector, a recording with three spikes on its channel
    makes [get_only_neuronal_components] raise [TypeError]; and on a
    channel holding one cutout the loop over the components raises
    [TypeError] before any mean is taken or scored. *)
Theorem neuronal_components_raise_on_spiking_recording :
  fst (neuronal_components (data spiking) 0.95%Q None None trained_detector)
    = Raise TypeError /\
  neuronal_components_of_channel mean_clears 7%nat 0.95%Q one_spike_channel
    = Raise TypeError.
Proof. split; reflexivity. Qed.

(** C9. On a trained detector, [evaluate_model] called with a test array of
    one row of two samples and its label raises [ValueError] and evaluates
    nothing. *)
Theorem evaluate_model_raises_on_supplied_arrays :
  evaluate_model evaluate (Some [[0.5%Q; 0.25%Q]]) (Some [1]) trained_detector
    = (Raise ValueError, trained_detector).
Proof. reflexivity. Qed.

(** C10, as stated, fails: with two rows for a detector of one channel the
    call raises [IndexError] after the first row, and the detector's
    [categorized] flag is still false. *)
Lemma categorize_spontaneous_extra_row :
  fst (categorize_spontaneous [[1; 1; 1]; [1; 1; 1]] quiet_detector)
    = Raise IndexError /\
  categorized (snd (categorize_spontaneous [[1; 1; 1]; [1; 1; 1]]
                      quiet_detector)) = false.
Proof. split; reflexivity. Qed.

Lemma categorize_spontaneous_sets_flag_witness :
  exists self',
    categorize_spontaneous [[1; 1]] quiet_detector = (Ok tt, self') /\
    categorized self' = true /\
    nth_error (spontaneous_cutouts self') 0
      = Some (ChannelSpikeCutout.mk [] 3 0 false [0; 0; 0]).
Proof.
  destruct (DetectorFacts.categorize_spontaneous_sets_flag
              [[1; 1]] quiet_detector)
    as (self' & Hrun & Hflag & _ & Hrow).
  - simpl. lia.
  - exists self'. split; [exact Hrun | ]. split; [exact Hflag | ].
    apply (Hrow 0%nat [1; 1] (ChannelSpikeCutout.mk [] 3 0 false [0; 0; 0]));
      reflexivity.
Defined.

Lemma untrained_inference_raises_witness :
  neuronal_spikes (data spiking) 0.9%Q None None quiet_detector
    = (Raise untrained, quiet_detector) /\
  neuronal_components (data spiking) 0.9%Q None None quiet_detector
    = (Raise untrained, quiet_detector).
Proof.
  apply (DetectorFacts.untrained_inference_raises shape1 extract_waveforms
           predict_proba mean_clears (data spiking) 0.9%Q None None
           quiet_detector).
  reflexivity.
Defined.

(** C4. On a detector whose one channel is categorized and holds one
    cutout, so that one cutout is labelled, [train_model] does not return,
    with a supplied model or without: pooling the cutout iterates the
    [SpikeCutout] object and raises [TypeError].  [model_size] is still 0,
    no model has been assigned and the detector stays untrained. *)
Theorem train_model_raises_on_labeled_cutout :
  Sample.labeled_total (spontaneous_cutouts labeled_detector) = 1%nat /\
  fst (train (Some 3%nat) 5 labeled_detector) = Raise TypeError /\
  fst (train None 5 labeled_detector) = Raise TypeError /\
  model_size (snd (train (Some 3%nat) 5 labeled_detector)) = 0%nat /\
  model (snd (train (Some 3%nat) 5 labeled_detector)) = None /\
  trained (snd (train (Some 3%nat) 5 labeled_detector)) = false.
Proof. repeat split; reflexivity. Qed.

(** *** The further properties on the small recording *)

Lemma shuffle_keeps_length (X : list (list Q)) (y : list Z) :
  length (fst (shuffle X y)) = length X /\
  length (snd (shuffle X y)) = length y.
Proof. split; apply length_rev. Qed.

Lemma get_cutouts_returns_placeholders_witness :
  length [ChannelSpikeCutout.mk [] 3 0 false [0; 0; 0]] = 1%nat /\
  skipped_channels
    (snd (get_cutouts (data quiet) signal_filter spike_detector
            feature_extractor quiet_detector)) = [0%nat].
Proof.
  destruct (DetectorFacts.get_cutouts_returns_placeholders
              shape1 extract_waveforms quiet tt 30000%Q signal_filter
              spike_detector feature_extractor quiet_detector
              (snd (get_cutouts (data quiet) signal_filter spike_detector
                      feature_extractor quiet_detector))
              [ChannelSpikeCutout.mk [] 3 0 false [0; 0; 0]] eq_refl)
    as (Hlen & _ & _ & Hsk & _).
  split; [exact Hlen | exact Hsk].
Defined.

Lemma get_cutouts_quiet_recording_witness :
  fst (get_cutouts (data quiet2) signal_filter spike_detector
         feature_extractor quiet_detector)
  = Ok [ChannelSpikeCutout.mk [] 3 0 false [0; 0; 0];
        ChannelSpikeCutout.mk [] 3 1 false [0; 0; 0]].
Proof.
  unfold data.
  rewrite (DetectorFacts.get_cutouts_quiet_recording
             shape1 extract_waveforms quiet2 tt 30000%Q signal_filter
             spike_detector feature_extractor quiet_detector).
  - reflexivity.
  - simpl. lia.
  - intros i Hi. simpl in Hi.
    destruct i as [|[|i]]; [reflexivity | reflexivity | lia].
Defined.

Lemma categorize_spontaneous_extra_rows_witness :
  exists self',
    categorize_spontaneous [[1; 1; 1]; [2; 2; 2]] quiet_detector
      = (Raise IndexError, self') /\
    nth_error (spontaneous_cutouts self') 0
      = Some (ChannelSpikeCutout.mk [] 3 0 true [1; 1; 1]).
Proof.
  destruct (DetectorFacts.categorize_spontaneous_extra_rows
              [[1; 1; 1]; [2; 2; 2]] quiet_detector)
    as (self' & Hrun & _ & _ & Hrow).
  - simpl. lia.
  - exists self'. split; [exact Hrun | ].
    apply (Hrow 0%nat [1; 1; 1]
             (ChannelSpikeCutout.mk [] 3 0 false [0; 0; 0])); reflexivity.
Defined.

Lemma train_model_returns_iff_nothing_labeled_witness :
  fst (train (Some 3%nat) 5 two_channel_detector)
    = Ok (mk_partition [] [] [] []) /\
  model (snd (train (Some 3%nat) 5 two_channel_detector)) = Some 3%nat.
Proof.
  destruct (DetectorFacts.train_model_returns_iff_nothing_labeled
              shuffle fit create_default_model shuffle_keeps_length
              3%nat 5 two_channel_detector) as (_ & H).
  rewrite H by reflexivity. split; reflexivity.
Defined.

Lemma train_model_default_never_returns_witness :
  fst (train None 5 two_channel_detector) <> Ok (mk_partition [] [] [] []).
Proof.
  apply (DetectorFacts.train_model_default_never_returns
           shuffle fit create_default_model shuffle_keeps_length).
Defined.

Lemma train_model_failure_keeps_trained_witness :
  (fst (train_r (Some 3%nat) 5 trained_detector) = Raise ValueError /\
   trained (snd (train_r (Some 3%nat) 5 trained_detector)) = true /\
   model trained_detector = Some 7%nat /\
   model (snd (train_r (Some 3%nat) 5 trained_detector)) = Some 3%nat) /\
  (fst (train_r (Some 3%nat) 5 quiet_detector) = Raise ValueError /\
   trained (snd (train_r (Some 3%nat) 5 quiet_detector)) = false /\
   model (snd (train_r (Some 3%nat) 5 quiet_detector)) = Some 3%nat) /\
  (fst (train_r (Some 3%nat) 5 labeled_detector) = Raise TypeError /\
   trained (snd (train_r (Some 3%nat) 5 labeled_detector)) = false /\
   model (snd (train_r (Some 3%nat) 5 labeled_detector)) = None).
Proof.
  destruct (DetectorFacts.train_model_failure_keeps_trained
              shuffle_r sequential_r compile_r fit_r (Some 3%nat) 5
              trained_detector
              (snd (train_r (Some 3%nat) 5 trained_detector))
              ValueError eq_refl)
    as (Ht & _).
  destruct (DetectorFacts.train_model_failure_keeps_trained
              shuffle_r sequential_r compile_r fit_r (Some 3%nat) 5
              quiet_detector
              (snd (train_r (Some 3%nat) 5 quiet_detector))
              ValueError eq_refl)
    as (Hq & _).
  destruct (DetectorFacts.train_model_failure_keeps_trained
              shuffle_r sequential_r compile_r fit_r (Some 3%nat) 5
              labeled_detector
              (snd (train_r (Some 3%nat) 5 labeled_detector))
              TypeError eq_refl)
    as (Hl & _).
  split; [ | split].
  - split; [reflexivity | ]. split; [exact Ht | ]. split; reflexivity.
  - split; [reflexivity | ]. split; [exact Hq | reflexivity].
  - split; [reflexivity | ]. split; [exact Hl | reflexivity].
Defined.

Lemma evaluate_model_reads_only_witness :
  fst (evaluate_model evaluate (Some [[0.5%Q; 0.25%Q]]) None quiet_detector)
    = Ok (mkEvaluation 1 0) /\
  fst (evaluate_model evaluate None None held_detector)
    = Ok (mkEvaluation 2 2).
Proof.
  split.
  - apply (DetectorFacts.evaluate_model_reads_only evaluate
             (Some [[0.5%Q; 0.25%Q]]) None quiet_detector).
    reflexivity.
  - destruct (DetectorFacts.evaluate_model_reads_only evaluate
                None None held_detector) as (_ & _ & H).
    rewrite (H 7%nat eq_refl eq_refl). reflexivity.
Defined.

Lemma evaluate_model_resolves_by_truth_value_witness :
  evaluate_model evaluate (Some [[0%Q]]) (Some [2]) held_detector
    = (Ok (mkEvaluation 2 1), held_detector) /\
  evaluate_model evaluate None (Some [0]) held_detector
    = (Ok (mkEvaluation 2 2), held_detector).
Proof.
  split.
  - destruct (DetectorFacts.evaluate_model_resolves_by_truth_value evaluate
                [[0%Q]] [2] 7%nat held_detector eq_refl eq_refl
                eq_refl eq_refl) as (H & _).
    rewrite H. reflexivity.
  - destruct (DetectorFacts.evaluate_model_resolves_by_truth_value evaluate
                [[0%Q]] [0] 7%nat held_detector eq_refl eq_refl
                eq_refl eq_refl) as (_ & H).
    rewrite H. reflexivity.
Defined.

Lemma neuronal_spikes_of_channel_outcomes_witness :
  neuronal_spikes_of_channel predict_proba 7%nat 0.96%Q one_spike_channel
    = Ok (mkSpikeTrain [] 0) /\
  neuronal_spikes_of_channel predict_proba 7%nat 0.9%Q one_spike_channel
    = Raise AttributeError.
Proof.
  split.
  - apply (DetectorFacts.neuronal_spikes_of_channel_outcomes
             predict_proba 7%nat 0.96%Q one_spike_channel).
    + repeat constructor; discriminate.
    + repeat constructor.
  - apply (DetectorFacts.neuronal_spikes_of_channel_outcomes
             predict_proba 7%nat 0.9%Q one_spike_channel).
    + repeat constructor; discriminate.
    + apply Exists_cons_hd. simpl. unfold Qle. simpl. lia.
Defined.

Lemma neuronal_components_of_channel_outcomes_witness :
  exists st,
    neuronal_components_of_channel mean_clears 7%nat 0.9%Q Sample.fresh3
      = Ok st.
Proof.
  apply (DetectorFacts.neuronal_components_of_channel_outcomes
           mean_clears 7%nat 0.9%Q Sample.fresh3).
  split; [reflexivity | ]. right. exists true. reflexivity.
Defined.

Lemma inference_keeps_training_witness :
  model (snd (neuronal_spikes (data spiking) 0.95%Q None None
                trained_detector)) = Some 7%nat /\
  num_channels (snd (neuronal_components (data quiet2) 0.95%Q None None
                       trained_detector)) = 2%nat.
Proof.
  destruct (DetectorFacts.inference_keeps_training
              shape1 extract_waveforms predict_proba mean_clears
              (data spiking) 0.95%Q None None trained_detector)
    as (H & _).
  destruct (DetectorFacts.inference_keeps_training
              shape1 extract_waveforms predict_proba mean_clears
              (data quiet2) 0.95%Q None None trained_detector)
    as (_ & _ & _ & H').
  split.
  - rewrite H. reflexivity.
  - apply (H' [mkSpikeTrain [] 0; mkSpikeTrain [] 0]). reflexivity.
Defined.

Lemma inference_returns_empty_trains_witness :
  length [mkSpikeTrain [] 0; mkSpikeTrain [] 0] = 2%nat /\
  Forall (fun st => st = mkSpikeTrain [] 0)
         [mkSpikeTrain [] 0; mkSpikeTrain [] 0].
Proof.
  apply (DetectorFacts.inference_returns_empty_trains
           shape1 extract_waveforms predict_proba mean_clears
           quiet2 tt 30000%Q 0.9%Q None None trained_detector
           (snd (neuronal_spikes (data quiet2) 0.9%Q None None
                   trained_detector))
           [mkSpikeTrain [] 0; mkSpikeTrain [] 0]).
  left. reflexivity.
Defined.

Lemma split_pool_sizes_witness :
  length (train_cutouts (snd (split_pool shuffle 5 pool5 labels5))) = 4%nat /\
  held_labels (snd (split_pool shuffle 5 pool5 labels5)) = [1].
Proof.
  destruct (DetectorFacts.split_pool_sizes shuffle shuffle_keeps_length
              pool5 labels5 eq_refl)
    as (_ & _ & _ & H & _).
  split; [exact H | reflexivity].
Defined.

Lemma constructed_detector_is_blank_witness :
  trained quiet_detector = false /\
  model_size quiet_detector = 0%nat /\
  length (spontaneous_cutouts quiet_detector) = 1%nat.
Proof.
  destruct (DetectorFacts.constructed_detector_is_blank
              shape1 extract_waveforms quiet tt 30000%Q signal_filter
              spike_detector feature_extractor 3
              quiet_detector quiet_detector eq_refl)
    as (_ & Ht & _ & _ & Hm & _ & _ & _ & _ & Hl & _).
  split; [exact Ht | ]. split; [exact Hm | exact Hl].
Defined.


End RecordingFacts.

(** ** Spike stamps *)

Module SpikestampsFacts.
Import Spikestamps.

Lemma fresh_channels_spec (n : nat) :
  forall h, fresh_channels n h = (h ++ repeat [] n, seq (length h) n).
Proof.
  induction n as [|n IH]; intros h; simpl.
  - rewrite app_nil_r. reflexivity.
  - rewrite IH, length_app, <- app_assoc. simpl.
    rewrite Nat.add_1_r. reflexivity.
Qed.

Lemma contents_padded (h : heap) (n : nat) (r : ref) :
  contents (h ++ repeat [] n) r = contents h r.
Proof.
  unfold contents. destruct (Nat.lt_ge_cases r (length h)) as [Hlt | Hge].
  - apply app_nth1. exact Hlt.
  - rewrite app_nth2 by exact Hge.
    rewrite (nth_overflow h) by exact Hge.
    destruct (Nat.lt_ge_cases (r - length h) n) as [H1 | H1].
    + apply nth_repeat_lt. exact H1.
    + apply nth_overflow. rewrite repeat_length. exact H1.
Qed.

Lemma contents_extend_same (h : heap) (r a : ref) :
  (r < length h)%nat ->
  contents (list_extend r a h) r = contents h r ++ contents h a.
Proof.
  intros Hr. unfold list_extend, contents at 1.
  apply nth_error_nth. apply set_nth_same. exact Hr.
Qed.

Lemma contents_extend_other (h : heap) (r a r' : ref) :
  r <> r' -> contents (list_extend r a h) r' = contents h r'.
Proof.
  intros Hne. unfold list_extend, contents.
  destruct (nth_error h r') as [x|] eqn:E.
  - rewrite (nth_error_nth _ _ _ E). apply nth_error_nth.
    rewrite set_nth_other by exact Hne. exact E.
  - apply nth_error_None in E.
    rewrite (@nth_overflow _ h r' [] E).
    apply nth_overflow. rewrite set_nth_length. exact E.
Qed.

(** The loop of [extend] over arrays each of which is either no channel of
    [self] or the very channel it is appended to. *)
Lemma extend_loop_spec (d : list ref) :
  NoDup d ->
  forall arrays idx h,
    (idx + length arrays <= length d)%nat ->
    Forall (fun r => (r < length h)%nat) d ->
    (forall j a, nth_error arrays j = Some a ->
       ~ In a d \/ nth_error d (idx + j) = Some a) ->
    exists h',
      extend_loop d idx arrays h = Ok h' /\
      length h' = length h /\
      (forall r, ~ In r d -> contents h' r = contents h r) /\
      (forall i r, nth_error d i = Some r ->
         contents h' r =
         contents h r ++
         match (if (idx <=? i)%nat then nth_error arrays (i - idx) else None)
         with
         | Some a => contents h a
         | None => []
         end).
Proof.
  intros Hnd arrays.
  induction arrays as [|a rest IH]; intros idx h Hlen Hall Hsrc.
  - exists h. cbn [extend_loop]. repeat split; auto.
    intros i r _. destruct (idx <=? i)%nat;
      [rewrite nth_error_nil | ]; rewrite app_nil_r; reflexivity.
  - cbn [extend_loop length] in *. rewrite index_of_nat.
    destruct (nth_error d idx) as [r0|] eqn:Hr0.
    2:{ apply nth_error_None in Hr0. lia. }
    cbn [rbind].
    assert (Hr0lt : (r0 < length h)%nat).
    { rewrite Forall_forall in Hall. apply Hall.
      eapply nth_error_In. exact Hr0. }
    destruct (IH (S idx) (list_extend r0 a h)) as (h' & Hrun & Hl & Hout & Hin).
    + lia.
    + unfold list_extend. rewrite set_nth_length. exact Hall.
    + intros j a' Hj. replace (S idx + j)%nat with (idx + S j)%nat by lia.
      apply Hsrc. exact Hj.
    + exists h'. split; [exact Hrun | ]. split.
      { rewrite Hl. unfold list_extend. apply set_nth_length. }
      split.
      * intros r Hr. rewrite Hout by exact Hr.
        apply contents_extend_other. intros ->. apply Hr.
        eapply nth_error_In. exact Hr0.
      * intros i r Hi. rewrite (Hin i r Hi).
        destruct (Nat.eq_dec i idx) as [-> | Hne].
        -- rewrite Hr0 in Hi. injection Hi as <-.
           replace (S idx <=? idx)%nat with false
             by (symmetry; apply Nat.leb_gt; lia).
           rewrite Nat.leb_refl, Nat.sub_diag. cbn [nth_error].
           rewrite app_nil_r. apply contents_extend_same. exact Hr0lt.
        -- assert (Hrr : r0 <> r).
           { intros ->. apply Hne.
             exact (proj1 (NoDup_nth_error d) Hnd i idx
                      (proj1 (nth_error_Some d i) ltac:(congruence))
                      (eq_trans Hi (eq_sym Hr0))). }
           rewrite contents_extend_other by exact Hrr.
           f_equal.
           destruct (Nat.leb_spec (S idx) i) as [Hle | Hgt].
           ++ replace (idx <=? i)%nat with true
                by (symmetry; apply Nat.leb_le; lia).
              replace (i - idx)%nat with (S (i - S idx)) by lia.
              cbn [nth_error].
              destruct (nth_error rest (i - S idx)) as [a'|] eqn:Ha';
                [ | reflexivity].
              apply contents_extend_other.
              destruct (Hsrc (S (i - S idx)) a' Ha') as [Hno | Hown].
              ** intros ->. apply Hno. eapply nth_error_In. exact Hr0.
              ** replace (idx + S (i - S idx))%nat with i in Hown by lia.
                 rewrite Hi in Hown. injection Hown as <-. exact Hrr.
           ++ replace (idx <=? i)%nat with false
                by (symmetry; apply Nat.leb_gt; lia).
              reflexivity.
Qed.

(** [extend] with another [Spikestamps] whose channels are foreign to
    [self] or are [self]'s own channels at the same position. *)
Lemma extend_stamps_spec (h : heap) (s o : t) :
  allocated h s -> allocated h o -> NoDup (data s) ->
  (forall j a, nth_error (data o) j = Some a ->
     ~ In a (data s) \/ nth_error (data s) j = Some a) ->
  let k := (length (data o) - length (data s))%nat in
  exists h',
    extend (Stamps o) s h = Ok (h', mk (data s ++ seq (length h) k)) /\
    length h' = (length h + k)%nat /\
    NoDup (data s ++ seq (length h) k) /\
    (forall r, ~ In r (data s ++ seq (length h) k) ->
       contents h' r = contents h r) /\
    (forall i r, nth_error (data s ++ seq (length h) k) i = Some r ->
       contents h' r = contents h r ++ channel h o i).
Proof.
  intros Hs Ho Hnd Hsrc k.
  assert (Hpad : (if 0 <? Z.of_nat (length (data o))
                          - Z.of_nat (length (data s))
                  then fresh_channels
                         (Z.to_nat (Z.of_nat (length (data o))
                                    - Z.of_nat (length (data s)))) h
                  else (h, []))
                 = (h ++ repeat [] k, seq (length h) k)).
  { destruct (Z.ltb_spec 0 (Z.of_nat (length (data o))
                            - Z.of_nat (length (data s)))) as [Hpos | Hnon].
    - rewrite fresh_channels_spec. subst k. repeat f_equal; lia.
    - replace k with 0%nat by (subst k; lia). simpl.
      rewrite app_nil_r. reflexivity. }
  unfold allocated in Hs, Ho. rewrite Forall_forall in Hs, Ho.
  assert (Hnd1 : NoDup (data s ++ seq (length h) k)).
  { apply NoDup_app; [exact Hnd | apply seq_NoDup | ].
    intros r Hr Hr'. apply in_seq in Hr'. specialize (Hs r Hr). lia. }
  destruct (extend_loop_spec (data s ++ seq (length h) k) Hnd1
              (data o) 0 (h ++ repeat [] k))
    as (h' & Hrun & Hl & Hout & Hin).
  - rewrite length_app, length_seq. subst k. lia.
  - apply Forall_forall. intros r Hr. rewrite length_app, repeat_length.
    apply in_app_or in Hr. destruct Hr as [Hr | Hr].
    + specialize (Hs r Hr). lia.
    + apply in_seq in Hr. lia.
  - intros j a Hj. destruct (Hsrc j a Hj) as [Hno | Hown].
    + left. intros Hin. apply in_app_or in Hin. destruct Hin as [Hin | Hin].
      * exact (Hno Hin).
      * apply in_seq in Hin.
        specialize (Ho a (nth_error_In _ _ Hj)). lia.
    + right. simpl. rewrite nth_error_app1; [exact Hown | ].
      apply nth_error_Some. congruence.
  - exists h'. unfold extend. rewrite Hpad, Hrun. cbn [rbind].
    split; [reflexivity | ]. split.
    { rewrite Hl, length_app, repeat_length. reflexivity. }
    split; [exact Hnd1 | ]. split.
    + intros r Hr. rewrite Hout by exact Hr. apply contents_padded.
    + intros i r Hi. rewrite (Hin i r Hi). simpl. rewrite Nat.sub_0_r.
      rewrite contents_padded. unfold channel.
      destruct (nth_error (data o) i); [rewrite contents_padded | ];
        reflexivity.
Qed.

(** X1. When the channels of [self] are pairwise distinct list objects
    and none of them is a channel of the other [Spikestamps], [extend]
    merges channel by channel: the result has as many channels as the
    longer of the two, [self]'s own list objects stay its first channels,
    every channel holds [self]'s spikes followed by the other's (a missing
    channel counting as empty), and the other is left as it was.  The
    channels of the result are again pairwise distinct list objects, none
    of them a channel of the other. *)
Theorem extend_merges_channels (h : heap) (s o : t) :
  allocated h s -> allocated h o -> NoDup (data s) -> separate s o ->
  exists h' s',
    extend (Stamps o) s h = Ok (h', s') /\
    length (data s') = Nat.max (length (data s)) (length (data o)) /\
    firstn (length (data s)) (data s') = data s /\
    (forall i, channel h' s' i = channel h s i ++ channel h o i) /\
    (forall i, channel h' o i = channel h o i) /\
    allocated h' s' /\ NoDup (data s') /\ separate s' o.
Proof.
  intros Hs Ho Hnd Hsep.
  destruct (extend_stamps_spec h s o Hs Ho Hnd)
    as (h' & Hrun & Hl & Hnd1 & Hout & Hin).
  { intros j a Hj. left. intros Ha.
    exact (Hsep a Ha (nth_error_In _ _ Hj)). }
  set (k := (length (data o) - length (data s))%nat) in *.
  unfold allocated in Hs, Ho. rewrite Forall_forall in Hs, Ho.
  assert (Hsep1 : forall r, In r (data s ++ seq (length h) k) ->
                            ~ In r (data o)).
  { intros r Hr Hro. apply in_app_or in Hr. destruct Hr as [Hr | Hr].
    - exact (Hsep r Hr Hro).
    - apply in_seq in Hr. specialize (Ho r Hro). lia. }
  exists h', (mk (data s ++ seq (length h) k)).
  split; [exact Hrun | ]. cbn [data].
  split; [rewrite length_app, length_seq; subst k; lia | ].
  split; [rewrite firstn_app, Nat.sub_diag, firstn_all; simpl;
          apply app_nil_r | ].
  split; [ | split; [ | split; [ | split; [exact Hnd1 | exact Hsep1]]]].
  - intros i. unfold channel at 1. cbn [data].
    destruct (nth_error (data s ++ seq (length h) k) i) as [r|] eqn:Hi.
    + rewrite (Hin i r Hi). f_equal. unfold channel.
      destruct (Nat.lt_ge_cases i (length (data s))) as [Hlt | Hge].
      * rewrite nth_error_app1 in Hi by exact Hlt. rewrite Hi. reflexivity.
      * rewrite nth_error_app2 in Hi by exact Hge.
        apply nth_error_In, in_seq in Hi.
        rewrite (proj2 (nth_error_None (data s) i) Hge).
        apply nth_overflow. lia.
    + apply nth_error_None in Hi. rewrite length_app, length_seq in Hi.
      unfold channel.
      rewrite (proj2 (nth_error_None (data s) i)) by lia.
      rewrite (proj2 (nth_error_None (data o) i)) by (subst k; lia).
      reflexivity.
  - intros i. unfold channel.
    destruct (nth_error (data o) i) as [a|] eqn:Ha; [ | reflexivity].
    apply Hout. intros Hr. exact (Hsep1 a Hr (nth_error_In _ _ Ha)).
  - apply Forall_forall. intros r Hr. rewrite Hl.
    apply in_app_or in Hr. destruct Hr as [Hr | Hr].
    + specialize (Hs r Hr). lia.
    + apply in_seq in Hr. lia.
Qed.

Lemma extend_merges_channels_witness :
  exists h' s',
    extend (Stamps Sample.stamps4) Sample.stamps2 Sample.heap6
      = Ok (h', s') /\
    length (data s') = 4%nat /\
    channel h' s' 0 = [0.1%Q; 1%Q] /\
    channel h' s' 1 = [0.2%Q; 0.3%Q; 2%Q] /\
    channel h' s' 3 = [4%Q].
Proof.
  destruct (extend_merges_channels Sample.heap6 Sample.stamps2 Sample.stamps4)
    as (h' & s' & Hrun & Hlen & _ & Hch & _).
  - repeat constructor.
  - repeat constructor.
  - repeat constructor; simpl; lia.
  - intros r Hr Ho. simpl in Hr, Ho. lia.
  - exists h', s'. split; [exact Hrun | ]. split; [exact Hlen | ].
    rewrite !Hch. repeat split; reflexivity.
Defined.

(** X2. Extending a [Spikestamps] whose channels are distinct list objects
    with itself doubles every channel in place and adds none. *)
Theorem extend_self_doubles (h : heap) (s : t) :
  allocated h s -> NoDup (data s) ->
  exists h',
    extend (Stamps s) s h = Ok (h', s) /\
    length h' = length h /\
    forall i, channel h' s i = channel h s i ++ channel h s i.
Proof.
  intros Hs Hnd.
  destruct (extend_stamps_spec h s s Hs Hs Hnd)
    as (h' & Hrun & Hl & _ & _ & Hin).
  { intros j a Hj. right. exact Hj. }
  rewrite Nat.sub_diag in Hrun, Hl, Hin. cbn [seq] in Hrun, Hin.
  rewrite app_nil_r in Hrun, Hin.
  exists h'. split; [destruct s; exact Hrun | ].
  split; [lia | ].
  intros i. unfold channel at 1.
  destruct (nth_error (data s) i) as [r|] eqn:Hi.
  - rewrite (Hin i r Hi). unfold channel. rewrite Hi. reflexivity.
  - unfold channel. rewrite Hi. reflexivity.
Qed.

Lemma extend_self_doubles_witness :
  exists h',
    extend (Stamps Sample.stamps2) Sample.stamps2 Sample.heap6
      = Ok (h', Sample.stamps2) /\
    channel h' Sample.stamps2 1 = [0.2%Q; 0.3%Q; 0.2%Q; 0.3%Q].
Proof.
  destruct (extend_self_doubles Sample.heap6 Sample.stamps2)
    as (h' & Hrun & _ & Hch).
  - repeat constructor.
  - repeat constructor; simpl; lia.
  - exists h'. split; [exact Hrun | ]. rewrite Hch. reflexivity.
Defined.

(** X3. [append] stores the caller's list object itself.  When that list
    is not yet a channel of [self], the channels of [self] are pairwise
    distinct list objects, and neither they nor the appended list are
    channels of the other [Spikestamps], extending with the other makes
    the caller's list grow by the spikes of the other's channel at that
    position, and by nothing if the other has no such channel. *)
Theorem append_shares_list (h : heap) (s o : t) (item : ref) :
  allocated h s -> allocated h o -> (item < length h)%nat ->
  NoDup (data s ++ [item]) -> separate (append item s) o ->
  exists h' s',
    extend (Stamps o) (append item s) h = Ok (h', s') /\
    nth_error (data s') (length (data s)) = Some item /\
    contents h' item
      = contents h item ++ channel h o (length (data s)).
Proof.
  intros Hs Ho Hitem Hnd Hsep.
  assert (Ha : allocated h (append item s)).
  { unfold allocated, append. cbn [data]. apply Forall_app.
    split; [exact Hs | repeat constructor; exact Hitem]. }
  destruct (extend_stamps_spec h (append item s) o Ha Ho Hnd)
    as (h' & Hrun & _ & _ & _ & Hin).
  { intros j a Hj. left. intros Hr.
    exact (Hsep a Hr (nth_error_In _ _ Hj)). }
  assert (Hpos : nth_error
                   (data (append item s)
                    ++ seq (length h)
                         (length (data o) - length (data (append item s))))
                   (length (data s)) = Some item).
  { unfold append. cbn [data]. rewrite <- app_assoc.
    rewrite nth_error_app2 by lia. rewrite Nat.sub_diag. reflexivity. }
  eexists h', _. split; [exact Hrun | ]. cbn [data].
  split; [exact Hpos | ].
  exact (Hin _ _ Hpos).
Qed.

Lemma append_shares_list_witness :
  exists h' s',
    extend (Stamps Sample.stamps4) (append 1%nat (mk [0%nat])) Sample.heap6
      = Ok (h', s') /\
    contents h' 1%nat = [0.2%Q; 0.3%Q; 2%Q].
Proof.
  destruct (append_shares_list Sample.heap6 (mk [0%nat]) Sample.stamps4 1%nat)
    as (h' & s' & Hrun & _ & Hc).
  - repeat constructor.
  - repeat constructor.
  - simpl. lia.
  - repeat constructor; simpl; lia.
  - intros r Hr Ho. simpl in Hr, Ho. lia.
  - exists h', s'. split; [exact Hrun | ]. rewrite Hc. reflexivity.
Defined.

(** X4. A newly constructed [Spikestamps], with or without a channel
    count, extended with another one becomes a copy of it: it has the
    larger of the two channel counts, every channel holds the other's
    spikes, no list object is shared with the other, and the other is
    unchanged. *)
Theorem new_extended_is_a_copy (h : heap) (o : t) (num_channels : option Z) :
  allocated h o ->
  exists h' s',
    extend (Stamps o) (snd (__init__ num_channels h))
           (fst (__init__ num_channels h)) = Ok (h', s') /\
    length (data s')
      = Nat.max (match num_channels with
                 | Some n => Z.to_nat n
                 | None => 0%nat
                 end) (length (data o)) /\
    (forall i, channel h' s' i = channel h o i) /\
    (forall i, channel h' o i = channel h o i) /\
    separate s' o.
Proof.
  intros Ho.
  set (n := match num_channels with
            | Some n => Z.to_nat n
            | None => 0%nat
            end).
  assert (Hinit : __init__ num_channels h
                  = (h ++ repeat [] n, mk (seq (length h) n))).
  { unfold __init__. destruct num_channels as [z|].
    - rewrite fresh_channels_spec. reflexivity.
    - simpl. rewrite app_nil_r. reflexivity. }
  rewrite Hinit. cbn [fst snd].
  unfold allocated in Ho. rewrite Forall_forall in Ho.
  destruct (extend_stamps_spec (h ++ repeat [] n) (mk (seq (length h) n)) o)
    as (h' & Hrun & Hl & Hnd1 & Hout & Hin).
  - apply Forall_forall. intros r Hr. cbn [data] in Hr.
    apply in_seq in Hr. rewrite length_app, repeat_length. lia.
  - apply Forall_forall. intros r Hr. specialize (Ho r Hr).
    rewrite length_app. lia.
  - apply seq_NoDup.
  - intros j a Hj. left. cbn [data]. intros Hr. apply in_seq in Hr.
    specialize (Ho a (nth_error_In _ _ Hj)). lia.
  - cbn [data] in *. rewrite length_seq in *.
    rewrite length_app, repeat_length in *.
    set (k := (length (data o) - n)%nat) in *.
    assert (Hsep1 : forall r,
               In r (seq (length h) n ++ seq (length h + n) k) ->
               ~ In r (data o)).
    { intros r Hr Hro. specialize (Ho r Hro).
      apply in_app_or in Hr. destruct Hr as [Hr | Hr];
        apply in_seq in Hr; lia. }
    eexists h', _. split; [exact Hrun | ]. cbn [data].
    split; [rewrite length_app, !length_seq; subst k; lia | ].
    split; [ | split; [ | exact Hsep1]].
    + intros i. unfold channel at 1. cbn [data].
      match goal with
      | |- match ?x with _ => _ end = _ => destruct x as [r|] eqn:Hi
      end.
      * rewrite (Hin i r Hi). rewrite contents_padded.
        assert (Hr : (length h <= r)%nat).
        { apply nth_error_In, in_app_or in Hi.
          destruct Hi as [Hi | Hi]; apply in_seq in Hi; lia. }
        unfold contents at 1. rewrite (@nth_overflow _ h r [] Hr).
        unfold channel. destruct (nth_error (data o) i);
          [apply contents_padded | reflexivity].
      * apply nth_error_None in Hi. rewrite length_app, !length_seq in Hi.
        unfold channel.
        rewrite (proj2 (nth_error_None (data o) i)) by (subst k; lia).
        reflexivity.
    + intros i. unfold channel.
      destruct (nth_error (data o) i) as [a|] eqn:Ha; [ | reflexivity].
      rewrite Hout; [apply contents_padded | ].
      intros Hr. exact (Hsep1 a Hr (nth_error_In _ _ Ha)).
Qed.

Lemma new_extended_is_a_copy_witness :
  exists h' s',
    extend (Stamps Sample.stamps4)
           (snd (__init__ (Some 2) Sample.heap6))
           (fst (__init__ (Some 2) Sample.heap6)) = Ok (h', s') /\
    length (data s') = 4%nat /\
    channel h' s' 2 = [3%Q].
Proof.
  destruct (new_extended_is_a_copy Sample.heap6 Sample.stamps4 (Some 2))
    as (h' & s' & Hrun & Hlen & Hch & _).
  - repeat constructor.
  - exists h', s'. split; [exact Hrun | ]. split; [exact Hlen | ].
    rewrite Hch. reflexivity.
Defined.

End SpikestampsFacts.
